(** * facturacion-api: request validation, query building and identity
    resolution of the invoice / performance servers.

    Shallow embedding of
      - facturacion_server.py  (HTTP invoice endpoint),
      - agent_server.py        (tool server, fixed agent CIF),
      - agent_server_sse.py    (tool server with the e-mail gatekeeper),
      - performance_server.py  (HTTP performance / zone endpoints).

    Conventions.
      - A Python [str] is a Rocq [string] holding its UTF-8 bytes.  Byte-wise
        lexicographic order on UTF-8 coincides with Python's code-point order,
        so [<] / [>] on [str] is [String.ltb].
      - A Python [float] is a binary64 number, [spec_float] with the
        operations of [SpecFloat] at precision 53 and exponent bound 1024.
      - The database driver is an external collaborator: a connection is a
        function from a statement and its positional arguments to rows or an
        exception.  Every handler runs in a small state-and-exception monad
        whose state is the log of what was done to the outside world:
        connections asked for, statements executed, connections closed and
        lines printed.  Cursors are not logged; a cursor is the result set of
        the statement it executed.
      - What belongs to the database or to the Python runtime and varies
        with their version or locale is not fixed here: the [LOWER] of the
        database is a field of the store, the conversions between floats
        and text are a record of the runtime.
      - The process start-up is left out. *)

From Stdlib Require Import ZArith List String Ascii Bool Lia.
From Stdlib Require Import Sorting.Sorted.
From Stdlib Require Import Floats.SpecFloat.
Import ListNotations.

Local Open Scope string_scope.
Local Open Scope Z_scope.

(** ** Python values *)

Module Py.

(** Truthiness of an [Optional[str]]: [None] and the empty string are
    falsy. *)
Definition truthy (o : option string) : bool :=
  match o with
  | None => false
  | Some EmptyString => false
  | Some (String _ _) => true
  end.

(** [a > b] on [str]. *)
Definition str_gt (a b : string) : bool := String.ltb b a.

(** [x in xs] for a list of strings. *)
Fixpoint str_in (x : string) (xs : list string) : bool :=
  match xs with
  | [] => false
  | y :: ys => if String.eqb x y then true else str_in x ys
  end.

(** [sep.join(xs)]. *)
Fixpoint join (sep : string) (xs : list string) : string :=
  match xs with
  | [] => EmptyString
  | [x] => x
  | x :: rest => x ++ sep ++ join sep rest
  end.

(** Decimal rendering of an integer ([str(n)]).  The digits are produced
    from the least significant one; a number has no more decimal digits than
    binary ones, which bounds the recursion. *)
Definition digit_char (d : Z) : ascii := ascii_of_nat (48 + Z.to_nat d).

Fixpoint digits (fuel : nat) (n : Z) (acc : string) : string :=
  match fuel with
  | O => acc
  | S fuel' =>
      let acc' := String (digit_char (n mod 10)) acc in
      if n / 10 =? 0 then acc' else digits fuel' (n / 10) acc'
  end.

Definition str_of_pos (p : positive) : string :=
  digits (Pos.size_nat p) (Zpos p) EmptyString.

Definition str_of_Z (z : Z) : string :=
  match z with
  | Z0 => "0"
  | Zpos p => str_of_pos p
  | Zneg p => "-" ++ str_of_pos p
  end.

Definition str_of_nat (n : nat) : string := str_of_Z (Z.of_nat n).

(** Exceptions that the handlers raise or catch.  [str_exn] is Python's
    [str(e)]. *)
Inductive exn :=
| HTTPException (status_code : Z) (detail : string)
| ValueError (msg : string)
| RuntimeError (msg : string)
| TypeError (msg : string)
| KeyError (key : string)
| OverflowError (msg : string)
| DriverError (msg : string).

Definition str_exn (e : exn) : string :=
  match e with
  | HTTPException c d => str_of_Z c ++ ": " ++ d
  | ValueError m | RuntimeError m | TypeError m => m
  | OverflowError m | DriverError m => m
  | KeyError k => "'" ++ k ++ "'"
  end.

End Py.

(** ** [datetime.strptime(s, "%Y-%m-%d")]

    CPython turns the format into the regular expression
    [(?P<Y>\d\d\d\d)-(?P<m>1[0-2]|0[1-9]|[1-9])-(?P<d>3[0-1]|[1-2]\d|0[1-9]|[1-9]| [1-9])],
    matches it at the start of the input with ordered alternatives, raises
    [ValueError] when there is no match or when input remains after the match,
    and finally builds the date, which raises [ValueError] for year 0 or a day
    beyond the month's length.

    Domain: texts of ASCII characters, on which a byte is a character and
    [\d] is one of [0-9].  CPython's [\d] and [int] also take the decimal
    digits of other scripts (the fullwidth digits, for one), which this
    model refuses; a statement about everything the validator accepts is
    made for ASCII texts only. *)

Module Strptime.

Definition is_digit (c : ascii) : bool :=
  let n := nat_of_ascii c in (48 <=? n)%nat && (n <=? 57)%nat.

Definition digit_val (c : ascii) : Z := Z.of_nat (nat_of_ascii c) - 48.

Definition in_range (lo hi : nat) (c : ascii) : bool :=
  let n := nat_of_ascii c in (lo <=? n)%nat && (n <=? hi)%nat.

(** [\d\d\d\d] *)
Definition match_Y (s : string) : option (Z * string) :=
  match s with
  | String a (String b (String c (String d rest))) =>
      if is_digit a && is_digit b && is_digit c && is_digit d
      then Some (1000 * digit_val a + 100 * digit_val b
                 + 10 * digit_val c + digit_val d, rest)
      else None
  | _ => None
  end.

Definition match_dash (s : string) : option string :=
  match s with
  | String "-"%char rest => Some rest
  | _ => None
  end.

(** One alternative made of two character classes, or of one. *)
Definition two (p q : ascii -> bool) (s : string) : list (Z * string) :=
  match s with
  | String a (String b rest) =>
      if p a && q b then [(10 * digit_val a + digit_val b, rest)] else []
  | _ => []
  end.

Definition one (p : ascii -> bool) (s : string) : list (Z * string) :=
  match s with
  | String a rest => if p a then [(digit_val a, rest)] else []
  | _ => []
  end.

(** The blank-padded day, [ [1-9]]. *)
Definition blank_one (s : string) : list (Z * string) :=
  match s with
  | String " "%char (String b rest) =>
      if in_range 49 57 b then [(digit_val b, rest)] else []
  | _ => []
  end.

(** The matches of the month group, in the order the regular expression
    engine tries them: [1[0-2]], [0[1-9]], [[1-9]]. *)
Definition m_candidates (s : string) : list (Z * string) :=
  two (in_range 49 49) (in_range 48 50) s
  ++ two (in_range 48 48) (in_range 49 57) s
  ++ one (in_range 49 57) s.

(** The matches of the day group, in order:
    [3[0-1]], [[1-2]\d], [0[1-9]], [[1-9]], [ [1-9]]. *)
Definition d_candidates (s : string) : list (Z * string) :=
  two (in_range 51 51) (in_range 48 49) s
  ++ two (in_range 49 50) is_digit s
  ++ two (in_range 48 48) (in_range 49 57) s
  ++ one (in_range 49 57) s
  ++ blank_one s.

Fixpoint first_some {A B} (f : A -> option B) (xs : list A) : option B :=
  match xs with
  | [] => None
  | x :: rest =>
      match f x with
      | Some y => Some y
      | None => first_some f rest
      end
  end.

(** [format_regex.match(data_string)]: year, month, day and the unmatched
    remainder of the input. *)
Definition regex_match (s : string) : option (Z * Z * Z * string) :=
  match match_Y s with
  | None => None
  | Some (y, s1) =>
      match match_dash s1 with
      | None => None
      | Some s2 =>
          first_some
            (fun '(m, s3) =>
               match match_dash s3 with
               | None => None
               | Some s4 =>
                   match d_candidates s4 with
                   | [] => None
                   | (d, rest) :: _ => Some (y, m, d, rest)
                   end
               end)
            (m_candidates s2)
      end
  end.

Definition is_leap (y : Z) : bool :=
  (y mod 4 =? 0) && (negb (y mod 100 =? 0) || (y mod 400 =? 0)).

Definition days_in_month (y m : Z) : Z :=
  if m =? 2 then (if is_leap y then 29 else 28)
  else if (m =? 4) || (m =? 6) || (m =? 9) || (m =? 11) then 30
  else 31.

(** What the [date] constructor accepts. *)
Definition date_ok (y m d : Z) : bool :=
  (1 <=? y) && (y <=? 9999) && (1 <=? m) && (m <=? 12)
  && (1 <=? d) && (d <=? days_in_month y m).

Definition strptime (s : string) : Py.exn + (Z * Z * Z) :=
  match regex_match s with
  | None =>
      inl (Py.ValueError
             ("time data '" ++ s ++ "' does not match format '%Y-%m-%d'"))
  | Some (y, m, d, rest) =>
      match rest with
      | String _ _ => inl (Py.ValueError ("unconverted data remains: " ++ rest))
      | EmptyString =>
          if date_ok y m d then inr (y, m, d)
          else inl (Py.ValueError "day is out of range for month")
      end
  end.

End Strptime.

(** [validar_fecha], identical in facturacion_server.py and agent_server.py:
    [True] when [strptime] returns, [False] when it raises (it raises nothing
    but [ValueError] on a [str]). *)
Definition validar_fecha (fecha_str : string) : bool :=
  match Strptime.strptime fecha_str with
  | inr _ => true
  | inl _ => false
  end.


(** ** The database driver and the effects of a handler *)

Module DB.

(** A value exchanged with the driver.  As a cell of a result row: SQL
    NULL, an integer, a [Decimal] with coefficient and exponent, a float,
    text or a date.  As a positional argument of [cursor.execute]: [None],
    a [str] or an [int]. *)
Inductive value :=
| VNone
| VInt (n : Z)
| VDec (coef exp : Z)
| VFloat (f : spec_float)
| VStr (s : string)
| VDate (y m d : Z).

Definition param : Type := value.

Definition param_of_opt (o : option string) : param :=
  match o with
  | None => VNone
  | Some s => VStr s
  end.

(** A [dict_row]: an ordered mapping from column name to cell. *)
Definition row : Type := list (string * value).

Fixpoint lookup (k : string) (r : row) : option value :=
  match r with
  | [] => None
  | (k', v) :: rest => if String.eqb k k' then Some v else lookup k rest
  end.

(** The row source: statement and ordered arguments to rows, or an
    exception of the driver. *)
Record connection := { execute : string -> list param -> Py.exn + list row }.

(** The outcome of [psycopg.connect(...)]. *)
Definition world : Type := Py.exn + connection.

(** What a handler does to the outside world, in order. *)
Inductive event :=
| Connect
| Execute (query : string) (params : list param)
| Close
| Print (line : string).

Definition M (A : Type) : Type := list event -> (Py.exn + A) * list event.

Definition ret {A} (a : A) : M A := fun l => (inr a, l).

Definition raise {A} (e : Py.exn) : M A := fun l => (inl e, l).

Definition bind {A B} (m : M A) (k : A -> M B) : M B :=
  fun l =>
    match m l with
    | (inl e, l') => (inl e, l')
    | (inr a, l') => k a l'
    end.

Definition emit (ev : event) : M unit := fun l => (inr tt, (l ++ [ev])%list).

(** [try: body except Exception as e: handler(e)] *)
Definition try_except {A} (body : M A) (handler : Py.exn -> M A) : M A :=
  fun l =>
    match body l with
    | (inl e, l') => handler e l'
    | (inr a, l') => (inr a, l')
    end.

Definition lift {A} (r : Py.exn + A) : M A :=
  match r with
  | inl e => raise e
  | inr a => ret a
  end.

(** Run a handler from an empty log. *)
Definition run {A} (m : M A) : (Py.exn + A) * list event := m [].

(** [psycopg.connect(...)] *)
Definition psycopg_connect (w : world) : M connection :=
  bind (emit Connect) (fun _ => lift w).

(** [with <get> as conn: body]: the connection is closed on the way out,
    whether the body returns or raises. *)
Definition with_connection {A} (get : M connection) (body : connection -> M A)
  : M A :=
  bind get
    (fun conn l =>
       let '(r, l') := body conn l in (r, (l' ++ [Close])%list)).

(** [cur.execute(query, params)]; the value is the result set the cursor
    then holds. *)
Definition cur_execute (conn : connection) (query : string)
           (params : list param) : M (list row) :=
  bind (emit (Execute query params))
    (fun _ => lift (execute conn query params)).

(** [cur.fetchone()] *)
Definition fetchone (rows : list row) : option row := hd_error rows.

(** [row[key]] *)
Definition getitem (r : row) (key : string) : M value :=
  match lookup key r with
  | Some v => ret v
  | None => raise (Py.KeyError key)
  end.

(** The statements a log executed, and how many times it asked for a
    connection. *)
Fixpoint executed (l : list event) : list (string * list param) :=
  match l with
  | [] => []
  | Execute q ps :: rest => (q, ps) :: executed rest
  | _ :: rest => executed rest
  end.

Fixpoint connections (l : list event) : nat :=
  match l with
  | [] => O
  | Connect :: rest => S (connections rest)
  | _ :: rest => connections rest
  end.

(** A computation that leaves the log as it found it. *)
Definition quiet {A} (m : M A) : Prop := forall l, snd (m l) = l.

(** A computation that only adds events satisfying [Q] to the log. *)
Definition emits {A} (Q : event -> Prop) (m : M A) : Prop :=
  forall l, exists evs, snd (m l) = (l ++ evs)%list /\ Forall Q evs.

(** *** Placeholders of a statement

    The driver reads [%s] as a positional placeholder and [%%] as a literal
    percent sign ([%b] and [%t], which these servers do not use, are not
    read here; any other use of [%] is rejected).  [contexts q] is, for each
    placeholder in order, the statement text that precedes it since the
    previous placeholder. *)
Fixpoint scan (q : string) (cur : string) (acc : list string)
  : option (list string) :=
  match q with
  | EmptyString => Some (rev acc)
  | String "%"%char (String "s"%char rest) => scan rest EmptyString (cur :: acc)
  | String "%"%char (String "%"%char rest) => scan rest (cur ++ "%") acc
  | String "%"%char _ => None
  | String c rest => scan rest (cur ++ String c EmptyString) acc
  end.

Definition contexts (q : string) : option (list string) :=
  scan q EmptyString [].

Definition nl : string := String (ascii_of_nat 10) EmptyString.

End DB.

Notation "x <- c1 ;; c2" := (DB.bind c1 (fun x => c2))
  (at level 61, c1 at next level, right associativity).
Notation "c1 ;;; c2" := (DB.bind c1 (fun _ => c2))
  (at level 61, right associativity).

(** ** Request validation shared by the servers

    [o and p(o)] for an [Optional[str]]: false for [None] and for the empty
    string, otherwise [p] of the string. *)
Definition and_then (o : option string) (p : string -> bool) : bool :=
  match o with
  | Some (String _ _ as s) => p s
  | _ => false
  end.

Definition ESTADOS : list string := ["PENDIENTE"; "PAGADA"].

(** [estado and estado not in ['PENDIENTE', 'PAGADA']] *)
Definition estado_invalido (estado : option string) : bool :=
  and_then estado (fun s => negb (Py.str_in s ESTADOS)).

(** [fecha and not validar_fecha(fecha)] *)
Definition fecha_invalida (fecha : option string) : bool :=
  and_then fecha (fun s => negb (validar_fecha s)).

(** [fecha_inicio and fecha_fin and fecha_inicio > fecha_fin] *)
Definition rango_invalido (fecha_inicio fecha_fin : option string) : bool :=
  and_then fecha_inicio
    (fun a => and_then fecha_fin (fun b => Py.str_gt a b)).

Arguments DB.lookup : simpl never.
Arguments estado_invalido : simpl never.
Arguments fecha_invalida : simpl never.
Arguments rango_invalido : simpl never.

(** The optional predicates of the invoice query, in the order the code
    appends them: fragment of SQL and the value bound to its placeholder. *)
Definition append_if (o : option string) (fragment : string)
           (qp : string * list DB.param) : string * list DB.param :=
  if Py.truthy o
  then (fst qp ++ fragment, (snd qp ++ [DB.param_of_opt o])%list)
  else qp.

(** ** Rendering of driver values

    [str(v)] and [repr(v)] of a cell.  [Decimal.__str__] is transcribed from
    CPython's [_pydecimal]; the shortest-digits rendering of a float is left
    to the caller as [repr_float]. *)

Module Fmt.

Fixpoint zeros (n : nat) : string :=
  match n with
  | O => EmptyString
  | S n' => String "0"%char (zeros n')
  end.

(** [str(n).zfill(width)] for a non-negative [n]. *)
Definition pad (width : nat) (n : Z) : string :=
  let s := Py.str_of_Z n in
  zeros (width - String.length s) ++ s.

Definition str_date (y m d : Z) : string :=
  pad 4 y ++ "-" ++ pad 2 m ++ "-" ++ pad 2 d.

(** ["%+d" % n] *)
Definition signed (n : Z) : string :=
  if n <? 0 then Py.str_of_Z n else "+" ++ Py.str_of_Z n.

Definition str_decimal (coef exp : Z) : string :=
  let sign := if coef <? 0 then "-" else EmptyString in
  let digits := Py.str_of_Z (Z.abs coef) in
  let len := Z.of_nat (String.length digits) in
  let leftdigits := exp + len in
  let dotplace :=
    if (exp <=? 0) && (-6 <? leftdigits) then leftdigits else 1 in
  let intpart :=
    if dotplace <=? 0 then "0"
    else if len <=? dotplace
         then digits ++ zeros (Z.to_nat (dotplace - len))
         else String.substring 0 (Z.to_nat dotplace) digits in
  let fracpart :=
    if dotplace <=? 0 then "." ++ zeros (Z.to_nat (- dotplace)) ++ digits
    else if len <=? dotplace then EmptyString
         else "." ++ String.substring (Z.to_nat dotplace)
                       (Z.to_nat (len - dotplace)) digits in
  let e :=
    if leftdigits =? dotplace then EmptyString
    else "E" ++ signed (leftdigits - dotplace) in
  sign ++ intpart ++ fracpart ++ e.

Definition has (c : ascii) (s : string) : bool :=
  match String.index 0 (String c EmptyString) s with
  | Some _ => true
  | None => false
  end.

Definition hex_digit (n : nat) : ascii :=
  if (n <? 10)%nat then ascii_of_nat (48 + n) else ascii_of_nat (87 + n).

(** One ASCII character of [repr(str)] inside the quote [q]. *)
Definition escape_char (q c : ascii) : string :=
  let n := nat_of_ascii c in
  if Ascii.eqb c "\"%char then "\\"
  else if Ascii.eqb c q then String "\"%char (String q EmptyString)
  else if (n =? 10)%nat then "\n"
  else if (n =? 13)%nat then "\r"
  else if (n =? 9)%nat then "\t"
  else if ((n <? 32) || (n =? 127))%nat
       then "\x" ++ String (hex_digit (n / 16)) (String (hex_digit (n mod 16)) EmptyString)
  else String c EmptyString.

(** The characters U+0080 to U+00FF take two bytes, the first of which is
    C2 or C3.  The ones that are not printable, U+0080 to U+00A0 and U+00AD,
    all have C2 as their first byte and their code as the second. *)
Definition latin1_unprintable (c1 c2 : ascii) : bool :=
  let a := nat_of_ascii c1 in
  let b := nat_of_ascii c2 in
  ((a =? 194) && (((128 <=? b) && (b <=? 160)) || (b =? 173)))%nat.

(** [repr(str)] between the quotes.  Python escapes what is not printable:
    the ASCII controls and, beyond ASCII, what its Unicode tables say.  Up
    to U+00FF this is exact.  The characters from U+0100 on are taken for
    printable and kept; the few of them that are not (U+200B, U+2028 and the
    like) are outside this model. *)
Fixpoint escape (q : ascii) (s : string) : string :=
  match s with
  | EmptyString => EmptyString
  | String c1 rest =>
      match rest with
      | String c2 rest' =>
          if latin1_unprintable c1 c2
          then "\x" ++ String (hex_digit (nat_of_ascii c2 / 16))
                         (String (hex_digit (nat_of_ascii c2 mod 16)) EmptyString)
               ++ escape q rest'
          else escape_char q c1 ++ escape q rest
      | EmptyString => escape_char q c1
      end
  end.

Definition apostrophe : ascii := ascii_of_nat 39.
Definition dquote : ascii := ascii_of_nat 34.

Definition repr_str (s : string) : string :=
  let q := if has apostrophe s && negb (has dquote s) then dquote else apostrophe in
  String q (escape q s ++ String q EmptyString).

Section WithFloat.

Variable repr_float : spec_float -> string.

Definition str_value (v : DB.value) : string :=
  match v with
  | DB.VNone => "None"
  | DB.VInt n => Py.str_of_Z n
  | DB.VDec c e => str_decimal c e
  | DB.VFloat f => repr_float f
  | DB.VStr s => s
  | DB.VDate y m d => str_date y m d
  end.

Definition repr_value (v : DB.value) : string :=
  match v with
  | DB.VNone => "None"
  | DB.VInt n => Py.str_of_Z n
  | DB.VDec c e => "Decimal('" ++ str_decimal c e ++ "')"
  | DB.VFloat f => repr_float f
  | DB.VStr s => repr_str s
  | DB.VDate y m d =>
      "datetime.date(" ++ Py.str_of_Z y ++ ", " ++ Py.str_of_Z m
      ++ ", " ++ Py.str_of_Z d ++ ")"
  end.

(** [str(row)] of a dict and [str(rows)] of a list of dicts. *)
Definition repr_row (r : DB.row) : string :=
  "{" ++ Py.join ", "
           (map (fun kv => repr_str (fst kv) ++ ": " ++ repr_value (snd kv)) r)
  ++ "}".

Definition repr_rows (rows : list DB.row) : string :=
  "[" ++ Py.join ", " (map repr_row rows) ++ "]".

End WithFloat.

End Fmt.

(** A JSON-like response body, as the HTTP handlers return it. *)
#[warnings="-register-all"]
Inductive json :=
| JNone
| JBool (b : bool)
| JInt (n : Z)
| JFloat (f : spec_float)
| JStr (s : string)
| JCell (v : DB.value)
| JRows (rows : list DB.row)
| JObj (fields : list (string * json)).

Definition json_of_opt (o : option string) : json :=
  match o with
  | None => JNone
  | Some s => JStr s
  end.

Fixpoint field (k : string) (fields : list (string * json)) : option json :=
  match fields with
  | [] => None
  | (k', v) :: rest => if String.eqb k k' then Some v else field k rest
  end.

(** ** facturacion_server.py *)

Module Facturacion.

Import DB.

Record FacturasRequest := {
  estado : option string;
  fecha_inicio : option string;
  fecha_fin : option string;
  limit : Z
}.

Definition get_db_connection (w : world) : M connection :=
  try_except (psycopg_connect w)
    (fun e =>
       emit (Print ("❌ Error DB: " ++ Py.str_exn e)) ;;;
       raise (Py.HTTPException 500
                "Error de conexión con el sistema de facturación")).

Definition base_query : string :=
  Eval cbv in
    (nl ++ "                    SELECT numero_factura, estado_legible, fecha_emision, moneda, total"
     ++ nl ++ "                    FROM view_ai_facturas"
     ++ nl ++ "                    WHERE emisor_cif = %s "
     ++ nl ++ "                ").

(** The statement and its arguments, built between the opening of the
    cursor and [cur.execute]. *)
Definition build_query (req : FacturasRequest) (x_agent_cif : option string)
  : string * list param :=
  let qp := (base_query, [param_of_opt x_agent_cif]) in
  let qp := append_if (estado req) " AND estado_legible = %s" qp in
  let qp := append_if (fecha_inicio req) " AND fecha_emision >= %s" qp in
  let qp := append_if (fecha_fin req) " AND fecha_emision <= %s" qp in
  (fst qp ++ " ORDER BY fecha_emision DESC LIMIT %s",
   (snd qp ++ [VInt (limit req)])%list).

Definition estado_error : Py.exn :=
  Py.HTTPException 400 "Estado inválido. Usa 'PENDIENTE' o 'PAGADA'.".
Definition fecha_inicio_error : Py.exn :=
  Py.HTTPException 400
    "Formato de fecha_inicio inválido. Usa 'YYYY-MM-DD' (ej: 2024-11-01).".
Definition fecha_fin_error : Py.exn :=
  Py.HTTPException 400
    "Formato de fecha_fin inválido. Usa 'YYYY-MM-DD' (ej: 2024-11-30).".
Definition rango_error : Py.exn :=
  Py.HTTPException 400 "La fecha_inicio no puede ser posterior a fecha_fin.".

Definition consultar_facturas (w : world) (req : FacturasRequest)
           (x_agent_cif : option string) : M json :=
  if estado_invalido (estado req) then raise estado_error
  else if fecha_invalida (fecha_inicio req) then raise fecha_inicio_error
  else if fecha_invalida (fecha_fin req) then raise fecha_fin_error
  else if rango_invalido (fecha_inicio req) (fecha_fin req)
  then raise rango_error
  else
    try_except
      (with_connection (get_db_connection w)
         (fun conn =>
            let '(query, params) := build_query req x_agent_cif in
            rows <- cur_execute conn query params ;;
            ret (JObj
                   [("count", JInt (Z.of_nat (List.length rows)));
                    ("data", JRows rows);
                    ("filtros_aplicados",
                     JObj [("estado", json_of_opt (estado req));
                           ("fecha_inicio", json_of_opt (fecha_inicio req));
                           ("fecha_fin", json_of_opt (fecha_fin req));
                           ("limit", JInt (limit req));
                           ("agent_cif", json_of_opt x_agent_cif)])])))
      (fun e =>
         emit (Print ("❌ Error en consultar_facturas: " ++ Py.str_exn e)) ;;;
         raise (Py.HTTPException 500 (Py.str_exn e))).

(** [GET /health] *)
Definition health_check (w : world) : M json :=
  try_except
    (with_connection (get_db_connection w)
       (fun conn => cur_execute conn "SELECT 1" [] ;;; ret tt) ;;;
     ret (JObj [("status", JStr "healthy");
                ("database", JStr "connected");
                ("service", JStr "facturacion-api")]))
    (fun e =>
       ret (JObj [("status", JStr "unhealthy");
                  ("database", JStr "disconnected");
                  ("error", JStr (Py.str_exn e))])).

(** [GET /] *)
Definition root : json :=
  JObj [("service", JStr "Facturación API - Agentes Inmobiliarios");
        ("version", JStr "1.0.0");
        ("status", JStr "running");
        ("endpoints",
         JObj [("docs", JStr "/docs");
               ("health", JStr "/health");
               ("consultar_facturas", JStr "/tools/consultar-facturas");
               ("buscar_propiedad", JStr "/tools/buscar-propiedad")])].

End Facturacion.

(** ** Python arithmetic on driver values *)

Module Num.

Import DB.

(** What the embedding takes from the Python runtime without modelling
    it: the shortest-digits [repr] of a float and the parsers behind
    [float(s)] and [int(s)] for a [str] ([None] when they raise). *)
Record runtime := {
  repr_float : spec_float -> string;
  float_of_str : string -> option spec_float;
  int_of_str : string -> option Z
}.

Definition fmul : spec_float -> spec_float -> spec_float := SFmul 53 1024.
Definition fsub : spec_float -> spec_float -> spec_float := SFsub 53 1024.

(** The float nearest to an integer. *)
Definition float_of_Z (n : Z) : spec_float := binary_normalize 53 1024 n 0 false.

Definition fzero : spec_float := S754_zero false.

(** [float(Decimal)]: the float nearest to [coef * 10 ** exp]. *)
Definition float_of_decimal (coef exp : Z) : spec_float :=
  if 0 <=? exp then float_of_Z (coef * 10 ^ exp)
  else
    match coef with
    | Z0 => fzero
    | Zpos m =>
        SFdiv 53 1024 (S754_finite false m 0)
          (S754_finite false (Z.to_pos (10 ^ (- exp))) 0)
    | Zneg m =>
        SFdiv 53 1024 (S754_finite true m 0)
          (S754_finite false (Z.to_pos (10 ^ (- exp))) 0)
    end.

(** [int(f)] for a float: truncation toward zero. *)
Definition int_of_float (f : spec_float) : Py.exn + Z :=
  match f with
  | S754_zero _ => inr 0
  | S754_finite s m e =>
      let a := if 0 <=? e then Zpos m * 2 ^ e else Zpos m / 2 ^ (- e) in
      inr (if s then - a else a)
  | S754_infinity _ =>
      inl (Py.OverflowError "cannot convert float infinity to integer")
  | S754_nan => inl (Py.ValueError "cannot convert float NaN to integer")
  end.

(** [int(Decimal)]: truncation toward zero. *)
Definition int_of_decimal (coef exp : Z) : Z :=
  if 0 <=? exp then coef * 10 ^ exp else Z.quot coef (10 ^ (- exp)).

Fixpoint repeat_str (n : nat) (s : string) : string :=
  match n with
  | O => EmptyString
  | S n' => s ++ repeat_str n' s
  end.

Section WithRuntime.

Variable rt : runtime.

(** [float(v)] *)
Definition py_float (v : value) : Py.exn + spec_float :=
  match v with
  | VNone =>
      inl (Py.TypeError
             "float() argument must be a string or a real number, not 'NoneType'")
  | VInt n =>
      match float_of_Z n with
      | S754_infinity _ =>
          inl (Py.OverflowError "int too large to convert to float")
      | f => inr f
      end
  | VDec c e => inr (float_of_decimal c e)
  | VFloat f => inr f
  | VStr s =>
      match float_of_str rt s with
      | Some f => inr f
      | None => inl (Py.ValueError ("could not convert string to float: " ++ Fmt.repr_str s))
      end
  | VDate _ _ _ =>
      inl (Py.TypeError
             "float() argument must be a string or a real number, not 'datetime.date'")
  end.

(** [int(v)] *)
Definition py_int (v : value) : Py.exn + Z :=
  match v with
  | VNone =>
      inl (Py.TypeError
             "int() argument must be a string, a bytes-like object or a real number, not 'NoneType'")
  | VInt n => inr n
  | VDec c e => inr (int_of_decimal c e)
  | VFloat f => int_of_float f
  | VStr s =>
      match int_of_str rt s with
      | Some n => inr n
      | None => inl (Py.ValueError ("invalid literal for int() with base 10: " ++ Fmt.repr_str s))
      end
  | VDate _ _ _ =>
      inl (Py.TypeError
             "int() argument must be a string, a bytes-like object or a real number, not 'datetime.date'")
  end.

(** [v * 100].  A [Decimal] product is exact up to the 28 digits of the
    default context; longer coefficients are outside this model. *)
Definition times100 (v : value) : Py.exn + value :=
  match v with
  | VNone =>
      inl (Py.TypeError "unsupported operand type(s) for *: 'NoneType' and 'int'")
  | VInt n => inr (VInt (n * 100))
  | VDec c e => inr (VDec (c * 100) e)
  | VFloat f => inr (VFloat (fmul f (float_of_Z 100)))
  | VStr s => inr (VStr (repeat_str 100 s))
  | VDate _ _ _ =>
      inl (Py.TypeError "unsupported operand type(s) for *: 'datetime.date' and 'int'")
  end.

(** [int(v * 100)] *)
Definition percent (v : value) : Py.exn + Z :=
  match times100 v with
  | inl e => inl e
  | inr p => py_int p
  end.

End WithRuntime.

(** Truthiness of a cell. *)
Definition truthy (v : value) : bool :=
  match v with
  | VNone => false
  | VInt n => negb (n =? 0)
  | VDec c _ => negb (c =? 0)
  | VFloat (S754_zero _) => false
  | VFloat _ => true
  | VStr EmptyString => false
  | VStr _ => true
  | VDate _ _ _ => true
  end.

End Num.

(** ** agent_server.py *)

Module Agent.

Import DB.

Definition get_db_connection (w : world) : M connection :=
  try_except (psycopg_connect w)
    (fun e => raise (Py.RuntimeError ("Error conectando a la BD: " ++ Py.str_exn e))).

Definition base_query : string :=
  Eval cbv in
    (nl ++ "                    SELECT numero_factura, estado_legible, fecha_emision, "
     ++ nl ++ "                           moneda, total"
     ++ nl ++ "                    FROM view_ai_facturas"
     ++ nl ++ "                    WHERE emisor_cif = %s "
     ++ nl ++ "                ").

Definition buscar_query : string :=
  Eval cbv in
    (nl ++ "                    SELECT "
     ++ nl ++ "                        numero_factura, "
     ++ nl ++ "                        estado_legible, "
     ++ nl ++ "                        total, "
     ++ nl ++ "                        moneda,"
     ++ nl ++ "                        emisor_direccion_calle,"
     ++ nl ++ "                        similarity(emisor_direccion_calle, %s) as score"
     ++ nl ++ "                    FROM view_ai_facturas"
     ++ nl ++ "                    WHERE emisor_cif = %s "
     ++ nl ++ "                    AND emisor_direccion_calle %% %s  -- <--- AQUÍ ESTÁ EL CAMBIO (%%)"
     ++ nl ++ "                    ORDER BY score DESC"
     ++ nl ++ "                    LIMIT 3;"
     ++ nl ++ "                ").

Definition estado_error : string :=
  "Error: Estado inválido. Usa 'PENDIENTE' o 'PAGADA'.".
Definition fecha_inicio_error : string :=
  "Error: Formato de fecha_inicio inválido. Usa 'YYYY-MM-DD' (ej: 2024-11-01).".
Definition fecha_fin_error : string :=
  "Error: Formato de fecha_fin inválido. Usa 'YYYY-MM-DD' (ej: 2024-11-30).".
Definition rango_error : string :=
  "Error: La fecha_inicio no puede ser posterior a fecha_fin.".
Definition sin_facturas : string :=
  "No se encontraron facturas con esos criterios.".

Section WithContext.

Variable rt : Num.runtime.

(** [CURRENT_AGENT_CIF = os.getenv("TEST_AGENT_CIF")] *)
Variable CURRENT_AGENT_CIF : option string.

Definition build_query (estado fecha_inicio fecha_fin : option string)
           (limit : Z) : string * list param :=
  let qp := (base_query, [param_of_opt CURRENT_AGENT_CIF]) in
  let qp := append_if estado " AND estado_legible = %s" qp in
  let qp := append_if fecha_inicio " AND fecha_emision >= %s" qp in
  let qp := append_if fecha_fin " AND fecha_emision <= %s" qp in
  (fst qp ++ " ORDER BY fecha_emision DESC LIMIT %s",
   (snd qp ++ [VInt limit])%list).

(** The [filtros] list of the summary. *)
Definition filtros (estado fecha_inicio fecha_fin : option string)
  : list string :=
  let de_estado :=
    match estado with
    | Some (String _ _ as e) => ["estado: " ++ e]
    | _ => []
    end in
  let de_fechas :=
    match fecha_inicio, fecha_fin with
    | Some (String _ _ as a), Some (String _ _ as b) =>
        ["periodo: " ++ a ++ " a " ++ b]
    | Some (String _ _ as a), _ => ["desde: " ++ a]
    | _, Some (String _ _ as b) => ["hasta: " ++ b]
    | _, _ => []
    end in
  (de_estado ++ de_fechas)%list.

Definition str_value : value -> string := Fmt.str_value (Num.repr_float rt).

(** The line of one invoice. *)
Definition factura_line (r : row) : M string :=
  numero <- getitem r "numero_factura" ;;
  estado_legible <- getitem r "estado_legible" ;;
  total <- getitem r "total" ;;
  moneda <- getitem r "moneda" ;;
  fecha <- getitem r "fecha_emision" ;;
  ret ("- Factura " ++ str_value numero ++ " (" ++ str_value estado_legible
       ++ "): " ++ str_value total ++ " " ++ str_value moneda
       ++ ". Fecha: " ++ str_value fecha ++ nl).

(** [for row in rows: resultado += line(row)] *)
Fixpoint each_row (line : row -> M string) (rows : list row)
         (resultado : string) : M string :=
  match rows with
  | [] => ret resultado
  | r :: rest =>
      l <- line r ;;
      each_row line rest (resultado ++ l)
  end.

Definition encabezado (n : nat) (fs : list string) : string :=
  let resultado := "Encontré " ++ Py.str_of_nat n ++ " factura(s)" in
  let resultado :=
    match fs with
    | [] => resultado
    | _ :: _ => resultado ++ " (" ++ Py.join ", " fs ++ ")"
    end in
  resultado ++ ":" ++ nl ++ nl.

Definition consultar_mis_facturas (w : world)
           (estado fecha_inicio fecha_fin : option string) (limit : Z)
  : M string :=
  if estado_invalido estado then ret estado_error
  else if fecha_invalida fecha_inicio then ret fecha_inicio_error
  else if fecha_invalida fecha_fin then ret fecha_fin_error
  else if rango_invalido fecha_inicio fecha_fin then ret rango_error
  else
    try_except
      (with_connection (get_db_connection w)
         (fun conn =>
            let '(query, params) :=
              build_query estado fecha_inicio fecha_fin limit in
            rows <- cur_execute conn query params ;;
            match rows with
            | [] => ret sin_facturas
            | _ :: _ =>
                each_row factura_line rows
                  (encabezado (List.length rows)
                     (filtros estado fecha_inicio fecha_fin))
            end))
      (fun e => ret ("Error en sistema de facturación: " ++ Py.str_exn e)).

(** The line of one address match. *)
Definition propiedad_line (r : row) : M string :=
  score <- getitem r "score" ;;
  pct <- lift (Num.percent rt score) ;;
  calle <- getitem r "emisor_direccion_calle" ;;
  numero <- getitem r "numero_factura" ;;
  estado_legible <- getitem r "estado_legible" ;;
  total <- getitem r "total" ;;
  moneda <- getitem r "moneda" ;;
  ret ("- [Coincidencia: " ++ Py.str_of_Z pct ++ "%] Propiedad: '"
       ++ str_value calle ++ "' -> Factura " ++ str_value numero
       ++ " (" ++ str_value estado_legible ++ "): " ++ str_value total
       ++ " " ++ str_value moneda ++ "." ++ nl).

Definition sin_propiedad (query_direccion : string) : string :=
  "No encontré ninguna factura relacionada con la dirección '"
  ++ query_direccion ++ "'.".

Definition buscar_factura_por_propiedad (w : world)
           (query_direccion : string) : M string :=
  try_except
    (with_connection (get_db_connection w)
       (fun conn =>
          let params :=
            [VStr query_direccion; param_of_opt CURRENT_AGENT_CIF;
             VStr query_direccion] in
          rows <- cur_execute conn buscar_query params ;;
          match rows with
          | [] => ret (sin_propiedad query_direccion)
          | _ :: _ =>
              each_row propiedad_line rows
                ("Resultados para '" ++ query_direccion ++ "':" ++ nl)
          end))
    (fun e => ret ("Error buscando propiedad: " ++ Py.str_exn e)).

End WithContext.

End Agent.

(** ** agent_server_sse.py *)

Module AgentSSE.

Import DB.

Definition get_db_connection (w : world) : M connection := psycopg_connect w.

Definition resolve_query : string :=
  "SELECT cif FROM contacto_agentes WHERE LOWER(email) = LOWER(%s)".

Definition acceso_denegado (email : string) : string :=
  "ACCESO DENEGADO: El email " ++ email ++ " no está autorizado.".

(** Gatekeeper: e-mail to CIF. *)
Definition resolve_cif_from_email (email : string) (conn : connection)
  : M value :=
  rows <- cur_execute conn resolve_query [VStr email] ;;
  match fetchone rows with
  | None | Some [] => raise (Py.ValueError (acceso_denegado email))
  | Some result => getitem result "cif"
  end.

Definition base_query : string :=
  Eval cbv in
    (nl ++ "                    SELECT numero_factura, estado_legible, fecha_emision, moneda, total"
     ++ nl ++ "                    FROM view_ai_facturas"
     ++ nl ++ "                    WHERE emisor_cif = %s "
     ++ nl ++ "                ").

Definition buscar_query : string :=
  Eval cbv in
    (nl ++ "                    SELECT numero_factura, estado_legible, total, moneda, "
     ++ nl ++ "                           emisor_direccion_calle,"
     ++ nl ++ "                           similarity(emisor_direccion_calle, %s) as score"
     ++ nl ++ "                    FROM view_ai_facturas"
     ++ nl ++ "                    WHERE emisor_cif = %s "
     ++ nl ++ "                    AND emisor_direccion_calle %% %s "
     ++ nl ++ "                    ORDER BY score DESC LIMIT 3;"
     ++ nl ++ "                ").

Definition estado_error : string := "Error: Estado inválido.".
Definition sin_facturas : string := "No se encontraron facturas.".
Definition sin_propiedad : string := "No se encontró nada.".

Definition build_query (real_cif : value) (estado fecha_inicio : option string)
           (limit : Z) : string * list param :=
  let qp := (base_query, [real_cif]) in
  let qp := append_if estado " AND estado_legible = %s" qp in
  let qp := append_if fecha_inicio " AND fecha_emision >= %s" qp in
  (fst qp ++ " ORDER BY fecha_emision DESC LIMIT %s",
   (snd qp ++ [VInt limit])%list).

Section WithRuntime.

Variable rt : Num.runtime.

Definition str_rows : list row -> string := Fmt.repr_rows (Num.repr_float rt).

Definition consultar_mis_facturas (w : world) (email_agente : string)
           (estado fecha_inicio : option string) (limit : Z) : M string :=
  if estado_invalido estado then ret estado_error
  else
    try_except
      (with_connection (get_db_connection w)
         (fun conn =>
            real_cif <- resolve_cif_from_email email_agente conn ;;
            let '(query, params) :=
              build_query real_cif estado fecha_inicio limit in
            rows <- cur_execute conn query params ;;
            match rows with
            | [] => ret sin_facturas
            | _ :: _ => ret (str_rows rows)
            end))
      (fun e => ret ("Error del sistema: " ++ Py.str_exn e)).

Definition buscar_factura_por_propiedad (w : world)
           (email_agente query_direccion : string) : M string :=
  try_except
    (with_connection (get_db_connection w)
       (fun conn =>
          real_cif <- resolve_cif_from_email email_agente conn ;;
          let params := [VStr query_direccion; real_cif; VStr query_direccion] in
          rows <- cur_execute conn buscar_query params ;;
          match rows with
          | [] => ret sin_propiedad
          | _ :: _ => ret (str_rows rows)
          end))
    (fun e => ret ("Error: " ++ Py.str_exn e)).

End WithRuntime.

End AgentSSE.

(** ** performance_server.py *)

Module Performance.

Import DB.

Record PerformanceRequest := { anyo : option Z }.

Record ZonaStatsRequest := { nombre_zona : option string; limit : Z }.

Definition get_db_connection (w : world) : M connection :=
  try_except (psycopg_connect w)
    (fun e =>
       emit (Print ("❌ Error DB: " ++ Py.str_exn e)) ;;;
       raise (Py.HTTPException 500
                "Error de conexión con el sistema de performance")).

Definition anual_query : string :=
  Eval cbv in
    (nl ++ "                        SELECT ventas, facturado, cobrado"
     ++ nl ++ "                        FROM view_agente_performance_anual"
     ++ nl ++ "                        WHERE correo = %s AND anyo = %s"
     ++ nl ++ "                    ").

Definition total_query : string :=
  Eval cbv in
    (nl ++ "                        SELECT "
     ++ nl ++ "                            SUM(ventas) as total_ventas,"
     ++ nl ++ "                            SUM(facturado) as total_facturado,"
     ++ nl ++ "                            SUM(cobrado) as total_cobrado"
     ++ nl ++ "                        FROM view_agente_performance_anual"
     ++ nl ++ "                        WHERE correo = %s"
     ++ nl ++ "                    ").

Definition zona_query : string :=
  Eval cbv in
    (nl ++ "                    SELECT "
     ++ nl ++ "                        a.nombre as agente_nombre,"
     ++ nl ++ "                        z.nombre as zona_nombre,"
     ++ nl ++ "                        z.ciudad"
     ++ nl ++ "                    FROM agentes a"
     ++ nl ++ "                    LEFT JOIN zonas z ON z.id = a.zona_id"
     ++ nl ++ "                    WHERE a.correo = %s"
     ++ nl ++ "                ").

Definition stats_query : string :=
  Eval cbv in
    (nl ++ "                    SELECT zona, num_ventas, precio_medio, precio_m2_medio, total_honorarios"
     ++ nl ++ "                    FROM view_stats_zonas"
     ++ nl ++ "                ").

(** [if req.anyo]: an [Optional[int]] is falsy when [None] or [0]. *)
Definition anyo_truthy (a : option Z) : option Z :=
  match a with
  | Some 0 => None
  | Some n => Some n
  | None => None
  end.

(** [not row] for the result of [fetchone]. *)
Definition no_row (r : option row) : bool :=
  match r with
  | None | Some [] => true
  | Some (_ :: _) => false
  end.

Definition is_none (v : value) : bool :=
  match v with
  | VNone => true
  | _ => false
  end.

Section WithRuntime.

Variable rt : Num.runtime.

(** [float(v) if v else 0.0] *)
Definition float_or_zero (v : value) : M spec_float :=
  if Num.truthy v then lift (Num.py_float rt v) else ret Num.fzero.

Definition anual (conn : connection) (x_agent_email : string) (a : Z)
  : M json :=
  rows <- cur_execute conn anual_query [VStr x_agent_email; VInt a] ;;
  match fetchone rows with
  | None | Some [] =>
      ret (JObj
             [("periodo", JInt a);
              ("tipo", JStr "Anual");
              ("mensaje",
               JStr ("No hay datos registrados para el año "
                     ++ Py.str_of_Z a ++ "."));
              ("data",
               JObj [("ventas", JInt 0);
                     ("facturado", JFloat Num.fzero);
                     ("cobrado", JFloat Num.fzero)])])
  | Some r =>
      ventas <- getitem r "ventas" ;;
      f <- getitem r "facturado" ;;
      facturado <- lift (Num.py_float rt f) ;;
      c <- getitem r "cobrado" ;;
      cobrado <- lift (Num.py_float rt c) ;;
      f' <- getitem r "facturado" ;;
      facturado' <- lift (Num.py_float rt f') ;;
      c' <- getitem r "cobrado" ;;
      cobrado' <- lift (Num.py_float rt c') ;;
      ret (JObj
             [("periodo", JInt a);
              ("tipo", JStr "Anual");
              ("data",
               JObj [("ventas", JCell ventas);
                     ("facturado", JFloat facturado);
                     ("cobrado", JFloat cobrado);
                     ("pendiente_cobro",
                      JFloat (Num.fsub facturado' cobrado'))])])
  end.

Definition sin_datos_total : json :=
  JObj
    [("periodo", JStr "Histórico Total");
     ("tipo", JStr "Acumulado");
     ("mensaje", JStr "No hay datos registrados para este agente.");
     ("data",
      JObj [("ventas", JInt 0);
            ("facturado", JFloat Num.fzero);
            ("cobrado", JFloat Num.fzero);
            ("pendiente_cobro", JFloat Num.fzero)])].

Definition total (conn : connection) (x_agent_email : string) : M json :=
  rows <- cur_execute conn total_query [VStr x_agent_email] ;;
  match fetchone rows with
  | None | Some [] => ret sin_datos_total
  | Some r =>
      tv <- getitem r "total_ventas" ;;
      if is_none tv then ret sin_datos_total
      else
        tv' <- getitem r "total_ventas" ;;
        ventas <- lift (Num.py_int rt tv') ;;
        tf <- getitem r "total_facturado" ;;
        facturado <- float_or_zero tf ;;
        tc <- getitem r "total_cobrado" ;;
        cobrado <- float_or_zero tc ;;
        ret (JObj
               [("periodo", JStr "Histórico Total");
                ("tipo", JStr "Acumulado");
                ("data",
                 JObj [("ventas", JInt ventas);
                       ("facturado", JFloat facturado);
                       ("cobrado", JFloat cobrado);
                       ("pendiente_cobro",
                        JFloat (Num.fsub facturado cobrado))])])
  end.

Definition obtener_performance (w : world) (req : PerformanceRequest)
           (x_agent_email : string) : M json :=
  try_except
    (with_connection (get_db_connection w)
       (fun conn =>
          match anyo_truthy (anyo req) with
          | Some a => anual conn x_agent_email a
          | None => total conn x_agent_email
          end))
    (fun e =>
       emit (Print ("❌ Error en mi-performance: " ++ Py.str_exn e)) ;;;
       raise (Py.HTTPException 500 (Py.str_exn e))).

Definition obtener_zona (w : world) (x_agent_email : string) : M json :=
  try_except
    (with_connection (get_db_connection w)
       (fun conn =>
          rows <- cur_execute conn zona_query [VStr x_agent_email] ;;
          match fetchone rows with
          | None | Some [] =>
              raise (Py.HTTPException 404 "Agente no encontrado en el sistema.")
          | Some r =>
              zona <- getitem r "zona_nombre" ;;
              if negb (Num.truthy zona) then
                agente <- getitem r "agente_nombre" ;;
                ret (JObj
                       [("agente", JCell agente);
                        ("tiene_zona", JBool false);
                        ("mensaje",
                         JStr "No tienes una zona asignada actualmente.")])
              else
                agente <- getitem r "agente_nombre" ;;
                zona' <- getitem r "zona_nombre" ;;
                ret (JObj
                       [("agente", JCell agente);
                        ("tiene_zona", JBool true);
                        ("zona", JObj [("nombre", JCell zona')])])
          end))
    (fun e =>
       match e with
       | Py.HTTPException _ _ => raise e
       | _ =>
           emit (Print ("❌ Error en mi-zona: " ++ Py.str_exn e)) ;;;
           raise (Py.HTTPException 500 (Py.str_exn e))
       end).

Definition str_opt (o : option string) : string :=
  match o with
  | None => "None"
  | Some s => s
  end.

Definition stats_build (req : ZonaStatsRequest) : string * list param :=
  let qp := (stats_query, []) in
  let qp :=
    match nombre_zona req with
    | Some (String _ _ as z) =>
        (fst qp ++ " WHERE zona ILIKE %s", (snd qp ++ [VStr ("%" ++ z ++ "%")])%list)
    | _ => qp
    end in
  (fst qp ++ " ORDER BY num_ventas DESC LIMIT %s",
   (snd qp ++ [VInt (limit req)])%list).

Definition consultar_stats_zonas (w : world) (req : ZonaStatsRequest)
  : M json :=
  try_except
    (with_connection (get_db_connection w)
       (fun conn =>
          let '(query, params) := stats_build req in
          rows <- cur_execute conn query params ;;
          match rows with
          | [] =>
              ret (JObj
                     [("mensaje",
                       JStr ("No se encontraron datos para la zona '"
                             ++ str_opt (nombre_zona req) ++ "'"));
                      ("data", JRows [])])
          | _ :: _ =>
              ret (JObj
                     [("count", JInt (Z.of_nat (List.length rows)));
                      ("tipo_busqueda",
                       JStr (if Py.truthy (nombre_zona req)
                             then "Específica" else "Top Mercado"));
                      ("data", JRows rows)])
          end))
    (fun e =>
       emit (Print ("❌ Error en stats-zonas: " ++ Py.str_exn e)) ;;;
       raise (Py.HTTPException 500 (Py.str_exn e))).

End WithRuntime.

(** [GET /health] *)
Definition health_check (w : world) : M json :=
  try_except
    (with_connection (get_db_connection w)
       (fun conn => cur_execute conn "SELECT 1" [] ;;; ret tt) ;;;
     ret (JObj [("status", JStr "healthy");
                ("database", JStr "connected");
                ("service", JStr "performance-api")]))
    (fun e =>
       ret (JObj [("status", JStr "unhealthy");
                  ("database", JStr "disconnected");
                  ("error", JStr (Py.str_exn e))])).

(** [GET /] *)
Definition root : json :=
  JObj [("service", JStr "Performance API - Agentes Inmobiliarios");
        ("version", JStr "1.0.0");
        ("status", JStr "running");
        ("endpoints",
         JObj [("health", JStr "/health");
               ("mi_performance", JStr "/tools/mi-performance");
               ("mi_zona", JStr "/tools/mi-zona");
               ("stats_zonas", JStr "/tools/stats-zonas")])].

End Performance.

(** ** The store behind the driver

    What the statements of the servers mean on the tables and views they
    name: the identity table [contacto_agentes], the invoice view
    [view_ai_facturas] (for the address search) and the yearly performance
    view.  Each statement is read as SQL: [WHERE] filters, [SUM] aggregates,
    [ORDER BY ... DESC LIMIT 3] sorts and cuts.  Which letters [LOWER] folds
    depends on the encoding and the locale of the database, so the function
    belongs to the store; the identity lookup applies it to the sides of its
    comparison that the statement text puts under [LOWER].  Amounts of the
    performance view are [numeric] with two decimals, held in cents.  The
    trigram functions of pg_trgm and every statement not interpreted here
    are parameters. *)

Module Store.

Import DB.

(** [LOWER] of a database in the C locale: the letters A to Z are folded,
    every other byte is kept. *)
Definition lower_char (c : ascii) : ascii :=
  let n := nat_of_ascii c in
  if ((65 <=? n) && (n <=? 90))%nat then ascii_of_nat (n + 32) else c.

Fixpoint lower_ascii (s : string) : string :=
  match s with
  | EmptyString => EmptyString
  | String c rest => String (lower_char c) (lower_ascii rest)
  end.

(** Modelled from the spec: the identity table [contacto_agentes], whose
    declaration is not among the sources ("one row per known identity,
    columns {email, authorization_key}"). *)
Record contacto := { email : string; cif : string }.

(** Modelled from the spec: the invoice view [view_ai_facturas], whose
    declaration is not among the sources ("an invoices view keyed by
    authorization key with columns {invoice_number, status_label, issue_date,
    currency, total, street_address}"); the columns the address search
    selects or filters on. *)
Record factura := {
  numero_factura : value;
  estado_legible : value;
  total : value;
  moneda : value;
  emisor_cif : string;
  emisor_direccion_calle : string
}.

(** Modelled from the spec: the view [view_agente_performance_anual],
    whose declaration is not among the sources ("an annual-performance view
    keyed by {identity, year} with columns {sales_count, invoiced_amount,
    collected_amount}"). *)
Record anual := {
  correo : string;
  anyo : Z;
  ventas : Z;
  facturado : option Z;
  cobrado : option Z
}.

(** The tables and views, and the [LOWER] of the database that holds
    them. *)
Record store := {
  contacto_agentes : list contacto;
  view_ai_facturas : list factura;
  view_agente_performance_anual : list anual;
  lower : string -> string
}.

(** [s] without the prefix [p], when it starts with it. *)
Fixpoint strip_prefix (p s : string) : option string :=
  match p, s with
  | EmptyString, _ => Some s
  | String a p', String b s' => if Ascii.eqb a b then strip_prefix p' s' else None
  | String _ _, EmptyString => None
  end.

(** An operand of a comparison, bare or under [LOWER]. *)
Definition operand (folded : bool) (x : string) : string :=
  if folded then "LOWER(" ++ x ++ ")" else x.

(** The identity lookup, read off the statement text:
    [SELECT cif FROM contacto_agentes WHERE <email> = <%s>], each side bare
    or under [LOWER]; the result says which sides are folded (the column,
    the argument). *)
Definition identity_lookup (q : string) : option (bool * bool) :=
  match strip_prefix "SELECT cif FROM contacto_agentes WHERE " q with
  | None => None
  | Some w =>
      find (fun sides =>
              String.eqb w (operand (fst sides) "email" ++ " = "
                            ++ operand (snd sides) "%s"))
        [(true, true); (true, false); (false, true); (false, false)]
  end.

Definition fold_if (st : store) (folded : bool) (s : string) : string :=
  if folded then lower st s else s.

(** The contacts whose e-mail equals the argument, each side folded or
    not. *)
Definition lookup_contacts (st : store) (sides : bool * bool) (e : string)
  : list contacto :=
  filter (fun c => String.eqb (fold_if st (fst sides) (email c))
                     (fold_if st (snd sides) e))
    (contacto_agentes st).

Definition lookup_rows (st : store) (sides : bool * bool) (e : string)
  : list row :=
  map (fun c => [("cif", VStr (cif c))]) (lookup_contacts st sides e).

(** The contacts an e-mail matches, case folded on both sides. *)
Definition matching (st : store) (e : string) : list contacto :=
  lookup_contacts st (true, true) e.

(** [SELECT cif FROM contacto_agentes WHERE LOWER(email) = LOWER(%s)] *)
Definition resolve_rows (st : store) (e : string) : list row :=
  lookup_rows st (true, true) e.

Definition amount (a : option Z) : value :=
  match a with
  | None => VNone
  | Some cents => VDec cents (-2)
  end.

(** [SELECT ventas, facturado, cobrado ... WHERE correo = %s AND anyo = %s] *)
Definition anual_rows (st : store) (e : string) (a : Z) : list row :=
  map (fun r => [("ventas", VInt (ventas r));
                 ("facturado", amount (facturado r));
                 ("cobrado", amount (cobrado r))])
    (filter (fun r => String.eqb (correo r) e && (anyo r =? a))
       (view_agente_performance_anual st)).

(** [SUM] skips NULLs and is NULL when nothing is left to add. *)
Fixpoint sum_amounts (xs : list (option Z)) : option Z :=
  match xs with
  | [] => None
  | None :: rest => sum_amounts rest
  | Some x :: rest =>
      match sum_amounts rest with
      | None => Some x
      | Some s => Some (x + s)
      end
  end.

(** [SELECT SUM(ventas), SUM(facturado), SUM(cobrado) ... WHERE correo = %s]:
    always one row. *)
Definition total_rows (st : store) (e : string) : list row :=
  let rs := filter (fun r => String.eqb (correo r) e)
              (view_agente_performance_anual st) in
  [[("total_ventas",
     match sum_amounts (map (fun r => Some (ventas r)) rs) with
     | None => VNone
     | Some s => VDec s 0
     end);
    ("total_facturado", amount (sum_amounts (map facturado rs)));
    ("total_cobrado", amount (sum_amounts (map cobrado rs)))]].

(** The order of [ORDER BY] on floats: NaN sorts above every number. *)
Definition float_le (a b : spec_float) : bool :=
  match a, b with
  | _, S754_nan => true
  | S754_nan, _ => false
  | _, _ => SFleb a b
  end.

Definition score_of (r : row) : spec_float :=
  match lookup "score" r with
  | Some (VFloat f) => f
  | _ => S754_nan
  end.

(** [ORDER BY score DESC] as a stable insertion sort. *)
Fixpoint insert_desc (x : row) (l : list row) : list row :=
  match l with
  | [] => [x]
  | y :: rest =>
      if float_le (score_of y) (score_of x) then x :: y :: rest
      else y :: insert_desc x rest
  end.

Fixpoint order_by_score_desc (l : list row) : list row :=
  match l with
  | [] => []
  | x :: rest => insert_desc x (order_by_score_desc rest)
  end.

Definition unsupported : Py.exn :=
  Py.DriverError "the query has a different number or type of arguments".

Section Engine.

(** [similarity(a, b)] and the operator [a % b] of pg_trgm (the latter
    compares the similarity with [pg_trgm.similarity_threshold]). *)
Variable similarity : string -> string -> spec_float.
Variable trgm_match : string -> string -> bool.

(** Every statement other than the ones interpreted here. *)
Variable other : string -> list param -> Py.exn + list row.

Definition hit (term : string) (f : factura) : row :=
  [("numero_factura", numero_factura f);
   ("estado_legible", estado_legible f);
   ("total", total f);
   ("moneda", moneda f);
   ("emisor_direccion_calle", VStr (emisor_direccion_calle f));
   ("score", VFloat (similarity (emisor_direccion_calle f) term))].

(** The address search: score against the first argument, filter on the
    agent and on [%] against the third, best three by score. *)
Definition buscar_rows (st : store) (term1 cif' term2 : string) : list row :=
  firstn 3
    (order_by_score_desc
       (map (hit term1)
          (filter (fun f => String.eqb (emisor_cif f) cif'
                            && trgm_match (emisor_direccion_calle f) term2)
             (view_ai_facturas st)))).

Definition pg_execute (st : store) (q : string) (ps : list param)
  : Py.exn + list row :=
  match identity_lookup q with
  | Some sides =>
      match ps with
      | [VStr e] => inr (lookup_rows st sides e)
      | [VNone] => inr []
      | _ => inl unsupported
      end
  | None =>
  if String.eqb q Performance.anual_query then
    match ps with
    | [VStr e; VInt a] => inr (anual_rows st e a)
    | _ => inl unsupported
    end
  else if String.eqb q Performance.total_query then
    match ps with
    | [VStr e] => inr (total_rows st e)
    | _ => inl unsupported
    end
  else if String.eqb q Agent.buscar_query
          || String.eqb q AgentSSE.buscar_query then
    match ps with
    | [VStr t1; VStr c; VStr t2] => inr (buscar_rows st t1 c t2)
    | [VStr _; VNone; VStr _] => inr []
    | _ => inl unsupported
    end
  else other q ps
  end.

Definition pg (st : store) : connection := {| execute := pg_execute st |}.

End Engine.

End Store.

(** ** Vocabulary of the properties *)

(** The role of a placeholder in the invoice statement, read off the SQL text
    that precedes it. *)
Inductive slot := SCif | SEstado | SDesde | SHasta | SLimit.

(** [s.endswith(suf)] *)
Fixpoint ends_with (suf s : string) : bool :=
  if String.eqb suf s then true
  else
    match s with
    | EmptyString => false
    | String _ rest => ends_with suf rest
    end.

Definition slot_of_context (ctx : string) : option slot :=
  if ends_with "WHERE emisor_cif = " ctx then Some SCif
  else if ends_with " AND estado_legible = " ctx then Some SEstado
  else if ends_with " AND fecha_emision >= " ctx then Some SDesde
  else if ends_with " AND fecha_emision <= " ctx then Some SHasta
  else if ends_with " ORDER BY fecha_emision DESC LIMIT " ctx then Some SLimit
  else None.

(** The slots of a statement, in placeholder order; [None] when the driver
    would reject the statement or a placeholder has no known role. *)
Fixpoint all_some {A} (xs : list (option A)) : option (list A) :=
  match xs with
  | [] => Some []
  | None :: _ => None
  | Some x :: rest =>
      match all_some rest with
      | None => None
      | Some ys => Some (x :: ys)
      end
  end.

Definition slots_of_statement (q : string) : option (list slot) :=
  match DB.contexts q with
  | None => None
  | Some ctxs => all_some (map slot_of_context ctxs)
  end.

Definition when (b : bool) (s : slot) : list slot := if b then [s] else [].

(** The slots a set of criteria fills: the key, the optional filters that are
    present, the limit. *)
Definition present_slots (estado fecha_inicio fecha_fin : option string)
  : list slot :=
  (SCif :: when (Py.truthy estado) SEstado
        ++ when (Py.truthy fecha_inicio) SDesde
        ++ when (Py.truthy fecha_fin) SHasta
        ++ [SLimit])%list.

Definition present_count (estado fecha_inicio fecha_fin : option string) : nat :=
  ((if Py.truthy estado then 1 else 0)
   + (if Py.truthy fecha_inicio then 1 else 0)
   + (if Py.truthy fecha_fin then 1 else 0))%nat.

(** The value a slot is bound to. *)
Definition slot_arg (cif estado fecha_inicio fecha_fin : option string)
           (limit : Z) (s : slot) : DB.param :=
  match s with
  | SCif => DB.param_of_opt cif
  | SEstado => DB.param_of_opt estado
  | SDesde => DB.param_of_opt fecha_inicio
  | SHasta => DB.param_of_opt fecha_fin
  | SLimit => DB.VInt limit
  end.

(** The format the validator documents, taken literally: four digits, a
    dash, two digits, a dash, two digits, naming a day of the calendar. *)
Definition yyyy_mm_dd (s : string) : bool :=
  match s with
  | String y1 (String y2 (String y3 (String y4 (String "-"
      (String m1 (String m2 (String "-" (String d1 (String d2 EmptyString))))))))) =>
      Strptime.is_digit y1 && Strptime.is_digit y2 && Strptime.is_digit y3
      && Strptime.is_digit y4 && Strptime.is_digit m1 && Strptime.is_digit m2
      && Strptime.is_digit d1 && Strptime.is_digit d2
      && Strptime.date_ok
           (1000 * Strptime.digit_val y1 + 100 * Strptime.digit_val y2
            + 10 * Strptime.digit_val y3 + Strptime.digit_val y4)
           (10 * Strptime.digit_val m1 + Strptime.digit_val m2)
           (10 * Strptime.digit_val d1 + Strptime.digit_val d2)
  | _ => false
  end.

(** Calendar order on (year, month, day). *)
Definition date_gt (a b : Z * Z * Z) : bool :=
  let '(y1, m1, d1) := a in
  let '(y2, m2, d2) := b in
  (y2 <? y1) || ((y1 =? y2) && ((m2 <? m1) || ((m1 =? m2) && (d2 <? d1)))).

(** The date a text of the strict form names. *)
Definition strict_date (s : string) : Z * Z * Z :=
  match s with
  | String y1 (String y2 (String y3 (String y4 (String _
      (String m1 (String m2 (String _ (String d1 (String d2 _))))))))) =>
      (1000 * Strptime.digit_val y1 + 100 * Strptime.digit_val y2
       + 10 * Strptime.digit_val y3 + Strptime.digit_val y4,
       10 * Strptime.digit_val m1 + Strptime.digit_val m2,
       10 * Strptime.digit_val d1 + Strptime.digit_val d2)
  | _ => (0, 0, 0)
  end.

(** A filter that is present: not [None], not the empty text. *)
Definition present (o : option string) : option string :=
  match o with
  | Some (String _ _ as s) => Some s
  | _ => None
  end.

(** The echo of the applied filters as the specification words it: the
    status when present; one entry for the dates, "periodo" when both are
    present, "desde" or "hasta" when only one is. *)
Definition applied_filters (estado fecha_inicio fecha_fin : option string)
  : list string :=
  let status :=
    match present estado with
    | Some e => ["estado: " ++ e]
    | None => []
    end in
  let dates :=
    match present fecha_inicio, present fecha_fin with
    | Some a, Some b => ["periodo: " ++ a ++ " a " ++ b]
    | Some a, None => ["desde: " ++ a]
    | None, Some b => ["hasta: " ++ b]
    | None, None => []
    end in
  (status ++ dates)%list.

(** The cell of a column that is known to be there. *)
Definition cell (r : DB.row) (k : string) : DB.value :=
  match DB.lookup k r with
  | Some v => v
  | None => DB.VNone
  end.

Definition has_columns (ks : list string) (r : DB.row) : Prop :=
  forall k, In k ks -> DB.lookup k r <> None.

(** The text of one invoice in the summary. *)
Definition factura_text (rt : Num.runtime) (r : DB.row) : string :=
  "- Factura " ++ Agent.str_value rt (cell r "numero_factura") ++ " ("
  ++ Agent.str_value rt (cell r "estado_legible") ++ "): "
  ++ Agent.str_value rt (cell r "total") ++ " "
  ++ Agent.str_value rt (cell r "moneda") ++ ". Fecha: "
  ++ Agent.str_value rt (cell r "fecha_emision") ++ DB.nl.

(** The text of one address match, given its percentage. *)
Definition propiedad_text (rt : Num.runtime) (pct : Z) (r : DB.row) : string :=
  "- [Coincidencia: " ++ Py.str_of_Z pct ++ "%] Propiedad: '"
  ++ Agent.str_value rt (cell r "emisor_direccion_calle") ++ "' -> Factura "
  ++ Agent.str_value rt (cell r "numero_factura") ++ " ("
  ++ Agent.str_value rt (cell r "estado_legible") ++ "): "
  ++ Agent.str_value rt (cell r "total") ++ " "
  ++ Agent.str_value rt (cell r "moneda") ++ "." ++ DB.nl.

(** [int(score * 100)] of a float score that multiplies to a number. *)
Definition pct_of (score : spec_float) : Z :=
  match Num.int_of_float (Num.fmul score (Num.float_of_Z 100)) with
  | inr n => n
  | inl _ => 0
  end.

Definition is_number (f : spec_float) : bool :=
  match f with
  | S754_zero _ | S754_finite _ _ _ => true
  | S754_infinity _ | S754_nan => false
  end.

Fixpoint concat_all (xs : list string) : string :=
  match xs with
  | [] => EmptyString
  | x :: rest => x ++ concat_all rest
  end.

(** The role of a placeholder in the address search. *)
Inductive buscar_slot := BScore | BCif | BFilter.

Definition buscar_slot_of_context (ctx : string) : option buscar_slot :=
  if ends_with "similarity(emisor_direccion_calle, " ctx then Some BScore
  else if ends_with "WHERE emisor_cif = " ctx then Some BCif
  else if ends_with "AND emisor_direccion_calle % " ctx then Some BFilter
  else None.

Definition buscar_slots (q : string) : option (list buscar_slot) :=
  match DB.contexts q with
  | None => None
  | Some ctxs => all_some (map buscar_slot_of_context ctxs)
  end.

(** Scores in descending order of [ORDER BY]. *)
Definition score_desc (a b : DB.row) : Prop :=
  Store.float_le (Store.score_of b) (Store.score_of a) = true.

(** The no-results sentence of a tool: a text, not the text of an empty
    list, and not marked as an error the way every error answer of the tools
    is (they all start with "Error"). *)
Definition says_nothing_found (t : string) : Prop :=
  t <> EmptyString /\ t <> "[]" /\ String.prefix "Error" t = false.

Definition marked_as_error (t : string) : Prop := String.prefix "Error" t = true.

(** A statement with as many placeholders as arguments: the driver accepts
    the call. *)
Definition well_bound (q : string) (ps : list DB.param) : Prop :=
  option_map (@List.length string) (DB.contexts q) = Some (List.length ps).

Definition is_blank (c : ascii) : bool :=
  let n := nat_of_ascii c in
  ((n =? 32) || (n =? 10) || (n =? 9) || (n =? 13))%nat.

Fixpoint lstrip (s : string) : string :=
  match s with
  | EmptyString => EmptyString
  | String c rest => if is_blank c then lstrip rest else s
  end.

(** A statement that reads: its first word is SELECT. *)
Definition is_select (q : string) : bool := String.prefix "SELECT" (lstrip q).

(** An event predicate that constrains the executed statements only. *)
Definition stmt_ok (P : string -> list DB.param -> Prop) (ev : DB.event) : Prop :=
  match ev with
  | DB.Execute q ps => P q ps
  | _ => True
  end.

Definition is_execute (ev : DB.event) : Prop :=
  match ev with
  | DB.Execute _ _ => True
  | _ => False
  end.

Definition is_print (ev : DB.event) : Prop :=
  match ev with
  | DB.Print _ => True
  | _ => False
  end.

(** The log of a handler that had its connection: the connection, the
    statements, the closing, and only then anything printed. *)
Definition scoped (l : list DB.event) : Prop :=
  exists xs ps,
    l = ([DB.Connect] ++ xs ++ [DB.Close] ++ ps)%list
    /\ Forall is_execute xs /\ Forall is_print ps.

(** The log of a handler whose connection could not be opened: the attempt,
    then at most printing. *)
Definition unopened (l : list DB.event) : Prop :=
  exists ps, l = DB.Connect :: ps /\ Forall is_print ps.

(** A connection whose statements fail, when they fail, with an exception of
    the driver's own: never with an [HTTPException], which belongs to the web
    framework. *)
Definition is_http (e : Py.exn) : bool :=
  match e with
  | Py.HTTPException _ _ => true
  | _ => false
  end.

Definition plain_driver (w : DB.world) : Prop :=
  forall conn q ps e,
    w = inr conn -> DB.execute conn q ps = inl e -> is_http e = false.

(** The status code of an [HTTPException]. *)
Definition status_of (e : Py.exn) : option Z :=
  match e with
  | Py.HTTPException c _ => Some c
  | _ => None
  end.

(** The role of a placeholder in the zone statistics statement. *)
Inductive stats_slot := ZZona | ZLimit.

Definition stats_slot_of_context (ctx : string) : option stats_slot :=
  if ends_with " WHERE zona ILIKE " ctx then Some ZZona
  else if ends_with " ORDER BY num_ventas DESC LIMIT " ctx then Some ZLimit
  else None.

Definition stats_slots (q : string) : option (list stats_slot) :=
  match DB.contexts q with
  | None => None
  | Some ctxs => all_some (map stats_slot_of_context ctxs)
  end.

(** The value a slot of the zone statistics statement is bound to. *)
Definition stats_arg (req : Performance.ZonaStatsRequest) (s : stats_slot)
  : DB.param :=
  match s with
  | ZZona => DB.VStr ("%" ++ Performance.str_opt (Performance.nombre_zona req) ++ "%")
  | ZLimit => DB.VInt (Performance.limit req)
  end.

(** A text of ASCII characters only, where a byte is a character and the
    ASCII digits are the only digits. *)
Fixpoint ascii_text (s : string) : bool :=
  match s with
  | EmptyString => true
  | String c rest => (nat_of_ascii c <? 128)%nat && ascii_text rest
  end.

(** A text of exactly four (two) digits that reads as the number [n]. *)
Definition four_digits_of (n : Z) (s : string) : bool :=
  match s with
  | String a (String b (String c (String d EmptyString))) =>
      Strptime.is_digit a && Strptime.is_digit b && Strptime.is_digit c
      && Strptime.is_digit d
      && (1000 * Strptime.digit_val a + 100 * Strptime.digit_val b
          + 10 * Strptime.digit_val c + Strptime.digit_val d =? n)
  | _ => false
  end.

Definition two_digits_of (n : Z) (s : string) : bool :=
  match s with
  | String a (String b EmptyString) =>
      Strptime.is_digit a && Strptime.is_digit b
      && (10 * Strptime.digit_val a + Strptime.digit_val b =? n)
  | _ => false
  end.

(** [f] holds of the [count] integers from [from] on. *)
Fixpoint all_from (f : Z -> bool) (from : Z) (count : nat) : bool :=
  match count with
  | O => true
  | S k => f from && all_from f (from + 1) k
  end.


(** ** A small world to run the servers in

    A runtime, a store and a trigram engine on which the handlers can be
    evaluated: the [repr] of a float, parsers that read plain numerals
    only, and a database in the C locale, whose [LOWER] folds the letters A
    to Z. *)

Module Demo.

Import DB.

Fixpoint strip_zeros_rev (s : list ascii) : list ascii :=
  match s with
  | "0"%char :: rest => strip_zeros_rev rest
  | _ => s
  end.

Definition strip_trailing_zeros (s : string) : string :=
  string_of_list_ascii
    (rev (strip_zeros_rev (rev (list_ascii_of_string s)))).

(** [repr] of a float: the shortest decimal numeral that reads back as the
    same float and, among those, the one nearest to its value, written with
    an exponent when the decimal point would fall more than 16 places right
    or more than 3 places left of the first digit.

    [m * 2^e / 10^x] as a quotient of integers. *)
Definition scaled (m : positive) (e x : Z) : Z * Z :=
  (Zpos m * 2 ^ (Z.max e 0) * 10 ^ (Z.max (- x) 0),
   2 ^ (Z.max (- e) 0) * 10 ^ (Z.max x 0)).

(** The power of ten of the first digit of [m * 2^e]: an estimate from the
    binary logarithm, put right by comparison. *)
Definition first_digit_exponent (m : positive) (e : Z) : Z :=
  let adjust x :=
    let '(n, d) := scaled m e x in
    if n <? d then x - 1 else if 10 * d <=? n then x + 1 else x in
  adjust (adjust (((Z.log2 (Zpos m) + e) * 30103) / 100000)).

Definition reads_back (m : positive) (e : Z) (c x : Z) : bool :=
  match SFcompare (Num.float_of_decimal c x) (S754_finite false m e) with
  | Some Eq => true
  | _ => false
  end.

(** The numeral of [k] digits for [m * 2^e], when one of the two next to
    the value reads back: coefficient and exponent. *)
Definition numeral_of (m : positive) (e first : Z) (k : Z) : option (Z * Z) :=
  let x := first + 1 - k in
  let '(n, d) := scaled m e x in
  let lo := n / d in
  let hi := lo + 1 in
  let lo_nearer :=
    match 2 * n ?= (2 * lo + 1) * d with
    | Lt => true
    | Gt => false
    | Eq => Z.even lo
    end in
  match reads_back m e lo x, reads_back m e hi x with
  | true, true => Some (if lo_nearer then lo else hi, x)
  | true, false => Some (lo, x)
  | false, true => Some (hi, x)
  | false, false => None
  end.

(** The shortest numeral; seventeen digits always read back. *)
Fixpoint shortest (m : positive) (e first : Z) (more : nat) (k : Z) : Z * Z :=
  match numeral_of m e first k, more with
  | Some r, _ => r
  | None, S more' => shortest m e first more' (k + 1)
  | None, O => (fst (scaled m e (first + 1 - k)) / snd (scaled m e (first + 1 - k)),
                first + 1 - k)
  end.

(** ["%+03d" % n] *)
Definition exponent_text (n : Z) : string :=
  (if n <? 0 then "-" else "+") ++ Fmt.pad 2 (Z.abs n).

Definition repr_finite (m : positive) (e : Z) : string :=
  let '(c, x) := shortest m e (first_digit_exponent m e) 16 1 in
  let all := Py.str_of_Z c in
  let digits := strip_trailing_zeros all in
  let len := Z.of_nat (String.length digits) in
  let decpt := Z.of_nat (String.length all) + x in
  if (decpt <=? -4) || (16 <? decpt) then
    String.substring 0 1 digits
    ++ (if 1 <? len
        then "." ++ String.substring 1 (Z.to_nat (len - 1)) digits
        else EmptyString)
    ++ "e" ++ exponent_text (decpt - 1)
  else if decpt <=? 0 then
    "0." ++ Fmt.zeros (Z.to_nat (- decpt)) ++ digits
  else if len <=? decpt then
    digits ++ Fmt.zeros (Z.to_nat (decpt - len)) ++ ".0"
  else
    String.substring 0 (Z.to_nat decpt) digits ++ "."
    ++ String.substring (Z.to_nat decpt) (Z.to_nat (len - decpt)) digits.

Definition repr_float (f : spec_float) : string :=
  match f with
  | S754_zero false => "0.0"
  | S754_zero true => "-0.0"
  | S754_infinity false => "inf"
  | S754_infinity true => "-inf"
  | S754_nan => "nan"
  | S754_finite s m e =>
      (if s then "-" else EmptyString)
      ++ match binary_normalize 53 1024 (Zpos m) e false with
         | S754_finite _ m' e' => repr_finite m' e'
         | S754_infinity _ => "inf"
         | _ => "0.0"
         end
  end.

Fixpoint digits_value (s : string) (acc : Z) : option Z :=
  match s with
  | EmptyString => Some acc
  | String c rest =>
      if Strptime.is_digit c
      then digits_value rest (10 * acc + Strptime.digit_val c)
      else None
  end.

Definition int_of_str (s : string) : option Z :=
  match s with
  | EmptyString => None
  | String "-"%char (String c rest) =>
      option_map Z.opp (digits_value (String c rest) 0)
  | _ => digits_value s 0
  end.

Definition float_of_str (s : string) : option spec_float :=
  option_map Num.float_of_Z (int_of_str s).

Definition rt : Num.runtime :=
  {| Num.repr_float := repr_float;
     Num.float_of_str := float_of_str;
     Num.int_of_str := int_of_str |}.

(** 0.5625, 0.3125 and 0.25 as floats. *)
Definition f_5625 : spec_float := Eval cbv in Num.float_of_decimal 5625 (-4).
Definition f_3125 : spec_float := Eval cbv in Num.float_of_decimal 3125 (-4).
Definition f_25 : spec_float := Eval cbv in Num.float_of_decimal 25 (-2).

(** Scores of the stored addresses against any search term. *)
Definition similarity (address term : string) : spec_float :=
  if String.eqb address "Calle Velázquez 12" then f_5625
  else if String.eqb address "Calle Velarde 3" then f_3125
  else Num.fzero.

(** [%] with a threshold of 0.25. *)
Definition trgm_match (address term : string) : bool :=
  SFltb f_25 (similarity address term).

Definition other (q : string) (ps : list param) : Py.exn + list row := inr [].

Definition store : Store.store :=
  {| Store.contacto_agentes :=
       [ {| Store.email := "Ana.Lopez@Inmo.es"; Store.cif := "B12345678" |};
         {| Store.email := "luis@inmo.es"; Store.cif := "B87654321" |} ];
     Store.view_ai_facturas :=
       [ {| Store.numero_factura := VStr "F-2024-003";
            Store.estado_legible := VStr "PENDIENTE";
            Store.total := VDec 45000 (-2);
            Store.moneda := VStr "EUR";
            Store.emisor_cif := "B12345678";
            Store.emisor_direccion_calle := "Calle Velarde 3" |};
         {| Store.numero_factura := VStr "F-2024-001";
            Store.estado_legible := VStr "PAGADA";
            Store.total := VDec 120050 (-2);
            Store.moneda := VStr "EUR";
            Store.emisor_cif := "B12345678";
            Store.emisor_direccion_calle := "Calle Velázquez 12" |};
         {| Store.numero_factura := VStr "F-2024-002";
            Store.estado_legible := VStr "PAGADA";
            Store.total := VDec 80000 (-2);
            Store.moneda := VStr "EUR";
            Store.emisor_cif := "B12345678";
            Store.emisor_direccion_calle := "Avenida del Puerto 7" |};
         {| Store.numero_factura := VStr "F-2024-101";
            Store.estado_legible := VStr "PAGADA";
            Store.total := VDec 99900 (-2);
            Store.moneda := VStr "EUR";
            Store.emisor_cif := "B87654321";
            Store.emisor_direccion_calle := "Calle Velázquez 12" |} ];
     Store.view_agente_performance_anual :=
       [ {| Store.correo := "ana.lopez@inmo.es"; Store.anyo := 2024;
            Store.ventas := 7; Store.facturado := Some 1250000;
            Store.cobrado := Some 1000000 |} ];
     Store.lower := Store.lower_ascii |}.

Definition conn : connection := Store.pg similarity trgm_match other store.

Definition world : DB.world := inr conn.

(** Three paid invoices of November 2024, as the invoice view returns
    them. *)
Definition factura_row (numero : string) (d : Z) (cents : Z) : row :=
  [("numero_factura", VStr numero);
   ("estado_legible", VStr "PAGADA");
   ("fecha_emision", VDate 2024 11 d);
   ("moneda", VStr "EUR");
   ("total", VDec cents (-2))].

Definition noviembre : list row :=
  [factura_row "F-2024-031" 28 120050;
   factura_row "F-2024-027" 14 80000;
   factura_row "F-2024-025" 3 45000].

(** A connection whose invoice view answers every statement with those
    three rows, and one whose every answer is empty. *)
Definition noviembre_conn : connection :=
  {| execute := fun _ _ => inr noviembre |}.

Definition empty_conn : connection := {| execute := fun _ _ => inr [] |}.

End Demo.

(** * Properties *)

(** ** The invoice query builder *)

Section Builder.

Variables (cif estado fecha_inicio fecha_fin : option string) (limit : Z).

Let slots := present_slots estado fecha_inicio fecha_fin.
Let arg := slot_arg cif estado fecha_inicio fecha_fin limit.

Lemma facturacion_build_args :
  snd (Facturacion.build_query
         (Facturacion.Build_FacturasRequest estado fecha_inicio fecha_fin limit)
         cif)
  = map arg slots.
Proof.
  unfold Facturacion.build_query, append_if, slots, arg, present_slots; simpl.
  destruct (Py.truthy estado), (Py.truthy fecha_inicio), (Py.truthy fecha_fin);
    reflexivity.
Qed.

Lemma facturacion_build_slots :
  slots_of_statement
    (fst (Facturacion.build_query
            (Facturacion.Build_FacturasRequest estado fecha_inicio fecha_fin limit)
            cif))
  = Some slots.
Proof.
  unfold Facturacion.build_query, append_if, slots, present_slots; simpl.
  destruct (Py.truthy estado), (Py.truthy fecha_inicio), (Py.truthy fecha_fin);
    vm_compute; reflexivity.
Qed.

Lemma agent_build_args :
  snd (Agent.build_query cif estado fecha_inicio fecha_fin limit)
  = map arg slots.
Proof.
  unfold Agent.build_query, append_if, slots, arg, present_slots; simpl.
  destruct (Py.truthy estado), (Py.truthy fecha_inicio), (Py.truthy fecha_fin);
    reflexivity.
Qed.

Lemma agent_build_slots :
  slots_of_statement
    (fst (Agent.build_query cif estado fecha_inicio fecha_fin limit))
  = Some slots.
Proof.
  unfold Agent.build_query, append_if, slots, present_slots; simpl.
  destruct (Py.truthy estado), (Py.truthy fecha_inicio), (Py.truthy fecha_fin);
    vm_compute; reflexivity.
Qed.

Lemma present_slots_length :
  List.length slots = (1 + present_count estado fecha_inicio fecha_fin + 1)%nat.
Proof.
  unfold slots, present_slots, present_count, when.
  destruct (Py.truthy estado), (Py.truthy fecha_inicio), (Py.truthy fecha_fin);
    reflexivity.
Qed.

End Builder.

(** C1.  For every set of criteria and every authorization key, the statement
    built by the HTTP endpoint and by the tool server binds exactly: the key
    first, then the status, the start date and the end date, each only when
    present, then the limit last.  The number of arguments is
    1 + (present optional filters) + 1, and reading the statement from left
    to right its placeholders stand, in the same order, for the key, the
    present filters and the limit. *)
Theorem query_args_follow_placeholders :
  forall (cif estado fecha_inicio fecha_fin : option string) (limit : Z),
    let slots := present_slots estado fecha_inicio fecha_fin in
    let arg := slot_arg cif estado fecha_inicio fecha_fin limit in
    let http :=
      Facturacion.build_query
        (Facturacion.Build_FacturasRequest estado fecha_inicio fecha_fin limit)
        cif in
    let tool := Agent.build_query cif estado fecha_inicio fecha_fin limit in
    (snd http = map arg slots
     /\ slots_of_statement (fst http) = Some slots
     /\ List.length (snd http)
        = (1 + present_count estado fecha_inicio fecha_fin + 1)%nat)
    /\ (snd tool = map arg slots
        /\ slots_of_statement (fst tool) = Some slots
        /\ List.length (snd tool)
           = (1 + present_count estado fecha_inicio fecha_fin + 1)%nat).
Proof.
  intros cif estado fecha_inicio fecha_fin limit slots arg http tool.
  subst http tool; split; split.
  - apply facturacion_build_args.
  - split; [apply facturacion_build_slots|].
    rewrite facturacion_build_args, length_map. apply present_slots_length.
  - apply agent_build_args.
  - split; [apply agent_build_slots|].
    rewrite agent_build_args, length_map. apply present_slots_length.
Qed.

(** ** Validation comes first *)

Lemma and_then_truthy (o : option string) (p : string -> bool) :
  and_then o p = true -> exists s, o = Some s /\ s <> EmptyString /\ p s = true.
Proof.
  destruct o as [[|c s]|]; simpl; try discriminate.
  intros H. exists (String c s). repeat split; [discriminate | exact H].
Qed.

Lemma estado_invalido_spec (s : string) :
  s <> EmptyString -> ~ In s ESTADOS -> estado_invalido (Some s) = true.
Proof.
  intros Hne Hin. destruct s as [|c s]; [congruence|].
  unfold estado_invalido, and_then, ESTADOS, Py.str_in.
  destruct (String.eqb_spec (String c s) "PENDIENTE") as [E|_].
  - exfalso. apply Hin. rewrite E. left. reflexivity.
  - destruct (String.eqb_spec (String c s) "PAGADA") as [E|_].
    + exfalso. apply Hin. rewrite E. right. left. reflexivity.
    + reflexivity.
Qed.

(** The database phase of the HTTP endpoint never answers 400. *)
Lemma facturacion_try_not_400 {A} (body : DB.M A) (tag : string) l d :
  fst (DB.try_except body
         (fun e =>
            DB.emit (DB.Print (tag ++ Py.str_exn e)) ;;;
            DB.raise (Py.HTTPException 500 (Py.str_exn e))) l)
  <> inl (Py.HTTPException 400 d).
Proof.
  unfold DB.try_except, DB.bind, DB.emit, DB.raise.
  destruct (body l) as [[e|a] l']; simpl; discriminate.
Qed.

(** The summary loop only ever extends the text it starts from. *)
Lemma each_row_extends (line : DB.row -> DB.M string) rows :
  forall acc l out l',
    Agent.each_row line rows acc l = (inr out, l') ->
    exists rest, out = acc ++ rest.
Proof.
  induction rows as [|r rows IH]; simpl; intros acc l out l' H.
  - unfold DB.ret in H. inversion H; subst. exists EmptyString.
    clear. induction out; simpl; congruence.
  - unfold DB.bind in H. destruct (line r l) as [[e|s] l1]; [discriminate|].
    apply IH in H. destruct H as [rest ->]. exists (s ++ rest).
    clear. induction acc; simpl; congruence.
Qed.

(** What the tool of agent_server.py answers once validation has passed:
    the not-found sentence, a summary, or the report of an exception. *)
Lemma agent_database_answers rt cif w estado fecha_inicio fecha_fin limit l :
  estado_invalido estado = false ->
  fecha_invalida fecha_inicio = false ->
  fecha_invalida fecha_fin = false ->
  rango_invalido fecha_inicio fecha_fin = false ->
  exists out l',
    Agent.consultar_mis_facturas rt cif w estado fecha_inicio fecha_fin limit l
    = (inr out, l')
    /\ (out = Agent.sin_facturas
        \/ (exists rest, out = "Encontré " ++ rest)
        \/ (exists e, out = "Error en sistema de facturación: " ++ Py.str_exn e)).
Proof.
  intros H1 H2 H3 H4. unfold Agent.consultar_mis_facturas.
  rewrite H1, H2, H3, H4. unfold DB.try_except.
  match goal with
  | |- context [DB.with_connection ?g ?b l] =>
      destruct (DB.with_connection g b l) as [[e|out] l1] eqn:Hrun
  end.
  { eexists _, _; split; [reflexivity|]. right; right. eexists; reflexivity. }
  eexists _, _; split; [reflexivity|].
  unfold DB.with_connection, DB.bind in Hrun.
  destruct (Agent.get_db_connection w l) as [[e|conn] l2]; [discriminate|].
  destruct (Agent.build_query cif estado fecha_inicio fecha_fin limit) as [q ps].
  destruct (DB.cur_execute conn q ps l2) as [[e|rows] l3]; [discriminate|].
  destruct rows as [|r rows].
  - inversion Hrun; subst. left; reflexivity.
  - match type of Hrun with
    | (let '(_, _) := ?x in _) = _ => destruct x as [[e|o] l4] eqn:Hloop
    end; [discriminate|].
    inversion Hrun; subst.
    apply each_row_extends in Hloop. destruct Hloop as [rest ->].
    right; left. unfold Agent.encabezado.
    destruct (Agent.filtros estado fecha_inicio fecha_fin);
      simpl; eexists; reflexivity.
Qed.

(** None of those answers is one of the four validation errors. *)
Lemma agent_database_answer_is_no_validation_error
      rt cif w estado fecha_inicio fecha_fin limit err :
  estado_invalido estado = false ->
  fecha_invalida fecha_inicio = false ->
  fecha_invalida fecha_fin = false ->
  rango_invalido fecha_inicio fecha_fin = false ->
  In err [Agent.estado_error; Agent.fecha_inicio_error; Agent.fecha_fin_error;
          Agent.rango_error] ->
  fst (DB.run (Agent.consultar_mis_facturas rt cif w estado fecha_inicio
                 fecha_fin limit))
  <> inr err.
Proof.
  intros H1 H2 H3 H4 Hin.
  destruct (agent_database_answers rt cif w estado fecha_inicio fecha_fin limit
              [] H1 H2 H3 H4) as (out & l' & Hrun & Hout).
  unfold DB.run. rewrite Hrun. cbn [fst]. intros E. inversion E; subst out.
  simpl in Hin.
  destruct Hout as [H|[[rest H]|[e H]]];
    destruct Hin as [<-|[<-|[<-|[<-|[]]]]]; discriminate H.
Qed.

(** What the invoice tool of agent_server_sse.py answers once the status has
    passed: the not-found sentence, the text of a row list, or the report of
    an exception. *)
Lemma sse_database_answers rt w email estado fecha_inicio limit l :
  estado_invalido estado = false ->
  exists out l',
    AgentSSE.consultar_mis_facturas rt w email estado fecha_inicio limit l
    = (inr out, l')
    /\ (out = AgentSSE.sin_facturas
        \/ (exists rest, out = "[" ++ rest)
        \/ (exists e, out = "Error del sistema: " ++ Py.str_exn e)).
Proof.
  intros H1. unfold AgentSSE.consultar_mis_facturas. rewrite H1.
  unfold DB.try_except.
  match goal with
  | |- context [DB.with_connection ?g ?b l] =>
      destruct (DB.with_connection g b l) as [[e|out] l1] eqn:Hrun
  end.
  { eexists _, _; split; [reflexivity|]. right; right. eexists; reflexivity. }
  eexists _, _; split; [reflexivity|].
  unfold DB.with_connection, DB.bind in Hrun.
  destruct (AgentSSE.get_db_connection w l) as [[e|conn] l2]; [discriminate|].
  destruct (AgentSSE.resolve_cif_from_email email conn l2) as [[e|c] l3];
    [discriminate|].
  destruct (AgentSSE.build_query c estado fecha_inicio limit) as [q ps].
  destruct (DB.cur_execute conn q ps l3) as [[e|rows] l4]; [discriminate|].
  destruct rows as [|r rows]; inversion Hrun; subst.
  - left; reflexivity.
  - right; left. unfold AgentSSE.str_rows, Fmt.repr_rows.
    simpl. eexists; reflexivity.
Qed.

(** C3.  A present status outside {PENDIENTE, PAGADA} is answered with the
    invalid-status error (HTTP 400 by the endpoint, an error text by the two
    tool servers) and nothing at all has been done to the database by then;
    PENDIENTE, PAGADA and an absent status are never answered with that
    error. *)
Theorem invalid_status_rejected_first :
  (forall s : string,
      s <> EmptyString -> ~ In s ESTADOS ->
      (forall w fecha_inicio fecha_fin limit cif,
          DB.run (Facturacion.consultar_facturas w
                    (Facturacion.Build_FacturasRequest (Some s) fecha_inicio
                       fecha_fin limit) cif)
          = (inl Facturacion.estado_error, []))
      /\ (forall rt cif w fecha_inicio fecha_fin limit,
             DB.run (Agent.consultar_mis_facturas rt cif w (Some s)
                       fecha_inicio fecha_fin limit)
             = (inr Agent.estado_error, []))
      /\ (forall rt w email fecha_inicio limit,
             DB.run (AgentSSE.consultar_mis_facturas rt w email (Some s)
                       fecha_inicio limit)
             = (inr AgentSSE.estado_error, [])))
  /\ (forall estado : option string,
         estado = None \/ estado = Some "PENDIENTE" \/ estado = Some "PAGADA" ->
         (forall w fecha_inicio fecha_fin limit cif,
             fst (DB.run (Facturacion.consultar_facturas w
                            (Facturacion.Build_FacturasRequest estado
                               fecha_inicio fecha_fin limit) cif))
             <> inl Facturacion.estado_error)
         /\ (forall rt cif w fecha_inicio fecha_fin limit,
                fst (DB.run (Agent.consultar_mis_facturas rt cif w estado
                               fecha_inicio fecha_fin limit))
                <> inr Agent.estado_error)
         /\ (forall rt w email fecha_inicio limit,
                fst (DB.run (AgentSSE.consultar_mis_facturas rt w email estado
                               fecha_inicio limit))
                <> inr AgentSSE.estado_error)).
Proof.
  split.
  - intros s Hne Hin. pose proof (estado_invalido_spec s Hne Hin) as Hbad.
    repeat split; intros; unfold DB.run.
    + unfold Facturacion.consultar_facturas; simpl. rewrite Hbad. reflexivity.
    + unfold Agent.consultar_mis_facturas. rewrite Hbad. reflexivity.
    + unfold AgentSSE.consultar_mis_facturas. rewrite Hbad. reflexivity.
  - intros estado Hok.
    assert (Hgood : estado_invalido estado = false)
      by (destruct Hok as [->|[->| ->]]; reflexivity).
    repeat split; intros; unfold DB.run.
    + unfold Facturacion.consultar_facturas.
      cbn [Facturacion.estado Facturacion.fecha_inicio Facturacion.fecha_fin].
      rewrite Hgood.
      destruct (fecha_invalida fecha_inicio); [simpl; discriminate|].
      destruct (fecha_invalida fecha_fin); [simpl; discriminate|].
      destruct (rango_invalido fecha_inicio fecha_fin); [simpl; discriminate|].
      apply facturacion_try_not_400.
    + destruct (fecha_invalida fecha_inicio) eqn:H2;
        [unfold Agent.consultar_mis_facturas; rewrite Hgood, H2; simpl;
         discriminate|].
      destruct (fecha_invalida fecha_fin) eqn:H3;
        [unfold Agent.consultar_mis_facturas; rewrite Hgood, H2, H3; simpl;
         discriminate|].
      destruct (rango_invalido fecha_inicio fecha_fin) eqn:H4;
        [unfold Agent.consultar_mis_facturas; rewrite Hgood, H2, H3, H4; simpl;
         discriminate|].
      apply agent_database_answer_is_no_validation_error; simpl; auto.
    + destruct (sse_database_answers rt w email estado fecha_inicio limit []
                  Hgood) as (out & l' & Hrun & Hout).
      rewrite Hrun. cbn [fst]. intros E. inversion E; subst out.
      destruct Hout as [H|[[rest H]|[e H]]]; discriminate H.
Qed.

(** C10.  When the status, a date format or the date range is refused, the
    invoice operation answers with that validation error and its log is
    empty: no connection was asked for, no statement executed, nothing
    written. *)
Theorem validation_precedes_database :
  forall (estado fecha_inicio fecha_fin : option string) (limit : Z),
    estado_invalido estado || fecha_invalida fecha_inicio
    || fecha_invalida fecha_fin || rango_invalido fecha_inicio fecha_fin = true ->
    (forall w cif,
        exists err,
          In err [Facturacion.estado_error; Facturacion.fecha_inicio_error;
                  Facturacion.fecha_fin_error; Facturacion.rango_error]
          /\ DB.run (Facturacion.consultar_facturas w
                       (Facturacion.Build_FacturasRequest estado fecha_inicio
                          fecha_fin limit) cif)
             = (inl err, []))
    /\ (forall rt cif w,
           exists err,
             In err [Agent.estado_error; Agent.fecha_inicio_error;
                     Agent.fecha_fin_error; Agent.rango_error]
             /\ DB.run (Agent.consultar_mis_facturas rt cif w estado
                          fecha_inicio fecha_fin limit)
                = (inr err, [])).
Proof.
  intros estado fecha_inicio fecha_fin limit H.
  split; intros; unfold DB.run.
  - unfold Facturacion.consultar_facturas.
    cbn [Facturacion.estado Facturacion.fecha_inicio Facturacion.fecha_fin].
    destruct (estado_invalido estado);
      [eexists; split; [|reflexivity]; simpl; auto|].
    destruct (fecha_invalida fecha_inicio);
      [eexists; split; [|reflexivity]; simpl; auto|].
    destruct (fecha_invalida fecha_fin);
      [eexists; split; [|reflexivity]; simpl; auto|].
    destruct (rango_invalido fecha_inicio fecha_fin);
      [eexists; split; [|reflexivity]; simpl; auto|].
    discriminate H.
  - unfold Agent.consultar_mis_facturas.
    destruct (estado_invalido estado);
      [eexists; split; [|reflexivity]; simpl; auto|].
    destruct (fecha_invalida fecha_inicio);
      [eexists; split; [|reflexivity]; simpl; auto|].
    destruct (fecha_invalida fecha_fin);
      [eexists; split; [|reflexivity]; simpl; auto|].
    destruct (rango_invalido fecha_inicio fecha_fin);
      [eexists; split; [|reflexivity]; simpl; auto|].
    discriminate H.
Qed.

Lemma validation_precedes_database_witness :
  (estado_invalido (Some "PAGADA") || fecha_invalida (Some "01/11/2024")
   || fecha_invalida None || rango_invalido (Some "01/11/2024") None = true)
  /\ (exists err,
         In err [Facturacion.estado_error; Facturacion.fecha_inicio_error;
                 Facturacion.fecha_fin_error; Facturacion.rango_error]
         /\ DB.run (Facturacion.consultar_facturas
                      (inl (Py.DriverError "connection refused"))
                      (Facturacion.Build_FacturasRequest (Some "PAGADA")
                         (Some "01/11/2024") None 5) (Some "B12345678"))
            = (inl err, [])).
Proof.
  split; [reflexivity|].
  apply (validation_precedes_database (Some "PAGADA") (Some "01/11/2024") None 5).
  reflexivity.
Defined.

(** Once validation has passed, the HTTP endpoint asks for exactly one
    connection, whatever the driver then does. *)
Lemma facturacion_connects_once w req cif :
  estado_invalido (Facturacion.estado req) = false ->
  fecha_invalida (Facturacion.fecha_inicio req) = false ->
  fecha_invalida (Facturacion.fecha_fin req) = false ->
  rango_invalido (Facturacion.fecha_inicio req) (Facturacion.fecha_fin req) = false ->
  DB.connections (snd (DB.run (Facturacion.consultar_facturas w req cif))) = 1%nat.
Proof.
  intros H1 H2 H3 H4. unfold DB.run, Facturacion.consultar_facturas.
  rewrite H1, H2, H3, H4.
  destruct (Facturacion.build_query req cif) as [q ps].
  unfold DB.try_except, DB.with_connection, Facturacion.get_db_connection,
    DB.try_except, DB.psycopg_connect, DB.cur_execute, DB.bind, DB.emit,
    DB.lift, DB.raise, DB.ret.
  destruct w as [e|conn]; simpl; [reflexivity|].
  destruct (DB.execute conn q ps) as [e|rows]; reflexivity.
Qed.

Lemma connections_app l1 l2 :
  DB.connections (l1 ++ l2) = (DB.connections l1 + DB.connections l2)%nat.
Proof.
  induction l1 as [|ev l1 IH]; simpl; [reflexivity|].
  destruct ev; simpl; rewrite IH; reflexivity.
Qed.

(** Rendering the rows of a result does nothing to the outside world. *)
Lemma each_row_factura_log rt rows :
  forall acc l, snd (Agent.each_row (Agent.factura_line rt) rows acc l) = l.
Proof.
  induction rows as [|r rows IH]; intros acc l; simpl; [reflexivity|].
  unfold DB.bind at 1.
  assert (Hline : forall l0, snd (Agent.factura_line rt r l0) = l0).
  { intros l0. unfold Agent.factura_line, DB.getitem, DB.bind, DB.ret, DB.raise.
    repeat match goal with
           | |- context [DB.lookup ?k r] => destruct (DB.lookup k r)
           end; reflexivity. }
  specialize (Hline l).
  destruct (Agent.factura_line rt r l) as [[e|s] l1]; simpl in *; subst;
    [reflexivity|apply IH].
Qed.

(** The same for the tool of agent_server.py. *)
Lemma agent_connects_once rt cif w estado fecha_inicio fecha_fin limit :
  estado_invalido estado = false ->
  fecha_invalida fecha_inicio = false ->
  fecha_invalida fecha_fin = false ->
  rango_invalido fecha_inicio fecha_fin = false ->
  DB.connections
    (snd (DB.run (Agent.consultar_mis_facturas rt cif w estado fecha_inicio
                    fecha_fin limit))) = 1%nat.
Proof.
  intros H1 H2 H3 H4. unfold DB.run, Agent.consultar_mis_facturas.
  rewrite H1, H2, H3, H4.
  destruct (Agent.build_query cif estado fecha_inicio fecha_fin limit) as [q ps].
  unfold DB.try_except, DB.with_connection, Agent.get_db_connection,
    DB.try_except, DB.psycopg_connect, DB.cur_execute, DB.bind, DB.emit,
    DB.lift, DB.raise, DB.ret.
  destruct w as [e|conn]; simpl; [reflexivity|].
  destruct (DB.execute conn q ps) as [e|rows]; [reflexivity|].
  destruct rows as [|r rows]; [reflexivity|].
  match goal with
  | |- context [Agent.each_row ?f ?rs ?acc ?l] =>
      pose proof (each_row_factura_log rt rs acc l) as Hlog;
      destruct (Agent.each_row f rs acc l) as [[e|o] l1]
  end; simpl in Hlog; subst; reflexivity.
Qed.

(** ** Dates *)

(** A provided date that the validator refuses is answered with the format
    error naming its field (start date first), before the database. *)
Lemma refused_date_names_field estado fecha_inicio fecha_fin limit w cif :
  estado_invalido estado = false ->
  (fecha_invalida fecha_inicio = true ->
   DB.run (Facturacion.consultar_facturas w
             (Facturacion.Build_FacturasRequest estado fecha_inicio fecha_fin limit)
             cif)
   = (inl Facturacion.fecha_inicio_error, []))
  /\ (fecha_invalida fecha_inicio = false -> fecha_invalida fecha_fin = true ->
      DB.run (Facturacion.consultar_facturas w
                (Facturacion.Build_FacturasRequest estado fecha_inicio fecha_fin limit)
                cif)
      = (inl Facturacion.fecha_fin_error, [])).
Proof.
  intros H0. unfold DB.run, Facturacion.consultar_facturas.
  cbn [Facturacion.estado Facturacion.fecha_inicio Facturacion.fecha_fin].
  rewrite H0. split.
  - intros ->. reflexivity.
  - intros -> ->. reflexivity.
Qed.

Lemma digit_cases (c : ascii) :
  Strptime.is_digit c = true ->
  In c ["0"; "1"; "2"; "3"; "4"; "5"; "6"; "7"; "8"; "9"]%char.
Proof.
  destruct c as [[] [] [] [] [] [] [] []]; vm_compute; intros H;
    try discriminate H; tauto.
Qed.

Lemma month_candidates m1 m2 rest :
  Strptime.is_digit m1 = true -> Strptime.is_digit m2 = true ->
  (1 <=? 10 * Strptime.digit_val m1 + Strptime.digit_val m2) = true ->
  (10 * Strptime.digit_val m1 + Strptime.digit_val m2 <=? 12) = true ->
  exists tl,
    Strptime.m_candidates (String m1 (String m2 rest))
    = (10 * Strptime.digit_val m1 + Strptime.digit_val m2, rest) :: tl.
Proof.
  intros H1 H2 Hlo Hhi.
  apply digit_cases in H1. apply digit_cases in H2.
  simpl in H1, H2.
  repeat (destruct H1 as [<-|H1]); try destruct H1;
    repeat (destruct H2 as [<-|H2]); try destruct H2;
    try discriminate Hlo; try discriminate Hhi;
    eexists; reflexivity.
Qed.

Lemma day_candidates d1 d2 rest :
  Strptime.is_digit d1 = true -> Strptime.is_digit d2 = true ->
  (1 <=? 10 * Strptime.digit_val d1 + Strptime.digit_val d2) = true ->
  (10 * Strptime.digit_val d1 + Strptime.digit_val d2 <=? 31) = true ->
  exists tl,
    Strptime.d_candidates (String d1 (String d2 rest))
    = (10 * Strptime.digit_val d1 + Strptime.digit_val d2, rest) :: tl.
Proof.
  intros H1 H2 Hlo Hhi.
  apply digit_cases in H1. apply digit_cases in H2.
  simpl in H1, H2.
  repeat (destruct H1 as [<-|H1]); try destruct H1;
    repeat (destruct H2 as [<-|H2]); try destruct H2;
    try discriminate Hlo; try discriminate Hhi;
    eexists; reflexivity.
Qed.

Lemma days_in_month_le_31 y m : Strptime.days_in_month y m <= 31.
Proof.
  unfold Strptime.days_in_month.
  destruct (m =? 2); [destruct (Strptime.is_leap y); lia|].
  destruct ((m =? 4) || (m =? 6) || (m =? 9) || (m =? 11)); lia.
Qed.

Ltac split_andb :=
  repeat match goal with
         | H : _ && _ = true |- _ =>
             apply andb_true_iff in H; destruct H
         end.

Lemma strict_date_parses s :
  yyyy_mm_dd s = true -> Strptime.strptime s = inr (strict_date s).
Proof.
  destruct s as [|y1 [|y2 [|y3 [|y4 [|c1 s]]]]]; try discriminate.
  destruct (Ascii.eqb_spec c1 "-") as [->|N1];
    [|destruct c1 as [[] [] [] [] [] [] [] []]; try discriminate; congruence].
  destruct s as [|m1 [|m2 [|c2 s]]]; try discriminate.
  destruct (Ascii.eqb_spec c2 "-") as [->|N2];
    [|destruct c2 as [[] [] [] [] [] [] [] []]; try discriminate; congruence].
  destruct s as [|d1 [|d2 [|? ?]]]; try discriminate.
  unfold yyyy_mm_dd.
  intros H. split_andb.
  unfold Strptime.date_ok in *. split_andb.
  match goal with
  | Hd : (_ <=? Strptime.days_in_month _ _) = true |- _ =>
      pose proof Hd as Hd31; apply Z.leb_le in Hd31
  end.
  pose proof (days_in_month_le_31
                (1000 * Strptime.digit_val y1 + 100 * Strptime.digit_val y2
                 + 10 * Strptime.digit_val y3 + Strptime.digit_val y4)
                (10 * Strptime.digit_val m1 + Strptime.digit_val m2)) as Hle.
  destruct (month_candidates m1 m2 (String "-" (String d1 (String d2 EmptyString))))
    as [mtl Hm]; try assumption.
  destruct (day_candidates d1 d2 EmptyString) as [dtl Hd]; try assumption.
  { apply Z.leb_le. lia. }
  unfold Strptime.strptime, Strptime.regex_match, Strptime.match_Y.
  repeat match goal with
         | H : Strptime.is_digit _ = true |- _ => rewrite H; clear H
         end.
  cbn [andb Strptime.match_dash]. rewrite Hm.
  cbn [Strptime.first_some Strptime.match_dash]. rewrite Hd.
  unfold Strptime.date_ok.
  repeat match goal with
         | H : (_ <=? _) = true |- _ => rewrite H; clear H
         end.
  reflexivity.
Qed.

Lemma ascii_compare_digit_val (a b : ascii) :
  Ascii.compare a b = (Strptime.digit_val a ?= Strptime.digit_val b).
Proof.
  unfold Ascii.compare, Strptime.digit_val, nat_of_ascii.
  rewrite !N_nat_Z. unfold Z.sub.
  rewrite (Z.add_comm (Z.of_N (N_of_ascii a))), (Z.add_comm (Z.of_N (N_of_ascii b))).
  rewrite Z.add_compare_mono_l. symmetry. apply N2Z.inj_compare.
Qed.

Lemma digit_val_range (c : ascii) :
  Strptime.is_digit c = true -> 0 <= Strptime.digit_val c <= 9.
Proof.
  intros H. apply digit_cases in H. simpl in H.
  repeat (destruct H as [<-|H]; [vm_compute; split; discriminate|]).
  destruct H.
Qed.

Ltac decide_order :=
  repeat match goal with
         | |- context [?a <? ?b] => destruct (Z.ltb_spec a b)
         | |- context [?a =? ?b] => destruct (Z.eqb_spec a b)
         end;
  simpl; try reflexivity; try lia.

(** Two texts of the strict form compare as the dates they name. *)
Lemma strict_dates_compare_as_dates (a b : string) :
  yyyy_mm_dd a = true -> yyyy_mm_dd b = true ->
  Py.str_gt a b = date_gt (strict_date a) (strict_date b).
Proof.
  destruct a as [|y1 [|y2 [|y3 [|y4 [|c1 a]]]]]; try discriminate.
  destruct (Ascii.eqb_spec c1 "-") as [->|N1];
    [|destruct c1 as [[] [] [] [] [] [] [] []]; try discriminate; congruence].
  destruct a as [|m1 [|m2 [|c2 a]]]; try discriminate.
  destruct (Ascii.eqb_spec c2 "-") as [->|N2];
    [|destruct c2 as [[] [] [] [] [] [] [] []]; try discriminate; congruence].
  destruct a as [|d1 [|d2 [|? ?]]]; try discriminate.
  destruct b as [|z1 [|z2 [|z3 [|z4 [|c3 b]]]]]; try discriminate.
  destruct (Ascii.eqb_spec c3 "-") as [->|N3];
    [|destruct c3 as [[] [] [] [] [] [] [] []]; try discriminate; congruence].
  destruct b as [|n1 [|n2 [|c4 b]]]; try discriminate.
  destruct (Ascii.eqb_spec c4 "-") as [->|N4];
    [|destruct c4 as [[] [] [] [] [] [] [] []]; try discriminate; congruence].
  destruct b as [|e1 [|e2 [|? ?]]]; try discriminate.
  unfold yyyy_mm_dd. intros Ha Hb. split_andb.
  repeat match goal with
         | H : Strptime.is_digit _ = true |- _ => apply digit_val_range in H
         end.
  unfold Py.str_gt, String.ltb, date_gt, strict_date.
  cbn [String.compare].
  change (Ascii.compare "-" "-") with Eq. cbv iota.
  rewrite !ascii_compare_digit_val.
  repeat match goal with
         | |- context [?x ?= ?y] => destruct (Z.compare_spec x y)
         end; decide_order.
Qed.

(** With both dates of the strict form, the validator accepts them and a
    start after the end is refused with the range error, before the
    database. *)
Lemma strict_range_is_checked estado a b limit :
  estado_invalido estado = false ->
  yyyy_mm_dd a = true -> yyyy_mm_dd b = true ->
  date_gt (strict_date a) (strict_date b) = true ->
  (forall w cif,
      DB.run (Facturacion.consultar_facturas w
                (Facturacion.Build_FacturasRequest estado (Some a) (Some b) limit)
                cif)
      = (inl Facturacion.rango_error, []))
  /\ (forall rt cif w,
         DB.run (Agent.consultar_mis_facturas rt cif w estado (Some a) (Some b)
                   limit)
         = (inr Agent.rango_error, [])).
Proof.
  intros H0 Ha Hb Hgt.
  assert (Hfa : fecha_invalida (Some a) = false).
  { unfold fecha_invalida, and_then, validar_fecha.
    rewrite (strict_date_parses a Ha). destruct a; reflexivity. }
  assert (Hfb : fecha_invalida (Some b) = false).
  { unfold fecha_invalida, and_then, validar_fecha.
    rewrite (strict_date_parses b Hb). destruct b; reflexivity. }
  assert (Hr : rango_invalido (Some a) (Some b) = true).
  { unfold rango_invalido, and_then.
    rewrite (strict_dates_compare_as_dates a b Ha Hb), Hgt.
    destruct a; [discriminate Ha|]. destruct b; [discriminate Hb|]. reflexivity. }
  split; intros; unfold DB.run.
  - unfold Facturacion.consultar_facturas.
    cbn [Facturacion.estado Facturacion.fecha_inicio Facturacion.fecha_fin].
    rewrite H0, Hfa, Hfb, Hr. reflexivity.
  - unfold Agent.consultar_mis_facturas. rewrite H0, Hfa, Hfb, Hr. reflexivity.
Qed.

(** C4.  The validator accepts ["2024-1-5"], which is not of the form
    YYYY-MM-DD: no format error is raised and the endpoint and the tool go on
    to the database.  With ["2024-11-01"] as start and ["2024-2-01"] as end,
    both accepted, the start is the later day (1 November against
    1 February), yet the range check, which compares the texts, lets the
    request through. *)
Theorem lenient_dates_pass_validation :
  (yyyy_mm_dd "2024-1-5" = false
   /\ validar_fecha "2024-1-5" = true
   /\ (forall w limit cif,
          let r :=
            DB.run (Facturacion.consultar_facturas w
                      (Facturacion.Build_FacturasRequest None (Some "2024-1-5")
                         None limit) cif) in
          fst r <> inl Facturacion.fecha_inicio_error
          /\ DB.connections (snd r) = 1%nat)
   /\ (forall rt cif w limit,
          let r :=
            DB.run (Agent.consultar_mis_facturas rt cif w None (Some "2024-1-5")
                      None limit) in
          fst r <> inr Agent.fecha_inicio_error
          /\ DB.connections (snd r) = 1%nat))
  /\ (Strptime.strptime "2024-11-01" = inr (2024, 11, 1)
      /\ Strptime.strptime "2024-2-01" = inr (2024, 2, 1)
      /\ date_gt (2024, 11, 1) (2024, 2, 1) = true
      /\ rango_invalido (Some "2024-11-01") (Some "2024-2-01") = false
      /\ (forall w limit cif,
             let r :=
               DB.run (Facturacion.consultar_facturas w
                         (Facturacion.Build_FacturasRequest None
                            (Some "2024-11-01") (Some "2024-2-01") limit) cif) in
             fst r <> inl Facturacion.rango_error
             /\ DB.connections (snd r) = 1%nat)
      /\ (forall rt cif w limit,
             let r :=
               DB.run (Agent.consultar_mis_facturas rt cif w None
                         (Some "2024-11-01") (Some "2024-2-01") limit) in
             fst r <> inr Agent.rango_error
             /\ DB.connections (snd r) = 1%nat)).
Proof.
  assert (Hhttp :
            forall w req cif d,
              estado_invalido (Facturacion.estado req) = false ->
              fecha_invalida (Facturacion.fecha_inicio req) = false ->
              fecha_invalida (Facturacion.fecha_fin req) = false ->
              rango_invalido (Facturacion.fecha_inicio req)
                (Facturacion.fecha_fin req) = false ->
              fst (DB.run (Facturacion.consultar_facturas w req cif))
              <> inl (Py.HTTPException 400 d)).
  { intros w req cif d H1 H2 H3 H4.
    unfold DB.run, Facturacion.consultar_facturas. rewrite H1, H2, H3, H4.
    apply facturacion_try_not_400. }
  split.
  - split; [reflexivity|]. split; [reflexivity|]. split.
    + intros w limit cif r. subst r. split.
      * apply Hhttp; reflexivity.
      * apply facturacion_connects_once; reflexivity.
    + intros rt cif w limit r. subst r. split.
      * apply agent_database_answer_is_no_validation_error;
          try reflexivity; simpl; auto.
      * apply agent_connects_once; reflexivity.
  - split; [reflexivity|]. split; [reflexivity|]. split; [reflexivity|].
    split; [reflexivity|]. split.
    + intros w limit cif r. subst r. split.
      * apply Hhttp; reflexivity.
      * apply facturacion_connects_once; reflexivity.
    + intros rt cif w limit r. subst r. split.
      * apply agent_database_answer_is_no_validation_error;
          try reflexivity; simpl; auto.
      * apply agent_connects_once; reflexivity.
Qed.

(** ** Stepping through a handler *)

Lemma bind_inr {A B} (m : DB.M A) (k : A -> DB.M B) l a l' :
  m l = (inr a, l') -> DB.bind m k l = k a l'.
Proof. intros H. unfold DB.bind. rewrite H. reflexivity. Qed.

Lemma bind_inl {A B} (m : DB.M A) (k : A -> DB.M B) l e l' :
  m l = (inl e, l') -> DB.bind m k l = (inl e, l').
Proof. intros H. unfold DB.bind. rewrite H. reflexivity. Qed.

Lemma cur_execute_rows conn q ps rows l :
  DB.execute conn q ps = inr rows ->
  DB.cur_execute conn q ps l = (inr rows, (l ++ [DB.Execute q ps])%list).
Proof.
  intros H. unfold DB.cur_execute, DB.bind, DB.emit, DB.lift. rewrite H.
  reflexivity.
Qed.

Lemma cur_execute_fails conn q ps e l :
  DB.execute conn q ps = inl e ->
  DB.cur_execute conn q ps l = (inl e, (l ++ [DB.Execute q ps])%list).
Proof.
  intros H. unfold DB.cur_execute, DB.bind, DB.emit, DB.lift. rewrite H.
  reflexivity.
Qed.

Lemma getitem_found r k v l :
  DB.lookup k r = Some v -> DB.getitem r k l = (inr v, l).
Proof. intros H. unfold DB.getitem. rewrite H. reflexivity. Qed.

Lemma lift_inr {A} (r : Py.exn + A) a l : r = inr a -> DB.lift r l = (inr a, l).
Proof. intros ->. reflexivity. Qed.

(** A handler body that returns under an open connection: the connection is
    closed and the value handed back. *)
Lemma with_connection_returns {A} (get : DB.M DB.connection)
      (body : DB.connection -> DB.M A) (h : Py.exn -> DB.M A) l conn l1 a l2 :
  get l = (inr conn, l1) ->
  body conn l1 = (inr a, l2) ->
  DB.try_except (DB.with_connection get body) h l
  = (inr a, (l2 ++ [DB.Close])%list).
Proof.
  intros Hg Hb. unfold DB.try_except, DB.with_connection, DB.bind.
  rewrite Hg, Hb. reflexivity.
Qed.

(** A handler body that raises under an open connection: the connection is
    closed and the handler takes over. *)
Lemma with_connection_raises {A} (get : DB.M DB.connection)
      (body : DB.connection -> DB.M A) (h : Py.exn -> DB.M A) l conn l1 e l2 :
  get l = (inr conn, l1) ->
  body conn l1 = (inl e, l2) ->
  DB.try_except (DB.with_connection get body) h l
  = h e (l2 ++ [DB.Close])%list.
Proof.
  intros Hg Hb. unfold DB.try_except, DB.with_connection, DB.bind.
  rewrite Hg, Hb. reflexivity.
Qed.

Lemma performance_connects conn l :
  Performance.get_db_connection (inr conn) l = (inr conn, (l ++ [DB.Connect])%list).
Proof. reflexivity. Qed.

Lemma facturacion_connects conn l :
  Facturacion.get_db_connection (inr conn) l = (inr conn, (l ++ [DB.Connect])%list).
Proof. reflexivity. Qed.

Lemma agent_connects conn l :
  Agent.get_db_connection (inr conn) l = (inr conn, (l ++ [DB.Connect])%list).
Proof. reflexivity. Qed.

Lemma sse_connects conn l :
  AgentSSE.get_db_connection (inr conn) l = (inr conn, (l ++ [DB.Connect])%list).
Proof. reflexivity. Qed.

(** ** Performance envelopes *)

(** The all-time query over an agent without rows returns one row of NULL
    sums, and the endpoint answers with the zero envelope, pending amount
    included. *)
Lemma total_without_rows_is_zero_envelope rt conn email sums :
  DB.execute conn Performance.total_query [DB.VStr email] = inr [sums] ->
  DB.lookup "total_ventas" sums = Some DB.VNone ->
  DB.run (Performance.obtener_performance rt (inr conn)
            (Performance.Build_PerformanceRequest None) email)
  = (inr Performance.sin_datos_total,
     [DB.Connect; DB.Execute Performance.total_query [DB.VStr email]; DB.Close]).
Proof.
  intros Hex Hnull. unfold DB.run, Performance.obtener_performance.
  erewrite with_connection_returns; cycle 1.
  - apply performance_connects.
  - cbn [Performance.anyo Performance.anyo_truthy]. unfold Performance.total.
    rewrite (bind_inr _ _ _ _ _ (cur_execute_rows _ _ _ _ _ Hex)).
    cbn [DB.fetchone hd_error].
    destruct sums as [|kv sums]; [discriminate Hnull|].
    rewrite (bind_inr _ _ _ _ _ (getitem_found _ _ _ _ Hnull)).
    reflexivity.
  - reflexivity.
Qed.

(** With rows, the all-time pending amount is the float difference of the two
    sums, a NULL (or zero) sum counting as 0.0. *)
Lemma total_pending_is_difference rt conn email sums tv n tf tc f c :
  DB.execute conn Performance.total_query [DB.VStr email] = inr [sums] ->
  DB.lookup "total_ventas" sums = Some tv ->
  Performance.is_none tv = false ->
  Num.py_int rt tv = inr n ->
  DB.lookup "total_facturado" sums = Some tf ->
  DB.lookup "total_cobrado" sums = Some tc ->
  (if Num.truthy tf then Num.py_float rt tf else inr Num.fzero) = inr f ->
  (if Num.truthy tc then Num.py_float rt tc else inr Num.fzero) = inr c ->
  fst (DB.run (Performance.obtener_performance rt (inr conn)
                 (Performance.Build_PerformanceRequest None) email))
  = inr (JObj
           [("periodo", JStr "Histórico Total");
            ("tipo", JStr "Acumulado");
            ("data",
             JObj [("ventas", JInt n);
                   ("facturado", JFloat f);
                   ("cobrado", JFloat c);
                   ("pendiente_cobro", JFloat (Num.fsub f c))])]).
Proof.
  intros Hex Hv Hnn Hn Hf Hc Hff Hcc.
  assert (Hfz : forall v x l,
             (if Num.truthy v then Num.py_float rt v else inr Num.fzero) = inr x ->
             Performance.float_or_zero rt v l = (inr x, l)).
  { intros v x l H. unfold Performance.float_or_zero.
    destruct (Num.truthy v); [rewrite H|inversion H]; reflexivity. }
  unfold DB.run, Performance.obtener_performance.
  erewrite with_connection_returns; cycle 1.
  - apply performance_connects.
  - cbn [Performance.anyo Performance.anyo_truthy]. unfold Performance.total.
    rewrite (bind_inr _ _ _ _ _ (cur_execute_rows _ _ _ _ _ Hex)).
    cbn [DB.fetchone hd_error].
    destruct sums as [|kv sums]; [discriminate Hv|].
    rewrite (bind_inr _ _ _ _ _ (getitem_found _ _ _ _ Hv)). rewrite Hnn.
    rewrite (bind_inr _ _ _ _ _ (getitem_found _ _ _ _ Hv)).
    rewrite (bind_inr _ _ _ _ _ (lift_inr _ _ _ Hn)).
    rewrite (bind_inr _ _ _ _ _ (getitem_found _ _ _ _ Hf)).
    rewrite (bind_inr _ _ _ _ _ (Hfz _ _ _ Hff)).
    rewrite (bind_inr _ _ _ _ _ (getitem_found _ _ _ _ Hc)).
    rewrite (bind_inr _ _ _ _ _ (Hfz _ _ _ Hcc)).
    reflexivity.
  - reflexivity.
Qed.

(** C6.  For a year without rows the endpoint answers with ventas 0,
    facturado 0.0 and cobrado 0.0 and no pending amount at all: the key
    [pendiente_cobro] is missing from the data of that answer. *)
Theorem annual_without_rows_omits_pending :
  forall rt conn email (a : Z),
    a <> 0 ->
    DB.execute conn Performance.anual_query [DB.VStr email; DB.VInt a] = inr [] ->
    exists body data,
      DB.run (Performance.obtener_performance rt (inr conn)
                (Performance.Build_PerformanceRequest (Some a)) email)
      = (inr (JObj body),
         [DB.Connect;
          DB.Execute Performance.anual_query [DB.VStr email; DB.VInt a];
          DB.Close])
      /\ field "data" body = Some (JObj data)
      /\ data = [("ventas", JInt 0);
                 ("facturado", JFloat Num.fzero);
                 ("cobrado", JFloat Num.fzero)]
      /\ field "pendiente_cobro" data = None.
Proof.
  intros rt conn email a Ha Hex.
  unfold DB.run, Performance.obtener_performance.
  assert (Hy : Performance.anyo_truthy (Some a) = Some a)
    by (destruct a; [congruence|reflexivity|reflexivity]).
  cbn [Performance.anyo]. rewrite Hy.
  eexists _, _. split; [|split; [|split]].
  - erewrite with_connection_returns; cycle 1.
    + apply performance_connects.
    + unfold Performance.anual.
      rewrite (bind_inr _ _ _ _ _ (cur_execute_rows _ _ _ _ _ Hex)).
      reflexivity.
    + reflexivity.
  - reflexivity.
  - reflexivity.
  - reflexivity.
Qed.

Lemma annual_without_rows_omits_pending_witness :
  (2023 <> 0
   /\ DB.execute Demo.conn Performance.anual_query
        [DB.VStr "ana.lopez@inmo.es"; DB.VInt 2023] = inr [])
  /\ exists body data,
      DB.run (Performance.obtener_performance Demo.rt Demo.world
                (Performance.Build_PerformanceRequest (Some 2023))
                "ana.lopez@inmo.es")
      = (inr (JObj body),
         [DB.Connect;
          DB.Execute Performance.anual_query
            [DB.VStr "ana.lopez@inmo.es"; DB.VInt 2023];
          DB.Close])
      /\ field "data" body = Some (JObj data)
      /\ data = [("ventas", JInt 0);
                 ("facturado", JFloat Num.fzero);
                 ("cobrado", JFloat Num.fzero)]
      /\ field "pendiente_cobro" data = None.
Proof.
  split; [split; [lia | reflexivity]|].
  apply (annual_without_rows_omits_pending Demo.rt Demo.conn
           "ana.lopez@inmo.es" 2023); [lia | reflexivity].
Defined.

(** ** The gatekeeper *)

(** The identity lookup of agent_server_sse.py, as its text reads: both
    sides of the comparison are under [LOWER]. *)
Lemma resolve_query_folds_both_sides :
  Store.identity_lookup AgentSSE.resolve_query = Some (true, true).
Proof. vm_compute. reflexivity. Qed.

Section Gatekeeper.

Variable similarity : string -> string -> spec_float.
Variable trgm_match : string -> string -> bool.
Variable other : string -> list DB.param -> Py.exn + list DB.row.
Variable st : Store.store.

Let conn := Store.pg similarity trgm_match other st.

Lemma pg_resolve e :
  DB.execute conn AgentSSE.resolve_query [DB.VStr e] = inr (Store.resolve_rows st e).
Proof.
  unfold conn, Store.pg. cbn [DB.execute]. unfold Store.pg_execute.
  rewrite resolve_query_folds_both_sides. reflexivity.
Qed.

Lemma matching_fold e1 e2 :
  Store.lower st e1 = Store.lower st e2 ->
  Store.matching st e1 = Store.matching st e2.
Proof.
  intros H. unfold Store.matching, Store.lookup_contacts, Store.fold_if.
  cbn [fst snd]. rewrite H. reflexivity.
Qed.


(** The gatekeeper on the store: one read of the identity table, then the CIF
    of the first matching contact or the denial. *)
Lemma resolve_on_store e l :
  AgentSSE.resolve_cif_from_email e conn l
  = (match Store.matching st e with
     | [] => inl (Py.ValueError (AgentSSE.acceso_denegado e))
     | c :: _ => inr (DB.VStr (Store.cif c))
     end,
     (l ++ [DB.Execute AgentSSE.resolve_query [DB.VStr e]])%list).
Proof.
  unfold AgentSSE.resolve_cif_from_email.
  rewrite (bind_inr _ _ _ _ _ (cur_execute_rows _ _ _ _ _ (pg_resolve e))).
  unfold Store.resolve_rows, Store.lookup_rows. fold (Store.matching st e).
  destruct (Store.matching st e) as [|c cs]; reflexivity.
Qed.

End Gatekeeper.

Lemma length_append (a b : string) :
  String.length (a ++ b) = (String.length a + String.length b)%nat.
Proof. induction a as [|c a IH]; simpl; [reflexivity|rewrite IH; reflexivity]. Qed.

Lemma append_cancel_r (s : string) :
  forall a b, a ++ s = b ++ s -> a = b.
Proof.
  intros a b H.
  assert (Hlen : String.length a = String.length b).
  { apply (f_equal String.length) in H. rewrite !length_append in H. lia. }
  revert b H Hlen. induction a as [|c a IH]; intros [|d b] H Hlen;
    try discriminate Hlen; [reflexivity|].
  simpl in H. inversion H; subst. f_equal. apply IH; [assumption|].
  simpl in Hlen. lia.
Qed.

(** The denial quotes the e-mail: two denials are the same text only for the
    same e-mail. *)
Lemma acceso_denegado_inj e1 e2 :
  AgentSSE.acceso_denegado e1 = AgentSSE.acceso_denegado e2 -> e1 = e2.
Proof.
  unfold AgentSSE.acceso_denegado. intros H.
  cbn [String.append] in H. inversion H as [H'].
  exact (append_cancel_r _ _ _ H').
Qed.

(** C5 (as the code has it).  The lookup compares the e-mails under the
    [LOWER] of the database on both sides.  Two e-mails that [LOWER] maps to
    the same text resolve alike on every identity table: both to the same
    CIF, or both to the denial, a [ValueError] whose text quotes the e-mail
    as it was given.  The two denials are therefore the same error exactly
    when the two e-mails are spelled the same. *)
Theorem resolution_ignores_case :
  forall similarity trgm_match other st (e1 e2 : string) l,
    Store.lower st e1 = Store.lower st e2 ->
    let conn := Store.pg similarity trgm_match other st in
    let r1 := fst (AgentSSE.resolve_cif_from_email e1 conn l) in
    let r2 := fst (AgentSSE.resolve_cif_from_email e2 conn l) in
    (exists c rest,
        Store.matching st e1 = c :: rest
        /\ r1 = inr (DB.VStr (Store.cif c))
        /\ r2 = inr (DB.VStr (Store.cif c)))
    \/ (Store.matching st e1 = []
        /\ r1 = inl (Py.ValueError (AgentSSE.acceso_denegado e1))
        /\ r2 = inl (Py.ValueError (AgentSSE.acceso_denegado e2))
        /\ (r1 = r2 <-> e1 = e2)).
Proof.
  intros similarity trgm_match other st e1 e2 l H conn r1 r2.
  subst r1 r2 conn.
  rewrite !resolve_on_store. rewrite <- (matching_fold st e1 e2 H).
  destruct (Store.matching st e1) as [|c cs]; cbn [fst].
  - right. repeat split.
    + intros E. apply acceso_denegado_inj. congruence.
    + intros ->. reflexivity.
  - left. exists c, cs. repeat split.
Qed.

Lemma resolution_ignores_case_witness :
  Store.lower Demo.store "ANA.Lopez@inmo.ES"
  = Store.lower Demo.store "ana.lopez@INMO.es"
  /\ exists c rest,
      Store.matching Demo.store "ANA.Lopez@inmo.ES" = c :: rest
      /\ fst (AgentSSE.resolve_cif_from_email "ANA.Lopez@inmo.ES" Demo.conn [])
         = inr (DB.VStr (Store.cif c))
      /\ fst (AgentSSE.resolve_cif_from_email "ana.lopez@INMO.es" Demo.conn [])
         = inr (DB.VStr (Store.cif c)).
Proof.
  split; [reflexivity|].
  destruct (resolution_ignores_case Demo.similarity Demo.trgm_match Demo.other
              Demo.store "ANA.Lopez@inmo.ES" "ana.lopez@INMO.es" [] eq_refl)
    as [H|(H & _)].
  - exact H.
  - discriminate H.
Defined.

(** C5 as stated fails on the error: the two spellings of the example of the
    specification are equal once folded and both are denied, but not with the
    same error, since each denial quotes the spelling it was given. *)
Lemma denials_quote_the_spelling :
  Store.lower Demo.store "A@B.com" = Store.lower Demo.store "a@b.com"
  /\ fst (AgentSSE.resolve_cif_from_email "A@B.com" Demo.conn [])
     = inl (Py.ValueError "ACCESO DENEGADO: El email A@B.com no está autorizado.")
  /\ fst (AgentSSE.resolve_cif_from_email "a@b.com" Demo.conn [])
     = inl (Py.ValueError "ACCESO DENEGADO: El email a@b.com no está autorizado.")
  /\ fst (AgentSSE.resolve_cif_from_email "A@B.com" Demo.conn [])
     <> fst (AgentSSE.resolve_cif_from_email "a@b.com" Demo.conn []).
Proof.
  split; [reflexivity|]. split; [reflexivity|]. split; [reflexivity|].
  vm_compute. discriminate.
Qed.

(** ** What reaches the database *)

Lemma quiet_ret {A} (a : A) : DB.quiet (DB.ret a).
Proof. intros l. reflexivity. Qed.

Lemma quiet_raise {A} e : DB.quiet (@DB.raise A e).
Proof. intros l. reflexivity. Qed.

Lemma quiet_lift {A} (r : Py.exn + A) : DB.quiet (DB.lift r).
Proof. intros l. destruct r; reflexivity. Qed.

Lemma quiet_getitem r k : DB.quiet (DB.getitem r k).
Proof. intros l. unfold DB.getitem. destruct (DB.lookup k r); reflexivity. Qed.

Lemma quiet_bind {A B} (m : DB.M A) (k : A -> DB.M B) :
  DB.quiet m -> (forall a, DB.quiet (k a)) -> DB.quiet (DB.bind m k).
Proof.
  intros Hm Hk l. unfold DB.bind. specialize (Hm l).
  destruct (m l) as [[e|a] l1]; simpl in *; subst; [reflexivity|apply Hk].
Qed.

Create HintDb quiet.
#[local] Hint Resolve quiet_ret quiet_raise quiet_lift quiet_getitem : quiet.

Ltac quiet :=
  repeat first
    [ apply quiet_bind; [|intros ?]
    | solve [auto with quiet]
    | match goal with
      | |- DB.quiet (if ?b then _ else _) => destruct b
      | |- DB.quiet (match ?x with _ => _ end) => destruct x
      end ].

(** After [cur.execute] the log has grown by that statement, whatever the
    driver answered, provided what follows is quiet. *)
Lemma log_after_execute {A} conn q ps (k : list DB.row -> DB.M A) l :
  (forall rows, DB.quiet (k rows)) ->
  snd (DB.bind (DB.cur_execute conn q ps) k l) = (l ++ [DB.Execute q ps])%list.
Proof.
  intros Hk. unfold DB.bind at 1, DB.cur_execute, DB.bind, DB.emit, DB.lift.
  simpl. destruct (DB.execute conn q ps) as [e|rows]; simpl; [reflexivity|].
  apply Hk.
Qed.

Lemma executed_app l1 l2 :
  DB.executed (l1 ++ l2) = (DB.executed l1 ++ DB.executed l2)%list.
Proof.
  induction l1 as [|ev l1 IH]; simpl; [reflexivity|].
  destruct ev; simpl; rewrite IH; reflexivity.
Qed.




(** The log of a guarded body whose handler is quiet: the log of the body,
    then the closing of the connection. *)
Lemma log_of_guarded {A} (get : DB.M DB.connection)
      (body : DB.connection -> DB.M A) (h : Py.exn -> DB.M A) l conn l1 :
  get l = (inr conn, l1) ->
  (forall e, DB.quiet (h e)) ->
  snd (DB.try_except (DB.with_connection get body) h l)
  = (snd (body conn l1) ++ [DB.Close])%list.
Proof.
  intros Hg Hh. unfold DB.try_except, DB.with_connection, DB.bind.
  rewrite Hg. destruct (body conn l1) as [[e|a] l2]; simpl; [apply Hh|reflexivity].
Qed.

Section GatekeeperPaths.

Variable rt : Num.runtime.
Variable similarity : string -> string -> spec_float.
Variable trgm_match : string -> string -> bool.
Variable other : string -> list DB.param -> Py.exn + list DB.row.
Variable st : Store.store.

Let conn := Store.pg similarity trgm_match other st.





End GatekeeperPaths.

Section PerformanceOnStore.

Variable similarity : string -> string -> spec_float.
Variable trgm_match : string -> string -> bool.
Variable other : string -> list DB.param -> Py.exn + list DB.row.
Variable st : Store.store.

Let conn := Store.pg similarity trgm_match other st.




End PerformanceOnStore.




(** ** The summary of the tool server *)

Lemma append_assoc (a b c : string) : (a ++ b) ++ c = a ++ (b ++ c).
Proof. induction a as [|x a IH]; simpl; [reflexivity|rewrite IH; reflexivity]. Qed.

Lemma append_nil_r (a : string) : a ++ EmptyString = a.
Proof. induction a as [|x a IH]; simpl; [reflexivity|rewrite IH; reflexivity]. Qed.

(** The [filtros] list of the code is the echo the specification words. *)
Lemma filtros_spec estado fecha_inicio fecha_fin :
  Agent.filtros estado fecha_inicio fecha_fin
  = applied_filters estado fecha_inicio fecha_fin.
Proof.
  destruct estado as [[|? ?]|], fecha_inicio as [[|? ?]|],
    fecha_fin as [[|? ?]|]; reflexivity.
Qed.

Lemma present_truthy (o : option string) :
  present o <> None <-> Py.truthy o = true.
Proof.
  destruct o as [[|? ?]|]; simpl; split; intros H; congruence.
Qed.

(** The echo names a filter exactly when the statement carries it. *)
Lemma echo_follows_statement estado fecha_inicio fecha_fin :
  let slots := present_slots estado fecha_inicio fecha_fin in
  (present estado <> None <-> In SEstado slots)
  /\ (present fecha_inicio <> None <-> In SDesde slots)
  /\ (present fecha_fin <> None <-> In SHasta slots).
Proof.
  cbv zeta. rewrite !present_truthy. unfold present_slots, when.
  destruct (Py.truthy estado), (Py.truthy fecha_inicio), (Py.truthy fecha_fin);
    simpl; repeat split; intros H; try reflexivity; try discriminate;
    try tauto;
    repeat match goal with
           | H : _ \/ _ |- _ => destruct H
           | H : _ = _ |- _ => discriminate H
           | H : False |- _ => destruct H
           end.
Qed.

Lemma factura_line_text rt r l :
  has_columns ["numero_factura"; "estado_legible"; "total"; "moneda";
               "fecha_emision"] r ->
  Agent.factura_line rt r l = (inr (factura_text rt r), l).
Proof.
  intros H. unfold Agent.factura_line, factura_text, cell, DB.getitem, DB.bind.
  assert (Hk : forall k, In k ["numero_factura"; "estado_legible"; "total";
                               "moneda"; "fecha_emision"] ->
                         exists v, DB.lookup k r = Some v).
  { intros k Hin. specialize (H k Hin).
    destruct (DB.lookup k r) as [v|]; [eauto|congruence]. }
  destruct (Hk "numero_factura") as [v1 ->]; [simpl; auto|].
  destruct (Hk "estado_legible") as [v2 ->]; [simpl; auto|].
  destruct (Hk "total") as [v3 ->]; [simpl; auto|].
  destruct (Hk "moneda") as [v4 ->]; [simpl; auto|].
  destruct (Hk "fecha_emision") as [v5 ->]; [simpl; auto 6|].
  reflexivity.
Qed.

(** A loop over rows whose lines all succeed appends their texts in order. *)
Lemma each_row_texts (line : DB.row -> DB.M string) (text : DB.row -> string)
      rows :
  (forall r l, In r rows -> line r l = (inr (text r), l)) ->
  forall acc l,
    Agent.each_row line rows acc l
    = (inr (acc ++ concat_all (map text rows)), l).
Proof.
  induction rows as [|r rows IH]; intros H acc l; simpl.
  - rewrite append_nil_r. reflexivity.
  - rewrite (bind_inr _ _ _ _ _ (H r l (or_introl eq_refl))).
    rewrite IH; [|intros; apply H; right; assumption].
    rewrite append_assoc. reflexivity.
Qed.

(** C9.  With rows to report, the summary of the tool server is the count,
    then in parentheses the echo of the applied filters (the status when
    present; "periodo: a a b" when both dates are, "desde" or "hasta" when
    one is; no parentheses when no filter is), then one line per invoice.
    The echo names a filter exactly when the executed statement carries
    it. *)
Theorem summary_echoes_applied_filters :
  forall rt cif conn (estado fecha_inicio fecha_fin : option string) limit rows,
    estado_invalido estado = false ->
    fecha_invalida fecha_inicio = false ->
    fecha_invalida fecha_fin = false ->
    rango_invalido fecha_inicio fecha_fin = false ->
    DB.execute conn
      (fst (Agent.build_query cif estado fecha_inicio fecha_fin limit))
      (snd (Agent.build_query cif estado fecha_inicio fecha_fin limit))
    = inr rows ->
    rows <> [] ->
    (forall r, In r rows ->
               has_columns ["numero_factura"; "estado_legible"; "total";
                            "moneda"; "fecha_emision"] r) ->
    let echo :=
      match applied_filters estado fecha_inicio fecha_fin with
      | [] => EmptyString
      | fs => " (" ++ Py.join ", " fs ++ ")"
      end in
    let slots := present_slots estado fecha_inicio fecha_fin in
    fst (DB.run (Agent.consultar_mis_facturas rt cif (inr conn) estado
                   fecha_inicio fecha_fin limit))
    = inr ("Encontré " ++ Py.str_of_nat (List.length rows) ++ " factura(s)"
           ++ echo ++ ":" ++ DB.nl ++ DB.nl
           ++ concat_all (map (factura_text rt) rows))
    /\ DB.executed
         (snd (DB.run (Agent.consultar_mis_facturas rt cif (inr conn) estado
                         fecha_inicio fecha_fin limit)))
       = [Agent.build_query cif estado fecha_inicio fecha_fin limit]
    /\ slots_of_statement
         (fst (Agent.build_query cif estado fecha_inicio fecha_fin limit))
       = Some slots
    /\ (present estado <> None <-> In SEstado slots)
    /\ (present fecha_inicio <> None <-> In SDesde slots)
    /\ (present fecha_fin <> None <-> In SHasta slots).
Proof.
  intros rt cif conn estado fecha_inicio fecha_fin limit rows
         H1 H2 H3 H4 Hex Hne Hcols echo slots.
  assert (Hrun :
            DB.run (Agent.consultar_mis_facturas rt cif (inr conn) estado
                      fecha_inicio fecha_fin limit)
            = (inr ("Encontré " ++ Py.str_of_nat (List.length rows)
                    ++ " factura(s)" ++ echo ++ ":" ++ DB.nl ++ DB.nl
                    ++ concat_all (map (factura_text rt) rows)),
               [DB.Connect;
                DB.Execute
                  (fst (Agent.build_query cif estado fecha_inicio fecha_fin limit))
                  (snd (Agent.build_query cif estado fecha_inicio fecha_fin limit));
                DB.Close])).
  { unfold DB.run, Agent.consultar_mis_facturas. rewrite H1, H2, H3, H4.
    destruct (Agent.build_query cif estado fecha_inicio fecha_fin limit)
      as [q ps]. cbn [fst snd] in *.
    destruct rows as [|r rows]; [congruence|].
    erewrite with_connection_returns; cycle 1.
    - apply agent_connects.
    - rewrite (bind_inr _ _ _ _ _ (cur_execute_rows _ _ _ _ _ Hex)).
      cbv beta iota.
      apply (each_row_texts (Agent.factura_line rt) (factura_text rt)).
      intros r0 l0 Hin. apply factura_line_text. apply Hcols. exact Hin.
    - unfold Agent.encabezado. rewrite filtros_spec. subst echo.
      destruct (applied_filters estado fecha_inicio fecha_fin) as [|f fs];
        rewrite ?append_assoc; cbn [app]; simpl append;
        rewrite ?append_assoc; reflexivity. }
  rewrite Hrun. cbn [fst snd].
  split; [reflexivity|]. split.
  - cbn [DB.executed].
    destruct (Agent.build_query cif estado fecha_inicio fecha_fin limit);
      reflexivity.
  - split; [apply agent_build_slots|]. apply echo_follows_statement.
Qed.

Lemma noviembre_columns :
  forall r, In r Demo.noviembre ->
            has_columns ["numero_factura"; "estado_legible"; "total"; "moneda";
                         "fecha_emision"] r.
Proof.
  intros r [<-|[<-|[<-|[]]]] k Hk; simpl in Hk;
    repeat (destruct Hk as [<-|Hk]; [vm_compute; discriminate|]);
    destruct Hk.
Qed.

Lemma summary_echoes_applied_filters_witness :
  fst (DB.run (Agent.consultar_mis_facturas Demo.rt (Some "B12345678")
                 (inr Demo.noviembre_conn) (Some "PAGADA") (Some "2024-11-01")
                 (Some "2024-11-30") 5))
  = inr ("Encontré " ++ Py.str_of_nat 3 ++ " factura(s)"
         ++ " (" ++ Py.join ", " ["estado: PAGADA"; "periodo: 2024-11-01 a 2024-11-30"]
         ++ ")" ++ ":" ++ DB.nl ++ DB.nl
         ++ concat_all (map (factura_text Demo.rt) Demo.noviembre)).
Proof.
  exact (proj1 (summary_echoes_applied_filters Demo.rt (Some "B12345678")
                  Demo.noviembre_conn (Some "PAGADA") (Some "2024-11-01")
                  (Some "2024-11-30") 5 Demo.noviembre
                  eq_refl eq_refl eq_refl eq_refl eq_refl
                  (fun H => match H with eq_refl => I end)
                  noviembre_columns)).
Defined.

(** The end-to-end example of the specification: three paid invoices of
    November 2024 are reported with their count and the echo of status and
    period. *)
Example summary_of_november :
  fst (DB.run (Agent.consultar_mis_facturas Demo.rt (Some "B12345678")
                 (inr Demo.noviembre_conn) (Some "PAGADA") (Some "2024-11-01")
                 (Some "2024-11-30") 5))
  = inr ("Encontré 3 factura(s) (estado: PAGADA, periodo: 2024-11-01 a 2024-11-30):"
         ++ DB.nl ++ DB.nl
         ++ "- Factura F-2024-031 (PAGADA): 1200.50 EUR. Fecha: 2024-11-28" ++ DB.nl
         ++ "- Factura F-2024-027 (PAGADA): 800.00 EUR. Fecha: 2024-11-14" ++ DB.nl
         ++ "- Factura F-2024-025 (PAGADA): 450.00 EUR. Fecha: 2024-11-03" ++ DB.nl).
Proof. vm_compute. reflexivity. Qed.

(** ** Empty results *)

Lemma sse_resolves conn email r rest c l :
  DB.execute conn AgentSSE.resolve_query [DB.VStr email] = inr (r :: rest) ->
  DB.lookup "cif" r = Some c ->
  AgentSSE.resolve_cif_from_email email conn l
  = (inr c, (l ++ [DB.Execute AgentSSE.resolve_query [DB.VStr email]])%list).
Proof.
  intros Hex Hc. unfold AgentSSE.resolve_cif_from_email.
  rewrite (bind_inr _ _ _ _ _ (cur_execute_rows _ _ _ _ _ Hex)).
  cbn [DB.fetchone hd_error].
  destruct r as [|kv r]; [discriminate Hc|].
  apply getitem_found. exact Hc.
Qed.

(** C8 (as the code has it).  A data statement (invoices, address search,
    performance figures, zone statistics) that returns no rows is answered
    normally and explicitly: by the tools with a fixed sentence that is
    neither empty nor the text of an empty list nor marked as an error, by
    the HTTP endpoints with a body that carries a message or a zero count
    beside the empty data; the connection is closed.  The same statement
    failing is answered as an error: a text starting with "Error" by the
    tools, HTTP 500 by the endpoints.  The two identity lookups are not
    answered that way: when they return no rows, the gatekeeper of the SSE
    tools answers with the denial, an error text, and the zone endpoint with
    HTTP 404. *)
Theorem empty_result_is_explicit :
  forall rt conn,
    let w : DB.world := inr conn in
    (forall cif estado fecha_inicio fecha_fin limit,
        estado_invalido estado = false ->
        fecha_invalida fecha_inicio = false ->
        fecha_invalida fecha_fin = false ->
        rango_invalido fecha_inicio fecha_fin = false ->
        let qp := Agent.build_query cif estado fecha_inicio fecha_fin limit in
        let answer :=
          DB.run (Agent.consultar_mis_facturas rt cif w estado fecha_inicio
                    fecha_fin limit) in
        (DB.execute conn (fst qp) (snd qp) = inr [] ->
         answer = (inr Agent.sin_facturas,
                   [DB.Connect; DB.Execute (fst qp) (snd qp); DB.Close]))
        /\ (forall e,
               DB.execute conn (fst qp) (snd qp) = inl e ->
               exists t, fst answer = inr t /\ marked_as_error t))
    /\ (forall cif query_direccion,
           let ps := [DB.VStr query_direccion; DB.param_of_opt cif;
                      DB.VStr query_direccion] in
           let answer :=
             DB.run (Agent.buscar_factura_por_propiedad rt cif w
                       query_direccion) in
           (DB.execute conn Agent.buscar_query ps = inr [] ->
            answer = (inr (Agent.sin_propiedad query_direccion),
                      [DB.Connect; DB.Execute Agent.buscar_query ps; DB.Close]))
           /\ (forall e,
                  DB.execute conn Agent.buscar_query ps = inl e ->
                  exists t, fst answer = inr t /\ marked_as_error t))
    /\ (forall email r rest c estado fecha_inicio limit,
           estado_invalido estado = false ->
           DB.execute conn AgentSSE.resolve_query [DB.VStr email]
           = inr (r :: rest) ->
           DB.lookup "cif" r = Some c ->
           let qp := AgentSSE.build_query c estado fecha_inicio limit in
           let answer :=
             DB.run (AgentSSE.consultar_mis_facturas rt w email estado
                       fecha_inicio limit) in
           (DB.execute conn (fst qp) (snd qp) = inr [] ->
            answer = (inr AgentSSE.sin_facturas,
                      [DB.Connect;
                       DB.Execute AgentSSE.resolve_query [DB.VStr email];
                       DB.Execute (fst qp) (snd qp); DB.Close]))
           /\ (forall e,
                  DB.execute conn (fst qp) (snd qp) = inl e ->
                  exists t, fst answer = inr t /\ marked_as_error t))
    /\ (forall email r rest c query_direccion,
           DB.execute conn AgentSSE.resolve_query [DB.VStr email]
           = inr (r :: rest) ->
           DB.lookup "cif" r = Some c ->
           let ps := [DB.VStr query_direccion; c; DB.VStr query_direccion] in
           let answer :=
             DB.run (AgentSSE.buscar_factura_por_propiedad rt w email
                       query_direccion) in
           (DB.execute conn AgentSSE.buscar_query ps = inr [] ->
            answer = (inr AgentSSE.sin_propiedad,
                      [DB.Connect;
                       DB.Execute AgentSSE.resolve_query [DB.VStr email];
                       DB.Execute AgentSSE.buscar_query ps; DB.Close]))
           /\ (forall e,
                  DB.execute conn AgentSSE.buscar_query ps = inl e ->
                  exists t, fst answer = inr t /\ marked_as_error t))
    /\ (says_nothing_found Agent.sin_facturas
        /\ (forall query_direccion,
               says_nothing_found (Agent.sin_propiedad query_direccion))
        /\ says_nothing_found AgentSSE.sin_facturas
        /\ says_nothing_found AgentSSE.sin_propiedad)
    /\ (forall cif req,
           estado_invalido (Facturacion.estado req) = false ->
           fecha_invalida (Facturacion.fecha_inicio req) = false ->
           fecha_invalida (Facturacion.fecha_fin req) = false ->
           rango_invalido (Facturacion.fecha_inicio req)
             (Facturacion.fecha_fin req) = false ->
           let qp := Facturacion.build_query req cif in
           let answer := DB.run (Facturacion.consultar_facturas w req cif) in
           (DB.execute conn (fst qp) (snd qp) = inr [] ->
            answer
            = (inr (JObj
                      [("count", JInt 0);
                       ("data", JRows []);
                       ("filtros_aplicados",
                        JObj [("estado", json_of_opt (Facturacion.estado req));
                              ("fecha_inicio",
                               json_of_opt (Facturacion.fecha_inicio req));
                              ("fecha_fin",
                               json_of_opt (Facturacion.fecha_fin req));
                              ("limit", JInt (Facturacion.limit req));
                              ("agent_cif", json_of_opt cif)])]),
               [DB.Connect; DB.Execute (fst qp) (snd qp); DB.Close]))
           /\ (forall e,
                  DB.execute conn (fst qp) (snd qp) = inl e ->
                  exists d, fst answer = inl (Py.HTTPException 500 d)))
    /\ (forall req email a,
           Performance.anyo_truthy (Performance.anyo req) = Some a ->
           let ps := [DB.VStr email; DB.VInt a] in
           let answer :=
             DB.run (Performance.obtener_performance rt w req email) in
           (DB.execute conn Performance.anual_query ps = inr [] ->
            answer
            = (inr (JObj
                      [("periodo", JInt a);
                       ("tipo", JStr "Anual");
                       ("mensaje",
                        JStr ("No hay datos registrados para el año "
                              ++ Py.str_of_Z a ++ "."));
                       ("data",
                        JObj [("ventas", JInt 0);
                              ("facturado", JFloat Num.fzero);
                              ("cobrado", JFloat Num.fzero)])]),
               [DB.Connect; DB.Execute Performance.anual_query ps; DB.Close]))
           /\ (forall e,
                  DB.execute conn Performance.anual_query ps = inl e ->
                  exists d, fst answer = inl (Py.HTTPException 500 d)))
    /\ (forall req email,
           Performance.anyo_truthy (Performance.anyo req) = None ->
           let ps := [DB.VStr email] in
           let answer :=
             DB.run (Performance.obtener_performance rt w req email) in
           (DB.execute conn Performance.total_query ps = inr [] ->
            answer
            = (inr (JObj
                      [("periodo", JStr "Histórico Total");
                       ("tipo", JStr "Acumulado");
                       ("mensaje",
                        JStr "No hay datos registrados para este agente.");
                       ("data",
                        JObj [("ventas", JInt 0);
                              ("facturado", JFloat Num.fzero);
                              ("cobrado", JFloat Num.fzero);
                              ("pendiente_cobro", JFloat Num.fzero)])]),
               [DB.Connect; DB.Execute Performance.total_query ps; DB.Close]))
           /\ (forall e,
                  DB.execute conn Performance.total_query ps = inl e ->
                  exists d, fst answer = inl (Py.HTTPException 500 d)))
    /\ (forall req,
           let qp := Performance.stats_build req in
           let answer := DB.run (Performance.consultar_stats_zonas w req) in
           (DB.execute conn (fst qp) (snd qp) = inr [] ->
            answer
            = (inr (JObj
                      [("mensaje",
                        JStr ("No se encontraron datos para la zona '"
                              ++ Performance.str_opt (Performance.nombre_zona req)
                              ++ "'"));
                       ("data", JRows [])]),
               [DB.Connect; DB.Execute (fst qp) (snd qp); DB.Close]))
           /\ (forall e,
                  DB.execute conn (fst qp) (snd qp) = inl e ->
                  exists d, fst answer = inl (Py.HTTPException 500 d)))
    /\ (forall email,
           DB.execute conn AgentSSE.resolve_query [DB.VStr email] = inr [] ->
           (forall estado fecha_inicio limit,
               estado_invalido estado = false ->
               DB.run (AgentSSE.consultar_mis_facturas rt w email estado
                         fecha_inicio limit)
               = (inr ("Error del sistema: " ++ AgentSSE.acceso_denegado email),
                  [DB.Connect;
                   DB.Execute AgentSSE.resolve_query [DB.VStr email];
                   DB.Close]))
           /\ (forall query_direccion,
                  DB.run (AgentSSE.buscar_factura_por_propiedad rt w email
                            query_direccion)
                  = (inr ("Error: " ++ AgentSSE.acceso_denegado email),
                     [DB.Connect;
                      DB.Execute AgentSSE.resolve_query [DB.VStr email];
                      DB.Close]))
           /\ marked_as_error
                ("Error del sistema: " ++ AgentSSE.acceso_denegado email)
           /\ marked_as_error ("Error: " ++ AgentSSE.acceso_denegado email))
    /\ (forall email,
           DB.execute conn Performance.zona_query [DB.VStr email] = inr [] ->
           DB.run (Performance.obtener_zona w email)
           = (inl (Py.HTTPException 404 "Agente no encontrado en el sistema."),
              [DB.Connect; DB.Execute Performance.zona_query [DB.VStr email];
               DB.Close])).
Proof.
  intros rt conn w. subst w.
  assert (Hsse : forall email l,
             DB.execute conn AgentSSE.resolve_query [DB.VStr email] = inr [] ->
             AgentSSE.resolve_cif_from_email email conn l
             = (inl (Py.ValueError (AgentSSE.acceso_denegado email)),
                (l ++ [DB.Execute AgentSSE.resolve_query [DB.VStr email]])%list)).
  { intros email l Hex. unfold AgentSSE.resolve_cif_from_email.
    rewrite (bind_inr _ _ _ _ _ (cur_execute_rows _ _ _ _ _ Hex)).
    reflexivity. }
  repeat apply conj.
  - intros cif estado fecha_inicio fecha_fin limit H1 H2 H3 H4 qp answer.
    subst answer qp.
    unfold DB.run, Agent.consultar_mis_facturas. rewrite H1, H2, H3, H4.
    destruct (Agent.build_query cif estado fecha_inicio fecha_fin limit)
      as [q ps]. cbn [fst snd].
    split.
    + intros Hex. erewrite with_connection_returns; cycle 1.
      * apply agent_connects.
      * rewrite (bind_inr _ _ _ _ _ (cur_execute_rows _ _ _ _ _ Hex)).
        reflexivity.
      * reflexivity.
    + intros e Hex. erewrite with_connection_raises; cycle 1.
      * apply agent_connects.
      * rewrite (bind_inl _ _ _ _ _ (cur_execute_fails _ _ _ _ _ Hex)).
        reflexivity.
      * eexists. split; reflexivity.
  - intros cif query_direccion ps answer. subst answer ps.
    unfold DB.run, Agent.buscar_factura_por_propiedad. split.
    + intros Hex. erewrite with_connection_returns; cycle 1.
      * apply agent_connects.
      * rewrite (bind_inr _ _ _ _ _ (cur_execute_rows _ _ _ _ _ Hex)).
        reflexivity.
      * reflexivity.
    + intros e Hex. erewrite with_connection_raises; cycle 1.
      * apply agent_connects.
      * rewrite (bind_inl _ _ _ _ _ (cur_execute_fails _ _ _ _ _ Hex)).
        reflexivity.
      * eexists. split; reflexivity.
  - intros email r rest c estado fecha_inicio limit H1 Hres Hc qp answer.
    subst answer qp.
    unfold DB.run, AgentSSE.consultar_mis_facturas. rewrite H1.
    destruct (AgentSSE.build_query c estado fecha_inicio limit) as [q ps] eqn:Hq.
    cbn [fst snd].
    split.
    + intros Hex. erewrite with_connection_returns; cycle 1.
      * apply sse_connects.
      * rewrite (bind_inr _ _ _ _ _ (sse_resolves _ _ _ _ _ _ Hres Hc)).
        rewrite Hq.
        rewrite (bind_inr _ _ _ _ _ (cur_execute_rows _ _ _ _ _ Hex)).
        reflexivity.
      * reflexivity.
    + intros e Hex. erewrite with_connection_raises; cycle 1.
      * apply sse_connects.
      * rewrite (bind_inr _ _ _ _ _ (sse_resolves _ _ _ _ _ _ Hres Hc)).
        rewrite Hq.
        rewrite (bind_inl _ _ _ _ _ (cur_execute_fails _ _ _ _ _ Hex)).
        reflexivity.
      * eexists. split; reflexivity.
  - intros email r rest c query_direccion Hres Hc ps answer. subst answer ps.
    unfold DB.run, AgentSSE.buscar_factura_por_propiedad. split.
    + intros Hex. erewrite with_connection_returns; cycle 1.
      * apply sse_connects.
      * rewrite (bind_inr _ _ _ _ _ (sse_resolves _ _ _ _ _ _ Hres Hc)).
        rewrite (bind_inr _ _ _ _ _ (cur_execute_rows _ _ _ _ _ Hex)).
        reflexivity.
      * reflexivity.
    + intros e Hex. erewrite with_connection_raises; cycle 1.
      * apply sse_connects.
      * rewrite (bind_inr _ _ _ _ _ (sse_resolves _ _ _ _ _ _ Hres Hc)).
        rewrite (bind_inl _ _ _ _ _ (cur_execute_fails _ _ _ _ _ Hex)).
        reflexivity.
      * eexists. split; reflexivity.
  - discriminate.
  - discriminate.
  - reflexivity.
  - intros q. unfold says_nothing_found, Agent.sin_propiedad. simpl.
    repeat split; discriminate.
  - discriminate.
  - discriminate.
  - reflexivity.
  - discriminate.
  - discriminate.
  - reflexivity.
  - intros cif req H1 H2 H3 H4 qp answer. subst answer qp.
    unfold DB.run, Facturacion.consultar_facturas. rewrite H1, H2, H3, H4.
    destruct (Facturacion.build_query req cif) as [q ps]. cbn [fst snd].
    split.
    + intros Hex. erewrite with_connection_returns; cycle 1.
      * apply facturacion_connects.
      * rewrite (bind_inr _ _ _ _ _ (cur_execute_rows _ _ _ _ _ Hex)).
        reflexivity.
      * reflexivity.
    + intros e Hex. erewrite with_connection_raises; cycle 1.
      * apply facturacion_connects.
      * rewrite (bind_inl _ _ _ _ _ (cur_execute_fails _ _ _ _ _ Hex)).
        reflexivity.
      * eexists. reflexivity.
  - intros req email a Hy ps answer. subst answer ps.
    unfold DB.run, Performance.obtener_performance. rewrite Hy. split.
    + intros Hex. erewrite with_connection_returns; cycle 1.
      * apply performance_connects.
      * unfold Performance.anual.
        rewrite (bind_inr _ _ _ _ _ (cur_execute_rows _ _ _ _ _ Hex)).
        reflexivity.
      * reflexivity.
    + intros e Hex. erewrite with_connection_raises; cycle 1.
      * apply performance_connects.
      * unfold Performance.anual.
        rewrite (bind_inl _ _ _ _ _ (cur_execute_fails _ _ _ _ _ Hex)).
        reflexivity.
      * eexists. reflexivity.
  - intros req email Hy ps answer. subst answer ps.
    unfold DB.run, Performance.obtener_performance. rewrite Hy. split.
    + intros Hex. erewrite with_connection_returns; cycle 1.
      * apply performance_connects.
      * unfold Performance.total.
        rewrite (bind_inr _ _ _ _ _ (cur_execute_rows _ _ _ _ _ Hex)).
        reflexivity.
      * reflexivity.
    + intros e Hex. erewrite with_connection_raises; cycle 1.
      * apply performance_connects.
      * unfold Performance.total.
        rewrite (bind_inl _ _ _ _ _ (cur_execute_fails _ _ _ _ _ Hex)).
        reflexivity.
      * eexists. reflexivity.
  - intros req qp answer. subst answer qp.
    unfold DB.run, Performance.consultar_stats_zonas.
    destruct (Performance.stats_build req) as [q ps]. cbn [fst snd].
    split.
    + intros Hex. erewrite with_connection_returns; cycle 1.
      * apply performance_connects.
      * rewrite (bind_inr _ _ _ _ _ (cur_execute_rows _ _ _ _ _ Hex)).
        reflexivity.
      * reflexivity.
    + intros e Hex. erewrite with_connection_raises; cycle 1.
      * apply performance_connects.
      * rewrite (bind_inl _ _ _ _ _ (cur_execute_fails _ _ _ _ _ Hex)).
        reflexivity.
      * eexists. reflexivity.
  - intros email Hex. repeat apply conj.
    + intros estado fecha_inicio limit H1.
      unfold DB.run, AgentSSE.consultar_mis_facturas. rewrite H1.
      erewrite with_connection_raises; cycle 1.
      * apply sse_connects.
      * apply bind_inl. apply Hsse. assumption.
      * reflexivity.
    + intros query_direccion.
      unfold DB.run, AgentSSE.buscar_factura_por_propiedad.
      erewrite with_connection_raises; cycle 1.
      * apply sse_connects.
      * apply bind_inl. apply Hsse. assumption.
      * reflexivity.
    + reflexivity.
    + reflexivity.
  - intros email Hex. unfold DB.run, Performance.obtener_zona.
    erewrite with_connection_raises; cycle 1.
    + apply performance_connects.
    + rewrite (bind_inr _ _ _ _ _ (cur_execute_rows _ _ _ _ _ Hex)).
      reflexivity.
    + reflexivity.
Qed.

Lemma empty_result_is_explicit_witness :
  let qp := Agent.build_query (Some "B12345678") (Some "PENDIENTE") None None 5 in
  (estado_invalido (Some "PENDIENTE") = false
   /\ fecha_invalida None = false
   /\ rango_invalido None None = false
   /\ DB.execute Demo.empty_conn (fst qp) (snd qp) = inr [])
  /\ DB.run (Agent.consultar_mis_facturas Demo.rt (Some "B12345678")
               (inr Demo.empty_conn) (Some "PENDIENTE") None None 5)
     = (inr "No se encontraron facturas con esos criterios.",
        [DB.Connect;
         DB.Execute (fst qp)
           [DB.VStr "B12345678"; DB.VStr "PENDIENTE"; DB.VInt 5];
         DB.Close]).
Proof.
  intros qp. split; [repeat split|].
  exact (proj1 (proj1 (empty_result_is_explicit Demo.rt Demo.empty_conn)
                  (Some "B12345678") (Some "PENDIENTE") None None 5
                  eq_refl eq_refl eq_refl eq_refl) eq_refl).
Defined.

(** C8 as stated fails on the identity lookups.  A connection that returns
    no rows for any statement: the agent lookup of the zone endpoint is
    answered with HTTP 404, an error response, and the gatekeeper lookup of
    the SSE tools with the denial, an error text, although both statements
    ran and simply returned nothing. *)
Lemma lookups_without_rows_are_errors :
  DB.execute Demo.empty_conn Performance.zona_query [DB.VStr "nadie@inmo.es"]
  = inr []
  /\ DB.run (Performance.obtener_zona (inr Demo.empty_conn) "nadie@inmo.es")
     = (inl (Py.HTTPException 404 "Agente no encontrado en el sistema."),
        [DB.Connect;
         DB.Execute Performance.zona_query [DB.VStr "nadie@inmo.es"];
         DB.Close])
  /\ DB.execute Demo.empty_conn AgentSSE.resolve_query [DB.VStr "nadie@inmo.es"]
     = inr []
  /\ DB.run (AgentSSE.buscar_factura_por_propiedad Demo.rt
               (inr Demo.empty_conn) "nadie@inmo.es" "Velazquez")
     = (inr "Error: ACCESO DENEGADO: El email nadie@inmo.es no está autorizado.",
        [DB.Connect;
         DB.Execute AgentSSE.resolve_query [DB.VStr "nadie@inmo.es"];
         DB.Close]).
Proof. repeat split. Qed.

(** ** The address search *)

Lemma compare_cont_flip (p q : positive) :
  Pos.compare_cont Eq p q = CompOpp (Pos.compare_cont Eq q p).
Proof. symmetry. apply (Pos.compare_cont_antisym q p Eq). Qed.

(** [ORDER BY] compares any two floats one way or the other. *)
Lemma float_le_total (a b : spec_float) :
  Store.float_le a b = false -> Store.float_le b a = true.
Proof.
  unfold Store.float_le, SFleb, SFcompare.
  destruct a as [sa|sa| |sa ma ea], b as [sb|sb| |sb mb eb];
    try destruct sa; try destruct sb; simpl; try congruence.
  - rewrite (Z.compare_antisym ea eb).
    destruct (ea ?= eb) eqn:E; simpl; try congruence.
    rewrite (compare_cont_flip mb ma).
    destruct (Pos.compare_cont Eq ma mb); simpl; congruence.
  - rewrite (Z.compare_antisym ea eb).
    destruct (ea ?= eb) eqn:E; simpl; try congruence.
    rewrite (compare_cont_flip mb ma).
    destruct (Pos.compare_cont Eq ma mb); simpl; congruence.
Qed.

Lemma insert_desc_hd x y l :
  score_desc y x -> HdRel score_desc y l -> HdRel score_desc y (Store.insert_desc x l).
Proof.
  intros Hyx Hl. destruct l as [|z l]; simpl.
  - constructor. exact Hyx.
  - destruct (Store.float_le (Store.score_of z) (Store.score_of x)).
    + constructor. exact Hyx.
    + constructor. inversion Hl; assumption.
Qed.

Lemma insert_desc_sorted x l :
  Sorted score_desc l -> Sorted score_desc (Store.insert_desc x l).
Proof.
  induction l as [|y l IH]; intros Hs; simpl.
  - repeat constructor.
  - inversion Hs as [|? ? Hl Hhd]; subst.
    destruct (Store.float_le (Store.score_of y) (Store.score_of x)) eqn:E.
    + constructor; [exact Hs|]. constructor. exact E.
    + constructor; [apply IH; exact Hl|].
      apply insert_desc_hd; [|exact Hhd].
      unfold score_desc. apply float_le_total. exact E.
Qed.

Lemma order_by_score_desc_sorted l :
  Sorted score_desc (Store.order_by_score_desc l).
Proof.
  induction l as [|x l IH]; simpl; [constructor|].
  apply insert_desc_sorted. exact IH.
Qed.

Lemma firstn_sorted {A} (R : A -> A -> Prop) n :
  forall l, Sorted R l -> Sorted R (firstn n l).
Proof.
  induction n as [|n IH]; intros l Hs; simpl; [constructor|].
  destruct l as [|x l]; [constructor|].
  inversion Hs as [|? ? Hl Hhd]; subst.
  constructor; [apply IH; exact Hl|].
  destruct l as [|y l]; destruct n; simpl; constructor.
  inversion Hhd; assumption.
Qed.

Lemma insert_desc_in x l r :
  In r (Store.insert_desc x l) -> r = x \/ In r l.
Proof.
  induction l as [|y l IH]; simpl.
  - intros [<-|[]]. left. reflexivity.
  - destruct (Store.float_le (Store.score_of y) (Store.score_of x)); simpl.
    + intros [<-|[<-|H]]; auto.
    + intros [<-|H]; auto. destruct (IH H); auto.
Qed.

Lemma order_by_score_desc_in l r :
  In r (Store.order_by_score_desc l) -> In r l.
Proof.
  induction l as [|x l IH]; simpl; [tauto|].
  intros H. destruct (insert_desc_in _ _ _ H) as [->|H']; auto.
Qed.

Lemma firstn_in {A} n : forall (l : list A) x, In x (firstn n l) -> In x l.
Proof.
  induction n as [|n IH]; intros [|y l] x; simpl; try tauto.
  intros [<-|H]; auto.
Qed.

Section Search.

Variable rt : Num.runtime.
Variable similarity : string -> string -> spec_float.
Variable trgm_match : string -> string -> bool.
Variable other : string -> list DB.param -> Py.exn + list DB.row.
Variable st : Store.store.

Let conn := Store.pg similarity trgm_match other st.

Lemma pg_buscar_agent term c :
  DB.execute conn Agent.buscar_query [DB.VStr term; DB.VStr c; DB.VStr term]
  = inr (Store.buscar_rows similarity trgm_match st term c term).
Proof. reflexivity. Qed.

Lemma pg_buscar_sse term c :
  DB.execute conn AgentSSE.buscar_query [DB.VStr term; DB.VStr c; DB.VStr term]
  = inr (Store.buscar_rows similarity trgm_match st term c term).
Proof. reflexivity. Qed.

(** Every row of the search is the hit of an invoice of that agent whose
    address matches the term. *)
Lemma buscar_rows_are_hits term c h :
  In h (Store.buscar_rows similarity trgm_match st term c term) ->
  exists f,
    In f (Store.view_ai_facturas st)
    /\ Store.emisor_cif f = c
    /\ trgm_match (Store.emisor_direccion_calle f) term = true
    /\ h = Store.hit similarity term f.
Proof.
  unfold Store.buscar_rows. intros H.
  apply firstn_in, order_by_score_desc_in, in_map_iff in H.
  destruct H as (f & <- & Hf). apply filter_In in Hf. destruct Hf as [Hin Hb].
  apply andb_true_iff in Hb. destruct Hb as [Hc Ht].
  apply String.eqb_eq in Hc. exists f. auto.
Qed.

Lemma propiedad_line_text term f l :
  is_number (Num.fmul (similarity (Store.emisor_direccion_calle f) term)
               (Num.float_of_Z 100)) = true ->
  Agent.propiedad_line rt (Store.hit similarity term f) l
  = (inr (propiedad_text rt
            (pct_of (Store.score_of (Store.hit similarity term f)))
            (Store.hit similarity term f)), l).
Proof.
  intros Hnum. unfold Agent.propiedad_line.
  set (h := Store.hit similarity term f).
  assert (Hget : forall k v, DB.lookup k h = Some v ->
                             DB.getitem h k l = (inr v, l))
    by (intros; apply getitem_found; assumption).
  rewrite (bind_inr _ _ _ _ _
             (Hget "score"
                (DB.VFloat (similarity (Store.emisor_direccion_calle f) term))
                eq_refl)).
  assert (Hpct :
            Num.percent rt
              (DB.VFloat (similarity (Store.emisor_direccion_calle f) term))
            = inr (pct_of (Store.score_of (Store.hit similarity term f)))).
  { unfold Num.percent, Num.times100, Num.py_int, pct_of.
    change (Store.score_of (Store.hit similarity term f))
      with (similarity (Store.emisor_direccion_calle f) term).
    destruct (Num.fmul (similarity (Store.emisor_direccion_calle f) term)
                (Num.float_of_Z 100)); try discriminate Hnum; reflexivity. }
  rewrite (bind_inr _ _ _ _ _ (lift_inr _ _ l Hpct)).
  rewrite (bind_inr _ _ _ _ _
             (Hget "emisor_direccion_calle"
                (DB.VStr (Store.emisor_direccion_calle f)) eq_refl)).
  rewrite (bind_inr _ _ _ _ _
             (Hget "numero_factura" (Store.numero_factura f) eq_refl)).
  rewrite (bind_inr _ _ _ _ _
             (Hget "estado_legible" (Store.estado_legible f) eq_refl)).
  rewrite (bind_inr _ _ _ _ _ (Hget "total" (Store.total f) eq_refl)).
  rewrite (bind_inr _ _ _ _ _ (Hget "moneda" (Store.moneda f) eq_refl)).
  reflexivity.
Qed.

End Search.

(** C7 (as the code has it).  Both address searches bind the search term
    twice, to the score column and to the trigram filter, with the agent's
    CIF between them; the statement keeps the three best rows by descending
    score, and every row is an invoice of the agent whose address matches
    the term.  With no such row the tools answer with a sentence saying that
    nothing was found.  With rows, the tool of agent_server.py writes one
    line per row, the score as the integer [int(score * 100)] followed by a
    percent sign; the tool of agent_server_sse.py returns the text form of
    the row list as the driver delivered it. *)
Theorem address_search_ranked :
  forall rt similarity trgm_match other st (term c : string),
    (forall address,
        is_number (Num.fmul (similarity address term) (Num.float_of_Z 100))
        = true) ->
    let conn := Store.pg similarity trgm_match other st in
    let hits := Store.buscar_rows similarity trgm_match st term c term in
    buscar_slots Agent.buscar_query = Some [BScore; BCif; BFilter]
    /\ buscar_slots AgentSSE.buscar_query = Some [BScore; BCif; BFilter]
    /\ (List.length hits <= 3)%nat
    /\ Sorted score_desc hits
    /\ (forall h, In h hits ->
                  exists f,
                    In f (Store.view_ai_facturas st)
                    /\ Store.emisor_cif f = c
                    /\ trgm_match (Store.emisor_direccion_calle f) term = true
                    /\ h = Store.hit similarity term f)
    /\ DB.run (Agent.buscar_factura_por_propiedad rt (Some c) (inr conn) term)
       = (inr match hits with
              | [] => Agent.sin_propiedad term
              | _ :: _ =>
                  "Resultados para '" ++ term ++ "':" ++ DB.nl
                  ++ concat_all
                       (map (fun h =>
                               propiedad_text rt (pct_of (Store.score_of h)) h)
                          hits)
              end,
          [DB.Connect;
           DB.Execute Agent.buscar_query
             [DB.VStr term; DB.VStr c; DB.VStr term];
           DB.Close])
    /\ (forall email contact rest,
           Store.matching st email = contact :: rest ->
           Store.cif contact = c ->
           DB.run (AgentSSE.buscar_factura_por_propiedad rt (inr conn) email term)
           = (inr match hits with
                  | [] => AgentSSE.sin_propiedad
                  | _ :: _ => AgentSSE.str_rows rt hits
                  end,
              [DB.Connect;
               DB.Execute AgentSSE.resolve_query [DB.VStr email];
               DB.Execute AgentSSE.buscar_query
                 [DB.VStr term; DB.VStr c; DB.VStr term];
               DB.Close])).
Proof.
  intros rt similarity trgm_match other st term c Hnum conn hits.
  split; [vm_compute; reflexivity|]. split; [vm_compute; reflexivity|].
  split; [apply firstn_le_length|].
  split; [apply firstn_sorted, order_by_score_desc_sorted|].
  split; [intros h Hh; apply (buscar_rows_are_hits _ _ _ _ _ _ Hh)|].
  split.
  - unfold DB.run, Agent.buscar_factura_por_propiedad.
    pose proof (buscar_rows_are_hits similarity trgm_match st term c) as Hhits.
    fold hits in Hhits.
    pose proof (pg_buscar_agent similarity trgm_match other st term c) as Hex.
    fold conn hits in Hex. clearbody hits conn.
    destruct hits as [|h hs].
    + erewrite with_connection_returns; cycle 1.
      * apply agent_connects.
      * cbn [DB.param_of_opt].
        rewrite (bind_inr _ _ _ _ _ (cur_execute_rows _ _ _ _ _ Hex)).
        reflexivity.
      * reflexivity.
    + erewrite with_connection_returns; cycle 1.
      * apply agent_connects.
      * cbn [DB.param_of_opt].
        rewrite (bind_inr _ _ _ _ _ (cur_execute_rows _ _ _ _ _ Hex)).
        cbv beta iota.
        apply (each_row_texts (Agent.propiedad_line rt)
                 (fun h => propiedad_text rt (pct_of (Store.score_of h)) h)).
        intros r l Hr. destruct (Hhits r Hr) as (f & _ & _ & _ & ->).
        apply propiedad_line_text. apply Hnum.
      * rewrite !append_assoc. reflexivity.
  - intros email contact rest Hm Hc.
    unfold DB.run, AgentSSE.buscar_factura_por_propiedad.
    pose proof (pg_buscar_sse similarity trgm_match other st term c) as Hex.
    pose proof (resolve_on_store similarity trgm_match other st email
                  [DB.Connect]) as Hres.
    rewrite Hm, Hc in Hres.
    fold conn hits in Hex. fold conn in Hres. clearbody hits conn.
    destruct hits as [|h hs].
    + erewrite with_connection_returns; cycle 1.
      * apply sse_connects.
      * rewrite (bind_inr _ _ _ _ _ Hres).
        rewrite (bind_inr _ _ _ _ _ (cur_execute_rows _ _ _ _ _ Hex)).
        reflexivity.
      * reflexivity.
    + erewrite with_connection_returns; cycle 1.
      * apply sse_connects.
      * rewrite (bind_inr _ _ _ _ _ Hres).
        rewrite (bind_inr _ _ _ _ _ (cur_execute_rows _ _ _ _ _ Hex)).
        reflexivity.
      * reflexivity.
Qed.

Lemma demo_scores_are_numbers address term :
  is_number (Num.fmul (Demo.similarity address term) (Num.float_of_Z 100)) = true.
Proof.
  unfold Demo.similarity.
  destruct (String.eqb address "Calle Velázquez 12"); [reflexivity|].
  destruct (String.eqb address "Calle Velarde 3"); reflexivity.
Qed.

Lemma address_search_ranked_witness :
  (forall address,
      is_number (Num.fmul (Demo.similarity address "Velazquez")
                   (Num.float_of_Z 100)) = true)
  /\ DB.run (Agent.buscar_factura_por_propiedad Demo.rt (Some "B12345678")
               Demo.world "Velazquez")
     = (inr match Store.buscar_rows Demo.similarity Demo.trgm_match Demo.store
                    "Velazquez" "B12345678" "Velazquez" with
            | [] => Agent.sin_propiedad "Velazquez"
            | _ :: _ =>
                "Resultados para '" ++ "Velazquez" ++ "':" ++ DB.nl
                ++ concat_all
                     (map (fun h =>
                             propiedad_text Demo.rt (pct_of (Store.score_of h)) h)
                        (Store.buscar_rows Demo.similarity Demo.trgm_match
                           Demo.store "Velazquez" "B12345678" "Velazquez"))
            end,
        [DB.Connect;
         DB.Execute Agent.buscar_query
           [DB.VStr "Velazquez"; DB.VStr "B12345678"; DB.VStr "Velazquez"];
         DB.Close]).
Proof.
  split; [intros; apply demo_scores_are_numbers|].
  pose proof (address_search_ranked Demo.rt Demo.similarity Demo.trgm_match
                Demo.other Demo.store "Velazquez" "B12345678"
                (fun a => demo_scores_are_numbers a "Velazquez")) as H.
  exact (proj1 (proj2 (proj2 (proj2 (proj2 (proj2 H)))))).
Defined.

(** The example of the specification on the demo store: the search for
    "Velazquez" puts "Calle Velázquez 12" first, with its score as an integer
    percentage. *)
Example search_for_velazquez :
  fst (DB.run (Agent.buscar_factura_por_propiedad Demo.rt (Some "B12345678")
                 Demo.world "Velazquez"))
  = inr ("Resultados para 'Velazquez':" ++ DB.nl
         ++ "- [Coincidencia: 56%] Propiedad: 'Calle Velázquez 12' -> Factura F-2024-001 (PAGADA): 1200.50 EUR."
         ++ DB.nl
         ++ "- [Coincidencia: 31%] Propiedad: 'Calle Velarde 3' -> Factura F-2024-003 (PENDIENTE): 450.00 EUR."
         ++ DB.nl).
Proof. vm_compute. reflexivity. Qed.

(** C7 as stated fails on the SSE tool server: its address search returns the
    text form of the rows, in which the score is the float of the driver
    (0.5625, 0.3125) and no percentage appears. *)
Lemma sse_search_shows_raw_score :
  fst (DB.run (AgentSSE.buscar_factura_por_propiedad Demo.rt Demo.world
                 "ana.lopez@inmo.es" "Velazquez"))
  = inr "[{'numero_factura': 'F-2024-001', 'estado_legible': 'PAGADA', 'total': Decimal('1200.50'), 'moneda': 'EUR', 'emisor_direccion_calle': 'Calle Velázquez 12', 'score': 0.5625}, {'numero_factura': 'F-2024-003', 'estado_legible': 'PENDIENTE', 'total': Decimal('450.00'), 'moneda': 'EUR', 'emisor_direccion_calle': 'Calle Velarde 3', 'score': 0.3125}]"
  /\ (forall out,
         fst (DB.run (AgentSSE.buscar_factura_por_propiedad Demo.rt Demo.world
                        "ana.lopez@inmo.es" "Velazquez")) = inr out ->
         Fmt.has "%"%char out = false).
Proof.
  split; [vm_compute; reflexivity|].
  intros out H. vm_compute in H. inversion H; subst out. vm_compute. reflexivity.
Qed.

(** On the demo world: CANCELADA is refused before anything else happens,
    PAGADA is not. *)
Lemma invalid_status_rejected_first_witness :
  ("CANCELADA" <> EmptyString /\ ~ In "CANCELADA" ESTADOS)
  /\ DB.run (Agent.consultar_mis_facturas Demo.rt (Some "B12345678") Demo.world
               (Some "CANCELADA") None None 5)
     = (inr Agent.estado_error, [])
  /\ fst (DB.run (Agent.consultar_mis_facturas Demo.rt (Some "B12345678")
                    Demo.world (Some "PAGADA") None None 5))
     <> inr Agent.estado_error.
Proof.
  assert (Hne : "CANCELADA" <> EmptyString) by discriminate.
  assert (Hout : ~ In "CANCELADA" ESTADOS)
    by (intros [H|[H|[]]]; discriminate H).
  split; [split; assumption|]. split.
  - exact (proj1 (proj2 (proj1 invalid_status_rejected_first "CANCELADA" Hne Hout))
             Demo.rt (Some "B12345678") Demo.world None None 5).
  - exact (proj1 (proj2 (proj2 invalid_status_rejected_first (Some "PAGADA")
                           (or_intror (or_intror eq_refl))))
             Demo.rt (Some "B12345678") Demo.world None None 5).
Defined.

(** ** The zone lookup *)

(** An e-mail without a row among the agents is answered with HTTP 404 by the
    zone endpoint; the handler lets that exception through as it is. *)
Lemma zona_unknown_agent_is_404 conn email :
  DB.execute conn Performance.zona_query [DB.VStr email] = inr [] ->
  DB.run (Performance.obtener_zona (inr conn) email)
  = (inl (Py.HTTPException 404 "Agente no encontrado en el sistema."),
     [DB.Connect; DB.Execute Performance.zona_query [DB.VStr email]; DB.Close]).
Proof.
  intros Hex. unfold DB.run, Performance.obtener_zona.
  erewrite with_connection_raises; cycle 1.
  - apply performance_connects.
  - rewrite (bind_inr _ _ _ _ _ (cur_execute_rows _ _ _ _ _ Hex)). reflexivity.
  - reflexivity.
Qed.


(** * Further properties *)

(** ** What a handler adds to the log *)

Lemma emits_ret {A} Q (a : A) : DB.emits Q (DB.ret a).
Proof. intros l. exists []. rewrite app_nil_r. split; [reflexivity|constructor]. Qed.

Lemma emits_raise {A} Q e : DB.emits Q (@DB.raise A e).
Proof. intros l. exists []. rewrite app_nil_r. split; [reflexivity|constructor]. Qed.

Lemma emits_quiet {A} Q (m : DB.M A) : DB.quiet m -> DB.emits Q m.
Proof.
  intros H l. exists []. rewrite app_nil_r, H. split; [reflexivity|constructor].
Qed.

Lemma emits_lift {A} Q (r : Py.exn + A) : DB.emits Q (DB.lift r).
Proof. apply emits_quiet, quiet_lift. Qed.

Lemma emits_getitem Q r k : DB.emits Q (DB.getitem r k).
Proof. apply emits_quiet, quiet_getitem. Qed.

Lemma emits_emit (Q : DB.event -> Prop) ev : Q ev -> DB.emits Q (DB.emit ev).
Proof. intros H l. exists [ev]. split; [reflexivity|repeat constructor; exact H]. Qed.

Lemma emits_bind {A B} Q (m : DB.M A) (k : A -> DB.M B) :
  DB.emits Q m -> (forall a, DB.emits Q (k a)) -> DB.emits Q (DB.bind m k).
Proof.
  intros Hm Hk l. unfold DB.bind. destruct (Hm l) as (e1 & H1 & F1).
  destruct (m l) as [[e|a] l1]; simpl in H1; subst l1.
  - exists e1. split; [reflexivity|exact F1].
  - destruct (Hk a (l ++ e1)%list) as (e2 & H2 & F2).
    exists (e1 ++ e2)%list. rewrite H2, app_assoc.
    split; [reflexivity|apply Forall_app; split; assumption].
Qed.

Lemma emits_try {A} Q (body : DB.M A) (h : Py.exn -> DB.M A) :
  DB.emits Q body -> (forall e, DB.emits Q (h e)) ->
  DB.emits Q (DB.try_except body h).
Proof.
  intros Hb Hh l. unfold DB.try_except. destruct (Hb l) as (e1 & H1 & F1).
  destruct (body l) as [[e|a] l1]; simpl in H1; subst l1.
  - destruct (Hh e (l ++ e1)%list) as (e2 & H2 & F2).
    exists (e1 ++ e2)%list. rewrite H2, app_assoc.
    split; [reflexivity|apply Forall_app; split; assumption].
  - exists e1. split; [reflexivity|exact F1].
Qed.

Lemma emits_with {A} (Q : DB.event -> Prop) (get : DB.M DB.connection)
      (body : DB.connection -> DB.M A) :
  DB.emits Q get -> (forall c, DB.emits Q (body c)) -> Q DB.Close ->
  DB.emits Q (DB.with_connection get body).
Proof.
  intros Hg Hb Hc. unfold DB.with_connection. apply emits_bind; [exact Hg|].
  intros c l. destruct (Hb c l) as (e1 & H1 & F1).
  destruct (body c l) as [r l1]; simpl in H1; subst l1.
  exists (e1 ++ [DB.Close])%list. simpl. rewrite app_assoc.
  split; [reflexivity|]. apply Forall_app. split; [exact F1|].
  repeat constructor. exact Hc.
Qed.

Lemma emits_cur_execute (Q : DB.event -> Prop) conn q ps :
  Q (DB.Execute q ps) -> DB.emits Q (DB.cur_execute conn q ps).
Proof.
  intros H. unfold DB.cur_execute. apply emits_bind.
  - apply emits_emit. exact H.
  - intros _. apply emits_lift.
Qed.

Lemma emits_connect (Q : DB.event -> Prop) w :
  Q DB.Connect -> DB.emits Q (DB.psycopg_connect w).
Proof.
  intros H. unfold DB.psycopg_connect. apply emits_bind.
  - apply emits_emit. exact H.
  - intros _. apply emits_lift.
Qed.

Lemma emits_each_row Q (line : DB.row -> DB.M string) rows :
  (forall r, DB.emits Q (line r)) ->
  forall acc, DB.emits Q (Agent.each_row line rows acc).
Proof.
  intros Hl. induction rows as [|r rows IH]; intros acc; simpl.
  - apply emits_ret.
  - apply emits_bind; [apply Hl|]. intros s. apply IH.
Qed.

(** One step of a proof that a handler emits only [Q]-events. *)
Ltac emits_step :=
  first
    [ apply emits_ret
    | apply emits_raise
    | apply emits_lift
    | apply emits_getitem
    | apply emits_emit; exact I
    | apply emits_connect; exact I
    | apply emits_cur_execute; first [exact I | solve [eauto]]
    | apply emits_try; [|intros ?]
    | apply emits_with; [|intros ?|exact I]
    | apply emits_each_row; intros ?
    | apply emits_bind; [|intros ?]
    | match goal with
      | |- DB.emits _ (if ?b then _ else _) => destruct b
      | |- DB.emits _ (match ?x with _ => _ end) => destruct x
      | |- DB.emits _ (let '(_, _) := ?x in _) => destruct x eqn:?
      end ].

Section Statements.

Variable P : string -> list DB.param -> Prop.

Let Q := stmt_ok P.

Lemma facturacion_consultar_emits w req cif :
  P (fst (Facturacion.build_query req cif)) (snd (Facturacion.build_query req cif)) ->
  DB.emits Q (Facturacion.consultar_facturas w req cif).
Proof.
  intros H. unfold Facturacion.consultar_facturas, Facturacion.get_db_connection.
  destruct (Facturacion.build_query req cif) as [q ps]. cbn [fst snd] in H.
  repeat emits_step.
Qed.

Lemma facturacion_health_emits w :
  P "SELECT 1" [] -> DB.emits Q (Facturacion.health_check w).
Proof.
  intros H. unfold Facturacion.health_check, Facturacion.get_db_connection.
  repeat emits_step.
Qed.

Lemma agent_consultar_emits rt cif w estado fecha_inicio fecha_fin limit :
  P (fst (Agent.build_query cif estado fecha_inicio fecha_fin limit))
    (snd (Agent.build_query cif estado fecha_inicio fecha_fin limit)) ->
  DB.emits Q (Agent.consultar_mis_facturas rt cif w estado fecha_inicio
                fecha_fin limit).
Proof.
  intros H. unfold Agent.consultar_mis_facturas, Agent.get_db_connection.
  destruct (Agent.build_query cif estado fecha_inicio fecha_fin limit) as [q ps].
  cbn [fst snd] in H. unfold Agent.factura_line.
  repeat emits_step.
Qed.

Lemma agent_buscar_emits rt cif w query_direccion :
  P Agent.buscar_query
    [DB.VStr query_direccion; DB.param_of_opt cif; DB.VStr query_direccion] ->
  DB.emits Q (Agent.buscar_factura_por_propiedad rt cif w query_direccion).
Proof.
  intros H. unfold Agent.buscar_factura_por_propiedad, Agent.get_db_connection,
              Agent.propiedad_line.
  repeat emits_step.
Qed.

Lemma sse_resolve_emits email conn :
  P AgentSSE.resolve_query [DB.VStr email] ->
  DB.emits Q (AgentSSE.resolve_cif_from_email email conn).
Proof.
  intros H. unfold AgentSSE.resolve_cif_from_email.
  apply emits_bind; [apply emits_cur_execute; exact H|]. intros rows.
  unfold DB.fetchone. repeat emits_step.
Qed.

Lemma sse_consultar_emits rt w email estado fecha_inicio limit :
  P AgentSSE.resolve_query [DB.VStr email] ->
  (forall c, P (fst (AgentSSE.build_query c estado fecha_inicio limit))
               (snd (AgentSSE.build_query c estado fecha_inicio limit))) ->
  DB.emits Q (AgentSSE.consultar_mis_facturas rt w email estado fecha_inicio
                limit).
Proof.
  intros H1 H2. unfold AgentSSE.consultar_mis_facturas, AgentSSE.get_db_connection.
  destruct (estado_invalido estado); [apply emits_ret|].
  apply emits_try; [|intros e; apply emits_ret].
  apply emits_with; [apply emits_connect; exact I| |exact I].
  intros conn. apply emits_bind; [apply sse_resolve_emits; exact H1|].
  intros c. specialize (H2 c).
  destruct (AgentSSE.build_query c estado fecha_inicio limit) as [q ps].
  cbn [fst snd] in H2.
  apply emits_bind; [apply emits_cur_execute; exact H2|].
  intros rows. destruct rows; apply emits_ret.
Qed.

Lemma sse_buscar_emits rt w email query_direccion :
  P AgentSSE.resolve_query [DB.VStr email] ->
  (forall c, P AgentSSE.buscar_query
               [DB.VStr query_direccion; c; DB.VStr query_direccion]) ->
  DB.emits Q (AgentSSE.buscar_factura_por_propiedad rt w email query_direccion).
Proof.
  intros H1 H2.
  unfold AgentSSE.buscar_factura_por_propiedad, AgentSSE.get_db_connection.
  apply emits_try; [|intros e; apply emits_ret].
  apply emits_with; [apply emits_connect; exact I| |exact I].
  intros conn. apply emits_bind; [apply sse_resolve_emits; exact H1|].
  intros c.
  apply emits_bind; [apply emits_cur_execute; apply H2|].
  intros rows. destruct rows; apply emits_ret.
Qed.

Lemma performance_emits rt w req email :
  (forall a, P Performance.anual_query [DB.VStr email; DB.VInt a]) ->
  P Performance.total_query [DB.VStr email] ->
  DB.emits Q (Performance.obtener_performance rt w req email).
Proof.
  intros H1 H2.
  unfold Performance.obtener_performance, Performance.get_db_connection.
  apply emits_try; [|intros e; repeat emits_step].
  apply emits_with; [repeat emits_step| |exact I].
  intros conn. destruct (Performance.anyo_truthy (Performance.anyo req)) as [a|].
  - unfold Performance.anual.
    apply emits_bind; [apply emits_cur_execute; apply H1|]. intros rows.
    unfold DB.fetchone. repeat emits_step.
  - unfold Performance.total, Performance.float_or_zero.
    apply emits_bind; [apply emits_cur_execute; apply H2|]. intros rows.
    unfold DB.fetchone. repeat emits_step.
Qed.

Lemma zona_emits w email :
  P Performance.zona_query [DB.VStr email] ->
  DB.emits Q (Performance.obtener_zona w email).
Proof.
  intros H. unfold Performance.obtener_zona, Performance.get_db_connection.
  apply emits_try; [|intros e; repeat emits_step].
  apply emits_with; [repeat emits_step| |exact I].
  intros conn.
  apply emits_bind; [apply emits_cur_execute; exact H|]. intros rows.
  unfold DB.fetchone. repeat emits_step.
Qed.

Lemma stats_emits w req :
  P (fst (Performance.stats_build req)) (snd (Performance.stats_build req)) ->
  DB.emits Q (Performance.consultar_stats_zonas w req).
Proof.
  intros H. unfold Performance.consultar_stats_zonas, Performance.get_db_connection.
  destruct (Performance.stats_build req) as [q ps]. cbn [fst snd] in H.
  apply emits_try; [|intros e; repeat emits_step].
  apply emits_with; [repeat emits_step| |exact I].
  intros conn.
  apply emits_bind; [apply emits_cur_execute; exact H|]. intros rows.
  destruct rows; apply emits_ret.
Qed.

Lemma performance_health_emits w :
  P "SELECT 1" [] -> DB.emits Q (Performance.health_check w).
Proof.
  intros H. unfold Performance.health_check, Performance.get_db_connection.
  repeat emits_step.
Qed.

(** From the events added to the statements executed. *)
Lemma emits_executed {A} (m : DB.M A) :
  DB.emits Q m ->
  Forall (fun qp => P (fst qp) (snd qp)) (DB.executed (snd (DB.run m))).
Proof.
  intros H. unfold DB.run. destruct (H []) as (evs & -> & F). simpl.
  induction F as [|ev evs Hev F IH]; simpl; [constructor|].
  destruct ev; simpl in *; try exact IH. constructor; [exact Hev|exact IH].
Qed.

End Statements.

(** If [P] holds of every statement the servers can build, it holds of every
    statement any handler executes, in every world. *)
Lemma handlers_execute_only (P : string -> list DB.param -> Prop) :
  (forall req cif,
      P (fst (Facturacion.build_query req cif))
        (snd (Facturacion.build_query req cif))) ->
  (forall cif estado fecha_inicio fecha_fin limit,
      P (fst (Agent.build_query cif estado fecha_inicio fecha_fin limit))
        (snd (Agent.build_query cif estado fecha_inicio fecha_fin limit))) ->
  (forall c estado fecha_inicio limit,
      P (fst (AgentSSE.build_query c estado fecha_inicio limit))
        (snd (AgentSSE.build_query c estado fecha_inicio limit))) ->
  (forall a b c, P Agent.buscar_query [a; b; c]) ->
  (forall a b c, P AgentSSE.buscar_query [a; b; c]) ->
  (forall a, P AgentSSE.resolve_query [a]) ->
  (forall a b, P Performance.anual_query [a; b]) ->
  (forall a, P Performance.total_query [a]) ->
  (forall a, P Performance.zona_query [a]) ->
  (forall req,
      P (fst (Performance.stats_build req)) (snd (Performance.stats_build req))) ->
  P "SELECT 1" [] ->
  forall rt w,
    let ok {A} (m : DB.M A) :=
      Forall (fun qp => P (fst qp) (snd qp)) (DB.executed (snd (DB.run m))) in
    (forall req cif, ok (Facturacion.consultar_facturas w req cif))
    /\ ok (Facturacion.health_check w)
    /\ (forall cif estado fecha_inicio fecha_fin limit,
           ok (Agent.consultar_mis_facturas rt cif w estado fecha_inicio
                 fecha_fin limit))
    /\ (forall cif query_direccion,
           ok (Agent.buscar_factura_por_propiedad rt cif w query_direccion))
    /\ (forall email estado fecha_inicio limit,
           ok (AgentSSE.consultar_mis_facturas rt w email estado fecha_inicio
                 limit))
    /\ (forall email query_direccion,
           ok (AgentSSE.buscar_factura_por_propiedad rt w email query_direccion))
    /\ (forall req email, ok (Performance.obtener_performance rt w req email))
    /\ (forall email, ok (Performance.obtener_zona w email))
    /\ (forall req, ok (Performance.consultar_stats_zonas w req))
    /\ ok (Performance.health_check w).
Proof.
  intros H1 H2 H3 H4 H5 H6 H7 H8 H9 H10 H11 rt w ok. subst ok. cbv beta.
  repeat apply conj; intros; apply emits_executed.
  - apply facturacion_consultar_emits, H1.
  - apply facturacion_health_emits, H11.
  - apply agent_consultar_emits, H2.
  - apply agent_buscar_emits, H4.
  - apply sse_consultar_emits; [apply H6|intros; apply H3].
  - apply sse_buscar_emits; [apply H6|intros; apply H5].
  - apply performance_emits; [intros; apply H7|apply H8].
  - apply zona_emits, H9.
  - apply stats_emits, H10.
  - apply performance_health_emits, H11.
Qed.

Lemma all_some_length {A} (xs : list (option A)) ys :
  all_some xs = Some ys -> List.length xs = List.length ys.
Proof.
  revert ys. induction xs as [|[x|] xs IH]; simpl; intros ys H.
  - inversion H; reflexivity.
  - destruct (all_some xs) as [zs|]; [|discriminate].
    inversion H; subst. simpl. rewrite (IH zs eq_refl). reflexivity.
  - discriminate.
Qed.

Lemma slots_give_well_bound q (sl : list slot) ps :
  slots_of_statement q = Some sl -> List.length ps = List.length sl ->
  well_bound q ps.
Proof.
  unfold slots_of_statement, well_bound. intros H Hl.
  destruct (DB.contexts q) as [ctxs|]; [|discriminate].
  apply all_some_length in H. rewrite length_map in H. simpl. congruence.
Qed.

Lemma sse_build_cases c estado fecha_inicio limit :
  let q := fst (AgentSSE.build_query c estado fecha_inicio limit) in
  let ps := snd (AgentSSE.build_query c estado fecha_inicio limit) in
  well_bound q ps /\ is_select q = true.
Proof.
  unfold AgentSSE.build_query, append_if, well_bound.
  destruct (Py.truthy estado), (Py.truthy fecha_inicio);
    cbn [fst snd]; split; vm_compute; reflexivity.
Qed.

Lemma stats_build_cases req :
  let q := fst (Performance.stats_build req) in
  let ps := snd (Performance.stats_build req) in
  well_bound q ps /\ is_select q = true.
Proof.
  unfold Performance.stats_build, well_bound.
  destruct (Performance.nombre_zona req) as [[|? ?]|];
    cbn [fst snd]; split; vm_compute; reflexivity.
Qed.

Lemma build_queries_select cif estado fecha_inicio fecha_fin limit :
  is_select
    (fst (Facturacion.build_query
            (Facturacion.Build_FacturasRequest estado fecha_inicio fecha_fin limit)
            cif)) = true
  /\ is_select (fst (Agent.build_query cif estado fecha_inicio fecha_fin limit))
     = true.
Proof.
  unfold Facturacion.build_query, Agent.build_query, append_if.
  cbn [Facturacion.estado Facturacion.fecha_inicio Facturacion.fecha_fin].
  destruct (Py.truthy estado), (Py.truthy fecha_inicio), (Py.truthy fecha_fin);
    cbn [fst snd]; split; vm_compute; reflexivity.
Qed.

(** X1.  Whatever the request and whatever the driver does, every statement a
    handler of the four servers hands to [cursor.execute] has exactly as many
    [%s] placeholders as bound arguments (the escaped [%%] of the address
    search is not one), so no call is rejected for its arity. *)
Theorem executed_statements_are_well_bound :
  forall rt w,
    let ok {A} (m : DB.M A) :=
      Forall (fun qp => well_bound (fst qp) (snd qp))
        (DB.executed (snd (DB.run m))) in
    (forall req cif, ok (Facturacion.consultar_facturas w req cif))
    /\ ok (Facturacion.health_check w)
    /\ (forall cif estado fecha_inicio fecha_fin limit,
           ok (Agent.consultar_mis_facturas rt cif w estado fecha_inicio
                 fecha_fin limit))
    /\ (forall cif query_direccion,
           ok (Agent.buscar_factura_por_propiedad rt cif w query_direccion))
    /\ (forall email estado fecha_inicio limit,
           ok (AgentSSE.consultar_mis_facturas rt w email estado fecha_inicio
                 limit))
    /\ (forall email query_direccion,
           ok (AgentSSE.buscar_factura_por_propiedad rt w email query_direccion))
    /\ (forall req email, ok (Performance.obtener_performance rt w req email))
    /\ (forall email, ok (Performance.obtener_zona w email))
    /\ (forall req, ok (Performance.consultar_stats_zonas w req))
    /\ ok (Performance.health_check w).
Proof.
  apply (handlers_execute_only well_bound).
  - intros [estado fecha_inicio fecha_fin limit] cif.
    eapply slots_give_well_bound; [apply facturacion_build_slots|].
    rewrite facturacion_build_args, length_map. reflexivity.
  - intros cif estado fecha_inicio fecha_fin limit.
    eapply slots_give_well_bound; [apply agent_build_slots|].
    rewrite agent_build_args, length_map. reflexivity.
  - intros c estado fecha_inicio limit.
    exact (proj1 (sse_build_cases c estado fecha_inicio limit)).
  - intros; vm_compute; reflexivity.
  - intros; vm_compute; reflexivity.
  - intros; vm_compute; reflexivity.
  - intros; vm_compute; reflexivity.
  - intros; vm_compute; reflexivity.
  - intros; vm_compute; reflexivity.
  - intros req. exact (proj1 (stats_build_cases req)).
  - vm_compute; reflexivity.
Qed.

(** X2.  The servers only read: whatever the request and whatever the driver
    does, every statement a handler executes begins, after leading blanks,
    with the word SELECT. *)
Theorem executed_statements_only_read :
  forall rt w,
    let ok {A} (m : DB.M A) :=
      Forall (fun qp => is_select (fst qp) = true)
        (DB.executed (snd (DB.run m))) in
    (forall req cif, ok (Facturacion.consultar_facturas w req cif))
    /\ ok (Facturacion.health_check w)
    /\ (forall cif estado fecha_inicio fecha_fin limit,
           ok (Agent.consultar_mis_facturas rt cif w estado fecha_inicio
                 fecha_fin limit))
    /\ (forall cif query_direccion,
           ok (Agent.buscar_factura_por_propiedad rt cif w query_direccion))
    /\ (forall email estado fecha_inicio limit,
           ok (AgentSSE.consultar_mis_facturas rt w email estado fecha_inicio
                 limit))
    /\ (forall email query_direccion,
           ok (AgentSSE.buscar_factura_por_propiedad rt w email query_direccion))
    /\ (forall req email, ok (Performance.obtener_performance rt w req email))
    /\ (forall email, ok (Performance.obtener_zona w email))
    /\ (forall req, ok (Performance.consultar_stats_zonas w req))
    /\ ok (Performance.health_check w).
Proof.
  apply (handlers_execute_only (fun q _ => is_select q = true)).
  - intros [estado fecha_inicio fecha_fin limit] cif.
    exact (proj1 (build_queries_select cif estado fecha_inicio fecha_fin limit)).
  - intros cif estado fecha_inicio fecha_fin limit.
    exact (proj2 (build_queries_select cif estado fecha_inicio fecha_fin limit)).
  - intros c estado fecha_inicio limit.
    exact (proj2 (sse_build_cases c estado fecha_inicio limit)).
  - intros; vm_compute; reflexivity.
  - intros; vm_compute; reflexivity.
  - intros; vm_compute; reflexivity.
  - intros; vm_compute; reflexivity.
  - intros; vm_compute; reflexivity.
  - intros; vm_compute; reflexivity.
  - intros req. exact (proj2 (stats_build_cases req)).
  - vm_compute; reflexivity.
Qed.


(** ** The life of a connection *)

Lemma guarded_log_open {A} (get : DB.M DB.connection)
      (body : DB.connection -> DB.M A) (h : Py.exn -> DB.M A) conn :
  get [] = (inr conn, [DB.Connect]) ->
  DB.emits is_execute (body conn) ->
  (forall e, DB.emits is_print (h e)) ->
  scoped (snd (DB.run (DB.try_except (DB.with_connection get body) h))).
Proof.
  intros Hg Hb Hh. unfold DB.run, DB.try_except, DB.with_connection, DB.bind.
  rewrite Hg. destruct (Hb [DB.Connect]) as (xs & Hx & Fx).
  destruct (body conn [DB.Connect]) as [[e|a] l1]; simpl in Hx; subst l1.
  - destruct (Hh e ([DB.Connect] ++ xs ++ [DB.Close])%list) as (ps & Hp & Fp).
    exists xs, ps. simpl in *. rewrite Hp, <- app_assoc. simpl. auto.
  - exists xs, []. simpl. auto.
Qed.

Lemma guarded_log_failed {A} (get : DB.M DB.connection)
      (body : DB.connection -> DB.M A) (h : Py.exn -> DB.M A) e pr :
  get [] = (inl e, DB.Connect :: pr) ->
  Forall is_print pr ->
  (forall e, DB.emits is_print (h e)) ->
  unopened (snd (DB.run (DB.try_except (DB.with_connection get body) h))).
Proof.
  intros Hg Fp Hh. unfold DB.run, DB.try_except, DB.with_connection, DB.bind.
  rewrite Hg. destruct (Hh e (DB.Connect :: pr)) as (ps & Hp & Fq).
  exists (pr ++ ps)%list. rewrite Hp. split; [reflexivity|].
  apply Forall_app. auto.
Qed.

(** X3.  A handler that gets its connection closes it exactly once, after the
    last statement and before anything it prints, whether its body returned
    or raised; a handler that cannot get a connection executes nothing and
    closes nothing.  (Invoice handlers: for requests that pass validation.) *)
Theorem connection_is_scoped :
  forall rt,
    (forall conn,
        let w : DB.world := inr conn in
        (forall req cif,
            estado_invalido (Facturacion.estado req) = false ->
            fecha_invalida (Facturacion.fecha_inicio req) = false ->
            fecha_invalida (Facturacion.fecha_fin req) = false ->
            rango_invalido (Facturacion.fecha_inicio req)
              (Facturacion.fecha_fin req) = false ->
            scoped (snd (DB.run (Facturacion.consultar_facturas w req cif))))
        /\ (forall cif estado fecha_inicio fecha_fin limit,
               estado_invalido estado = false ->
               fecha_invalida fecha_inicio = false ->
               fecha_invalida fecha_fin = false ->
               rango_invalido fecha_inicio fecha_fin = false ->
               scoped (snd (DB.run (Agent.consultar_mis_facturas rt cif w estado
                                      fecha_inicio fecha_fin limit))))
        /\ (forall cif query_direccion,
               scoped (snd (DB.run (Agent.buscar_factura_por_propiedad rt cif w
                                      query_direccion))))
        /\ (forall email estado fecha_inicio limit,
               estado_invalido estado = false ->
               scoped (snd (DB.run (AgentSSE.consultar_mis_facturas rt w email
                                      estado fecha_inicio limit))))
        /\ (forall email query_direccion,
               scoped (snd (DB.run (AgentSSE.buscar_factura_por_propiedad rt w
                                      email query_direccion))))
        /\ (forall req email,
               scoped (snd (DB.run (Performance.obtener_performance rt w req
                                      email))))
        /\ (forall email,
               scoped (snd (DB.run (Performance.obtener_zona w email))))
        /\ (forall req,
               scoped (snd (DB.run (Performance.consultar_stats_zonas w req)))))
    /\ (forall e,
           let w : DB.world := inl e in
           (forall req cif,
               estado_invalido (Facturacion.estado req) = false ->
               fecha_invalida (Facturacion.fecha_inicio req) = false ->
               fecha_invalida (Facturacion.fecha_fin req) = false ->
               rango_invalido (Facturacion.fecha_inicio req)
                 (Facturacion.fecha_fin req) = false ->
               unopened (snd (DB.run (Facturacion.consultar_facturas w req cif))))
           /\ (forall cif estado fecha_inicio fecha_fin limit,
                  estado_invalido estado = false ->
                  fecha_invalida fecha_inicio = false ->
                  fecha_invalida fecha_fin = false ->
                  rango_invalido fecha_inicio fecha_fin = false ->
                  unopened (snd (DB.run (Agent.consultar_mis_facturas rt cif w
                                           estado fecha_inicio fecha_fin limit))))
           /\ (forall cif query_direccion,
                  unopened (snd (DB.run (Agent.buscar_factura_por_propiedad rt
                                           cif w query_direccion))))
           /\ (forall email estado fecha_inicio limit,
                  estado_invalido estado = false ->
                  unopened (snd (DB.run (AgentSSE.consultar_mis_facturas rt w
                                           email estado fecha_inicio limit))))
           /\ (forall email query_direccion,
                  unopened (snd (DB.run (AgentSSE.buscar_factura_por_propiedad
                                           rt w email query_direccion))))
           /\ (forall req email,
                  unopened (snd (DB.run (Performance.obtener_performance rt w
                                           req email))))
           /\ (forall email,
                  unopened (snd (DB.run (Performance.obtener_zona w email))))
           /\ (forall req,
                  unopened (snd (DB.run (Performance.consultar_stats_zonas w
                                           req))))).
Proof.
  intros rt. split.
  - intros conn w. subst w. repeat apply conj.
    + intros req cif H1 H2 H3 H4. unfold Facturacion.consultar_facturas.
      rewrite H1, H2, H3, H4.
      apply (guarded_log_open _ _ _ conn); [reflexivity| |intros e].
      * destruct (Facturacion.build_query req cif). repeat emits_step.
      * repeat emits_step.
    + intros cif estado fecha_inicio fecha_fin limit H1 H2 H3 H4.
      unfold Agent.consultar_mis_facturas. rewrite H1, H2, H3, H4.
      apply (guarded_log_open _ _ _ conn); [reflexivity| |intros e].
      * destruct (Agent.build_query cif estado fecha_inicio fecha_fin limit).
        unfold Agent.factura_line. repeat emits_step.
      * repeat emits_step.
    + intros cif query_direccion. unfold Agent.buscar_factura_por_propiedad.
      apply (guarded_log_open _ _ _ conn); [reflexivity| |intros e].
      * unfold Agent.propiedad_line. repeat emits_step.
      * repeat emits_step.
    + intros email estado fecha_inicio limit H1.
      unfold AgentSSE.consultar_mis_facturas. rewrite H1.
      apply (guarded_log_open _ _ _ conn); [reflexivity| |intros e].
      * unfold AgentSSE.resolve_cif_from_email, DB.fetchone.
        apply emits_bind; [repeat emits_step|]. intros c.
        destruct (AgentSSE.build_query c estado fecha_inicio limit).
        repeat emits_step.
      * repeat emits_step.
    + intros email query_direccion.
      unfold AgentSSE.buscar_factura_por_propiedad.
      apply (guarded_log_open _ _ _ conn); [reflexivity| |intros e].
      * unfold AgentSSE.resolve_cif_from_email, DB.fetchone. repeat emits_step.
      * repeat emits_step.
    + intros req email. unfold Performance.obtener_performance.
      apply (guarded_log_open _ _ _ conn); [reflexivity| |intros e].
      * unfold Performance.anual, Performance.total, Performance.float_or_zero,
          DB.fetchone.
        repeat emits_step.
      * repeat emits_step.
    + intros email. unfold Performance.obtener_zona.
      apply (guarded_log_open _ _ _ conn); [reflexivity| |intros e].
      * unfold DB.fetchone. repeat emits_step.
      * repeat emits_step.
    + intros req. unfold Performance.consultar_stats_zonas.
      apply (guarded_log_open _ _ _ conn); [reflexivity| |intros e].
      * destruct (Performance.stats_build req). repeat emits_step.
      * repeat emits_step.
  - intros e w. subst w. repeat apply conj.
    + intros req cif H1 H2 H3 H4. unfold Facturacion.consultar_facturas.
      rewrite H1, H2, H3, H4.
      eapply guarded_log_failed; [reflexivity|repeat constructor|intros e'].
      repeat emits_step.
    + intros cif estado fecha_inicio fecha_fin limit H1 H2 H3 H4.
      unfold Agent.consultar_mis_facturas. rewrite H1, H2, H3, H4.
      eapply guarded_log_failed; [reflexivity|repeat constructor|intros e'].
      repeat emits_step.
    + intros cif query_direccion. unfold Agent.buscar_factura_por_propiedad.
      eapply guarded_log_failed; [reflexivity|repeat constructor|intros e'].
      repeat emits_step.
    + intros email estado fecha_inicio limit H1.
      unfold AgentSSE.consultar_mis_facturas. rewrite H1.
      eapply guarded_log_failed; [reflexivity|repeat constructor|intros e'].
      repeat emits_step.
    + intros email query_direccion.
      unfold AgentSSE.buscar_factura_por_propiedad.
      eapply guarded_log_failed; [reflexivity|repeat constructor|intros e'].
      repeat emits_step.
    + intros req email. unfold Performance.obtener_performance.
      eapply guarded_log_failed; [reflexivity|repeat constructor|intros e'].
      repeat emits_step.
    + intros email. unfold Performance.obtener_zona.
      eapply guarded_log_failed; [reflexivity|repeat constructor|intros e'].
      repeat emits_step.
    + intros req. unfold Performance.consultar_stats_zonas.
      eapply guarded_log_failed; [reflexivity|repeat constructor|intros e'].
      repeat emits_step.
Qed.

Lemma connection_is_scoped_witness :
  let req := Facturacion.Build_FacturasRequest (Some "PAGADA")
               (Some "2024-11-01") (Some "2024-11-30") 5 in
  (estado_invalido (Facturacion.estado req) = false
   /\ fecha_invalida (Facturacion.fecha_inicio req) = false
   /\ fecha_invalida (Facturacion.fecha_fin req) = false
   /\ rango_invalido (Facturacion.fecha_inicio req) (Facturacion.fecha_fin req)
      = false)
  /\ scoped (snd (DB.run (Facturacion.consultar_facturas
                            (inr Demo.noviembre_conn) req (Some "B12345678")))).
Proof.
  split; [repeat split|].
  apply (proj1 (proj1 (connection_is_scoped Demo.rt) Demo.noviembre_conn));
    reflexivity.
Defined.

(** ** Failures *)

Lemma try_ret_returns {A} (body : DB.M A) (h : Py.exn -> A) l :
  exists a, fst (DB.try_except body (fun e => DB.ret (h e)) l) = inr a.
Proof.
  unfold DB.try_except, DB.ret. destruct (body l) as [[e|a] l'];
    eexists; reflexivity.
Qed.

(** X4.  The four tools of the two tool servers never raise: whatever the
    driver does (no connection, a failing statement, a row without a column,
    a score that is no number), the caller gets a text. *)
Theorem tools_never_raise :
  forall rt cif w,
    (forall estado fecha_inicio fecha_fin limit,
        exists text,
          fst (DB.run (Agent.consultar_mis_facturas rt cif w estado fecha_inicio
                         fecha_fin limit)) = inr text)
    /\ (forall query_direccion,
           exists text,
             fst (DB.run (Agent.buscar_factura_por_propiedad rt cif w
                            query_direccion)) = inr text)
    /\ (forall email estado fecha_inicio limit,
           exists text,
             fst (DB.run (AgentSSE.consultar_mis_facturas rt w email estado
                            fecha_inicio limit)) = inr text)
    /\ (forall email query_direccion,
           exists text,
             fst (DB.run (AgentSSE.buscar_factura_por_propiedad rt w email
                            query_direccion)) = inr text).
Proof.
  intros rt cif w. repeat apply conj.
  - intros estado fecha_inicio fecha_fin limit.
    unfold DB.run, Agent.consultar_mis_facturas.
    destruct (estado_invalido estado); [eexists; reflexivity|].
    destruct (fecha_invalida fecha_inicio); [eexists; reflexivity|].
    destruct (fecha_invalida fecha_fin); [eexists; reflexivity|].
    destruct (rango_invalido fecha_inicio fecha_fin); [eexists; reflexivity|].
    apply try_ret_returns.
  - intros q. apply try_ret_returns.
  - intros email estado fecha_inicio limit.
    unfold DB.run, AgentSSE.consultar_mis_facturas.
    destruct (estado_invalido estado); [eexists; reflexivity|].
    apply try_ret_returns.
  - intros email q. apply try_ret_returns.
Qed.

(** X5.  When the connection cannot be opened, each tool answers with its own
    error prefix followed by the driver's message (agent_server.py wraps it
    once more, as "Error conectando a la BD: ..."), and has done nothing but
    the attempt to connect. *)
Theorem tools_report_connection_failure :
  forall rt cif msg,
    let w : DB.world := inl (Py.DriverError msg) in
    (forall estado fecha_inicio fecha_fin limit,
        estado_invalido estado = false ->
        fecha_invalida fecha_inicio = false ->
        fecha_invalida fecha_fin = false ->
        rango_invalido fecha_inicio fecha_fin = false ->
        DB.run (Agent.consultar_mis_facturas rt cif w estado fecha_inicio
                  fecha_fin limit)
        = (inr ("Error en sistema de facturación: Error conectando a la BD: "
                ++ msg), [DB.Connect]))
    /\ (forall query_direccion,
           DB.run (Agent.buscar_factura_por_propiedad rt cif w query_direccion)
           = (inr ("Error buscando propiedad: Error conectando a la BD: "
                   ++ msg), [DB.Connect]))
    /\ (forall email estado fecha_inicio limit,
           estado_invalido estado = false ->
           DB.run (AgentSSE.consultar_mis_facturas rt w email estado
                     fecha_inicio limit)
           = (inr ("Error del sistema: " ++ msg), [DB.Connect]))
    /\ (forall email query_direccion,
           DB.run (AgentSSE.buscar_factura_por_propiedad rt w email
                     query_direccion)
           = (inr ("Error: " ++ msg), [DB.Connect])).
Proof.
  intros rt cif msg w. subst w. repeat apply conj.
  - intros estado fecha_inicio fecha_fin limit H1 H2 H3 H4.
    unfold DB.run, Agent.consultar_mis_facturas. rewrite H1, H2, H3, H4.
    reflexivity.
  - intros q. reflexivity.
  - intros email estado fecha_inicio limit H1.
    unfold DB.run, AgentSSE.consultar_mis_facturas. rewrite H1. reflexivity.
  - intros email q. reflexivity.
Qed.

Lemma tools_report_connection_failure_witness :
  (estado_invalido (Some "PAGADA") = false
   /\ fecha_invalida (Some "2024-11-01") = false
   /\ fecha_invalida None = false
   /\ rango_invalido (Some "2024-11-01") None = false)
  /\ DB.run (Agent.consultar_mis_facturas Demo.rt (Some "B12345678")
               (inl (Py.DriverError "connection refused")) (Some "PAGADA")
               (Some "2024-11-01") None 5)
     = (inr ("Error en sistema de facturación: Error conectando a la BD: "
             ++ "connection refused"), [DB.Connect]).
Proof.
  split; [repeat split|].
  apply (proj1 (tools_report_connection_failure Demo.rt (Some "B12345678")
                  "connection refused")); reflexivity.
Defined.

Lemma try_500_status {A} (body : DB.M A) (tag : string) l e :
  fst (DB.try_except body
         (fun e =>
            DB.emit (DB.Print (tag ++ Py.str_exn e)) ;;;
            DB.raise (Py.HTTPException 500 (Py.str_exn e))) l) = inl e ->
  status_of e = Some 500.
Proof.
  unfold DB.try_except, DB.bind, DB.emit, DB.raise.
  destruct (body l) as [[e'|a] l']; simpl; intros H; inversion H.
  reflexivity.
Qed.

(** X6.  Whatever an HTTP endpoint raises is an [HTTPException]: with status
    400 or 500 for the invoice endpoint, 500 for the performance and zone
    statistics endpoints, and 404 or 500 for the zone endpoint over a driver
    that raises exceptions of its own only.  No exception of the driver, of a
    missing column or of a conversion leaves an endpoint as it is. *)
Theorem http_failures_have_status :
  forall rt w,
    (forall req cif e,
        fst (DB.run (Facturacion.consultar_facturas w req cif)) = inl e ->
        status_of e = Some 400 \/ status_of e = Some 500)
    /\ (forall req email e,
           fst (DB.run (Performance.obtener_performance rt w req email)) = inl e ->
           status_of e = Some 500)
    /\ (forall req e,
           fst (DB.run (Performance.consultar_stats_zonas w req)) = inl e ->
           status_of e = Some 500)
    /\ (forall email e,
           plain_driver w ->
           fst (DB.run (Performance.obtener_zona w email)) = inl e ->
           status_of e = Some 404 \/ status_of e = Some 500).
Proof.
  intros rt w. repeat apply conj.
  - intros req cif e. unfold DB.run, Facturacion.consultar_facturas.
    destruct (estado_invalido _);
      [intros H; inversion H; left; reflexivity|].
    destruct (fecha_invalida (Facturacion.fecha_inicio req));
      [intros H; inversion H; left; reflexivity|].
    destruct (fecha_invalida (Facturacion.fecha_fin req));
      [intros H; inversion H; left; reflexivity|].
    destruct (rango_invalido _ _);
      [intros H; inversion H; left; reflexivity|].
    intros H. right. apply (try_500_status _ _ _ _ H).
  - intros req email e H. apply (try_500_status _ _ _ _ H).
  - intros req e H. apply (try_500_status _ _ _ _ H).
  - intros email e Hd. unfold DB.run, Performance.obtener_zona.
    unfold DB.try_except, DB.with_connection, DB.bind at 1.
    destruct w as [e0|conn].
    + simpl. intros H; inversion H. right; reflexivity.
    + rewrite performance_connects.
      unfold DB.bind at 1, DB.cur_execute, DB.bind at 1, DB.emit.
      destruct (DB.execute conn Performance.zona_query [DB.VStr email])
        as [e1|rows] eqn:Hex.
      * pose proof (Hd conn _ _ _ eq_refl Hex) as Hn.
        destruct e1; try discriminate Hn; simpl;
          intros H; inversion H; right; reflexivity.
      * simpl. destruct rows as [|[|kv r] rows]; simpl.
        -- intros H; inversion H; left; reflexivity.
        -- intros H; inversion H; left; reflexivity.
        -- unfold DB.bind, DB.getitem.
           destruct (DB.lookup "zona_nombre" (kv :: r)) as [z|]; simpl;
             [|intros H; inversion H; right; reflexivity].
           destruct (Num.truthy z); simpl;
             destruct (DB.lookup "agente_nombre" (kv :: r)) as [a|]; simpl;
             intros H; inversion H; right; reflexivity.
Qed.

Lemma http_failures_have_status_witness :
  (plain_driver (inr Demo.empty_conn)
   /\ fst (DB.run (Performance.obtener_zona (inr Demo.empty_conn)
                     "nadie@inmo.es"))
      = inl (Py.HTTPException 404 "Agente no encontrado en el sistema."))
  /\ (status_of (Py.HTTPException 404 "Agente no encontrado en el sistema.")
      = Some 404
      \/ status_of (Py.HTTPException 404 "Agente no encontrado en el sistema.")
         = Some 500).
Proof.
  assert (Hd : plain_driver (inr Demo.empty_conn)).
  { intros conn q ps e Hw. inversion Hw; subst conn. discriminate. }
  split; [split; [exact Hd|reflexivity]|].
  apply (proj2 (proj2 (proj2 (http_failures_have_status Demo.rt
                                (inr Demo.empty_conn))))
           "nadie@inmo.es" _ Hd).
  reflexivity.
Defined.

(** X7.  When the statement fails in the driver, the connection is closed
    and the failure reported with the driver's message: as the detail of an
    HTTP 500, after a printed line, by the two endpoints; behind the tool's
    error prefix by the tools of agent_server.py. *)
Theorem statement_failure_is_reported :
  forall rt cif conn msg,
    (forall req x_agent_cif,
        estado_invalido (Facturacion.estado req) = false ->
        fecha_invalida (Facturacion.fecha_inicio req) = false ->
        fecha_invalida (Facturacion.fecha_fin req) = false ->
        rango_invalido (Facturacion.fecha_inicio req)
          (Facturacion.fecha_fin req) = false ->
        DB.execute conn (fst (Facturacion.build_query req x_agent_cif))
          (snd (Facturacion.build_query req x_agent_cif))
        = inl (Py.DriverError msg) ->
        DB.run (Facturacion.consultar_facturas (inr conn) req x_agent_cif)
        = (inl (Py.HTTPException 500 msg),
           [DB.Connect;
            DB.Execute (fst (Facturacion.build_query req x_agent_cif))
              (snd (Facturacion.build_query req x_agent_cif));
            DB.Close;
            DB.Print ("❌ Error en consultar_facturas: " ++ msg)]))
    /\ (forall estado fecha_inicio fecha_fin limit,
           estado_invalido estado = false ->
           fecha_invalida fecha_inicio = false ->
           fecha_invalida fecha_fin = false ->
           rango_invalido fecha_inicio fecha_fin = false ->
           let qp := Agent.build_query cif estado fecha_inicio fecha_fin limit in
           DB.execute conn (fst qp) (snd qp) = inl (Py.DriverError msg) ->
           DB.run (Agent.consultar_mis_facturas rt cif (inr conn) estado
                     fecha_inicio fecha_fin limit)
           = (inr ("Error en sistema de facturación: " ++ msg),
              [DB.Connect; DB.Execute (fst qp) (snd qp); DB.Close]))
    /\ (forall query_direccion,
           let ps := [DB.VStr query_direccion; DB.param_of_opt cif;
                      DB.VStr query_direccion] in
           DB.execute conn Agent.buscar_query ps = inl (Py.DriverError msg) ->
           DB.run (Agent.buscar_factura_por_propiedad rt cif (inr conn)
                     query_direccion)
           = (inr ("Error buscando propiedad: " ++ msg),
              [DB.Connect; DB.Execute Agent.buscar_query ps; DB.Close]))
    /\ (forall req,
           let qp := Performance.stats_build req in
           DB.execute conn (fst qp) (snd qp) = inl (Py.DriverError msg) ->
           DB.run (Performance.consultar_stats_zonas (inr conn) req)
           = (inl (Py.HTTPException 500 msg),
              [DB.Connect; DB.Execute (fst qp) (snd qp); DB.Close;
               DB.Print ("❌ Error en stats-zonas: " ++ msg)])).
Proof.
  intros rt cif conn msg. repeat apply conj.
  - intros req x_agent_cif H1 H2 H3 H4 Hex.
    unfold DB.run, Facturacion.consultar_facturas. rewrite H1, H2, H3, H4.
    destruct (Facturacion.build_query req x_agent_cif) as [q ps].
    cbn [fst snd] in *.
    erewrite with_connection_raises; cycle 1.
    + apply facturacion_connects.
    + rewrite (bind_inl _ _ _ _ _ (cur_execute_fails _ _ _ _ _ Hex)).
      reflexivity.
    + reflexivity.
  - intros estado fecha_inicio fecha_fin limit H1 H2 H3 H4 qp. subst qp.
    intros Hex.
    unfold DB.run, Agent.consultar_mis_facturas. rewrite H1, H2, H3, H4.
    destruct (Agent.build_query cif estado fecha_inicio fecha_fin limit)
      as [q ps].
    cbn [fst snd] in *.
    erewrite with_connection_raises; cycle 1.
    + apply agent_connects.
    + rewrite (bind_inl _ _ _ _ _ (cur_execute_fails _ _ _ _ _ Hex)).
      reflexivity.
    + reflexivity.
  - intros query_direccion ps Hex. subst ps.
    unfold DB.run, Agent.buscar_factura_por_propiedad.
    erewrite with_connection_raises; cycle 1.
    + apply agent_connects.
    + rewrite (bind_inl _ _ _ _ _ (cur_execute_fails _ _ _ _ _ Hex)).
      reflexivity.
    + reflexivity.
  - intros req qp. subst qp. intros Hex.
    unfold DB.run, Performance.consultar_stats_zonas.
    destruct (Performance.stats_build req) as [q ps].
    cbn [fst snd] in *.
    erewrite with_connection_raises; cycle 1.
    + apply performance_connects.
    + rewrite (bind_inl _ _ _ _ _ (cur_execute_fails _ _ _ _ _ Hex)).
      reflexivity.
    + reflexivity.
Qed.

Lemma statement_failure_is_reported_witness :
  let conn := {| DB.execute := fun _ _ => inl (Py.DriverError "timeout") |} in
  let ps := [DB.VStr "Velazquez"; DB.VStr "B12345678"; DB.VStr "Velazquez"] in
  DB.execute conn Agent.buscar_query ps = inl (Py.DriverError "timeout")
  /\ DB.run (Agent.buscar_factura_por_propiedad Demo.rt (Some "B12345678")
               (inr conn) "Velazquez")
     = (inr ("Error buscando propiedad: " ++ "timeout"),
        [DB.Connect; DB.Execute Agent.buscar_query ps; DB.Close]).
Proof.
  split; [reflexivity|].
  apply (proj1 (proj2 (proj2 (statement_failure_is_reported Demo.rt
                                (Some "B12345678")
                                {| DB.execute :=
                                     fun _ _ => inl (Py.DriverError "timeout") |}
                                "timeout"))) "Velazquez").
  reflexivity.
Defined.

(** ** Rows that lack a column *)






(** ** Filters that are there but empty *)

(** X9.  A filter given as the empty text is a filter not given: the tools
    of the two tool servers run exactly as without it, the invoice endpoint
    builds the same statement with the same arguments and does the same to
    the database (its echo alone keeps the empty text), and the performance
    endpoint takes year 0 for no year and answers with the all-time
    totals. *)
Theorem empty_filters_are_absent :
  forall rt w,
    (forall cif estado fecha_inicio fecha_fin limit,
        DB.run (Agent.consultar_mis_facturas rt cif w estado fecha_inicio
                  fecha_fin limit)
        = DB.run (Agent.consultar_mis_facturas rt cif w (present estado)
                    (present fecha_inicio) (present fecha_fin) limit))
    /\ (forall email estado fecha_inicio limit,
           DB.run (AgentSSE.consultar_mis_facturas rt w email estado
                     fecha_inicio limit)
           = DB.run (AgentSSE.consultar_mis_facturas rt w email
                       (present estado) (present fecha_inicio) limit))
    /\ (forall req cif,
           let req' :=
             Facturacion.Build_FacturasRequest
               (present (Facturacion.estado req))
               (present (Facturacion.fecha_inicio req))
               (present (Facturacion.fecha_fin req))
               (Facturacion.limit req) in
           Facturacion.build_query req cif = Facturacion.build_query req' cif
           /\ snd (DB.run (Facturacion.consultar_facturas w req cif))
              = snd (DB.run (Facturacion.consultar_facturas w req' cif)))
    /\ (forall email,
           DB.run (Performance.obtener_performance rt w
                     (Performance.Build_PerformanceRequest (Some 0)) email)
           = DB.run (Performance.obtener_performance rt w
                       (Performance.Build_PerformanceRequest None) email)).
Proof.
  intros rt w. repeat apply conj.
  - intros cif estado fecha_inicio fecha_fin limit.
    destruct estado as [[|c1 s1]|], fecha_inicio as [[|c2 s2]|],
      fecha_fin as [[|c3 s3]|]; reflexivity.
  - intros email estado fecha_inicio limit.
    destruct estado as [[|c1 s1]|], fecha_inicio as [[|c2 s2]|]; reflexivity.
  - intros [estado fecha_inicio fecha_fin limit] cif req'. subst req'.
    cbn [Facturacion.estado Facturacion.fecha_inicio Facturacion.fecha_fin
         Facturacion.limit].
    assert (Hq : Facturacion.build_query
                   (Facturacion.Build_FacturasRequest estado fecha_inicio
                      fecha_fin limit) cif
                 = Facturacion.build_query
                     (Facturacion.Build_FacturasRequest (present estado)
                        (present fecha_inicio) (present fecha_fin) limit) cif).
    { destruct estado as [[|c1 s1]|], fecha_inicio as [[|c2 s2]|],
        fecha_fin as [[|c3 s3]|]; reflexivity. }
    split; [exact Hq|].
    unfold DB.run, Facturacion.consultar_facturas. rewrite <- Hq.
    cbn [Facturacion.estado Facturacion.fecha_inicio Facturacion.fecha_fin
         Facturacion.limit].
    assert (He : estado_invalido (present estado) = estado_invalido estado)
      by (destruct estado as [[|c1 s1]|]; reflexivity).
    assert (Hi : fecha_invalida (present fecha_inicio)
                 = fecha_invalida fecha_inicio)
      by (destruct fecha_inicio as [[|c2 s2]|]; reflexivity).
    assert (Hf : fecha_invalida (present fecha_fin) = fecha_invalida fecha_fin)
      by (destruct fecha_fin as [[|c3 s3]|]; reflexivity).
    assert (Hr : rango_invalido (present fecha_inicio) (present fecha_fin)
                 = rango_invalido fecha_inicio fecha_fin)
      by (destruct fecha_inicio as [[|c2 s2]|], fecha_fin as [[|c3 s3]|];
          reflexivity).
    rewrite He, Hi, Hf, Hr.
    destruct (estado_invalido estado); [reflexivity|].
    destruct (fecha_invalida fecha_inicio); [reflexivity|].
    destruct (fecha_invalida fecha_fin); [reflexivity|].
    destruct (rango_invalido fecha_inicio fecha_fin); [reflexivity|].
    destruct (Facturacion.build_query _ cif) as [q ps].
    unfold DB.try_except, DB.with_connection, DB.bind.
    destruct (Facturacion.get_db_connection w []) as [[e|conn] l1];
      [reflexivity|].
    destruct (DB.cur_execute conn q ps l1) as [[e|rows] l2]; reflexivity.
  - intros email. reflexivity.
Qed.

(** ** The performance server *)

(** X10.  A year with a row: the endpoint reads the first row only; when both
    amounts convert to floats the answer carries them and their float
    difference as the pending amount; a NULL amount is not taken for zero (as
    the all-time branch does) but ends the request with HTTP 500. *)
Theorem annual_row_amounts :
  forall rt conn email (a : Z) r rest v f c,
    a <> 0 ->
    DB.execute conn Performance.anual_query [DB.VStr email; DB.VInt a]
    = inr (r :: rest) ->
    DB.lookup "ventas" r = Some v ->
    DB.lookup "facturado" r = Some f ->
    DB.lookup "cobrado" r = Some c ->
    let answer :=
      fst (DB.run (Performance.obtener_performance rt (inr conn)
                     (Performance.Build_PerformanceRequest (Some a)) email)) in
    (forall x y,
        Num.py_float rt f = inr x -> Num.py_float rt c = inr y ->
        answer
        = inr (JObj
                 [("periodo", JInt a);
                  ("tipo", JStr "Anual");
                  ("data",
                   JObj [("ventas", JCell v);
                         ("facturado", JFloat x);
                         ("cobrado", JFloat y);
                         ("pendiente_cobro", JFloat (Num.fsub x y))])]))
    /\ (f = DB.VNone \/ c = DB.VNone ->
        exists d, answer = inl (Py.HTTPException 500 d)).
Proof.
  intros rt conn email a r rest v f c Ha Hex Hv Hf Hc answer. subst answer.
  assert (Hy : Performance.anyo_truthy (Some a) = Some a)
    by (destruct a; [congruence|reflexivity|reflexivity]).
  unfold DB.run, Performance.obtener_performance.
  cbn [Performance.anyo]. rewrite Hy.
  destruct r as [|kv r]; [discriminate Hv|].
  split.
  - intros x y Hx Hy'.
    erewrite with_connection_returns; cycle 1.
    + apply performance_connects.
    + unfold Performance.anual.
      rewrite (bind_inr _ _ _ _ _ (cur_execute_rows _ _ _ _ _ Hex)).
      cbn [DB.fetchone hd_error].
      rewrite (bind_inr _ _ _ _ _ (getitem_found _ _ _ _ Hv)).
      rewrite (bind_inr _ _ _ _ _ (getitem_found _ _ _ _ Hf)).
      rewrite (bind_inr _ _ _ _ _ (lift_inr _ _ _ Hx)).
      rewrite (bind_inr _ _ _ _ _ (getitem_found _ _ _ _ Hc)).
      rewrite (bind_inr _ _ _ _ _ (lift_inr _ _ _ Hy')).
      rewrite (bind_inr _ _ _ _ _ (getitem_found _ _ _ _ Hf)).
      rewrite (bind_inr _ _ _ _ _ (lift_inr _ _ _ Hx)).
      rewrite (bind_inr _ _ _ _ _ (getitem_found _ _ _ _ Hc)).
      rewrite (bind_inr _ _ _ _ _ (lift_inr _ _ _ Hy')).
      reflexivity.
    + reflexivity.
  - intros Hnull.
    assert (Hbody : exists e l2,
               Performance.anual rt conn email a ([] ++ [DB.Connect])%list
               = (inl e, l2)).
    { unfold Performance.anual.
      rewrite (bind_inr _ _ _ _ _ (cur_execute_rows _ _ _ _ _ Hex)).
      cbn [DB.fetchone hd_error].
      rewrite (bind_inr _ _ _ _ _ (getitem_found _ _ _ _ Hv)).
      rewrite (bind_inr _ _ _ _ _ (getitem_found _ _ _ _ Hf)).
      destruct (Num.py_float rt f) as [e|x] eqn:Hx.
      - eexists _, _. unfold DB.bind, DB.lift, DB.raise. reflexivity.
      - rewrite (bind_inr _ _ _ _ _ (lift_inr _ _ _ eq_refl)).
        rewrite (bind_inr _ _ _ _ _ (getitem_found _ _ _ _ Hc)).
        destruct Hnull as [->| ->]; [discriminate Hx|].
        eexists _, _. unfold DB.bind, DB.lift, DB.raise. reflexivity. }
    destruct Hbody as (e & l2 & Hbody).
    erewrite with_connection_raises; cycle 1.
    + apply performance_connects.
    + exact Hbody.
    + eexists. reflexivity.
Qed.

Lemma annual_row_amounts_witness :
  let r := [("ventas", DB.VInt 3); ("facturado", DB.VNone);
            ("cobrado", DB.VDec 150000 (-2))] in
  let conn := {| DB.execute := fun _ _ => inr [r] |} in
  (2024 <> 0
   /\ DB.execute conn Performance.anual_query
        [DB.VStr "ana.lopez@inmo.es"; DB.VInt 2024] = inr [r]
   /\ DB.lookup "facturado" r = Some DB.VNone)
  /\ exists d,
      fst (DB.run (Performance.obtener_performance Demo.rt (inr conn)
                     (Performance.Build_PerformanceRequest (Some 2024))
                     "ana.lopez@inmo.es"))
      = inl (Py.HTTPException 500 d).
Proof.
  intros r conn. split; [repeat split; lia|].
  apply (proj2 (annual_row_amounts Demo.rt conn "ana.lopez@inmo.es" 2024 r []
                  (DB.VInt 3) DB.VNone (DB.VDec 150000 (-2))
                  ltac:(lia) eq_refl eq_refl eq_refl eq_refl)).
  left. reflexivity.
Defined.

(** X11.  The zone endpoint.  A connection that cannot be opened is answered
    with HTTP 500 and the fixed detail of [get_db_connection], which the
    handler lets through untouched and without a line of its own.  For an
    agent with a row, the answer says [tiene_zona] exactly when the zone name
    is neither NULL nor empty, and then carries that name. *)
Theorem zona_outcomes :
  (forall msg email,
      DB.run (Performance.obtener_zona (inl (Py.DriverError msg)) email)
      = (inl (Py.HTTPException 500
                "Error de conexión con el sistema de performance"),
         [DB.Connect; DB.Print ("❌ Error DB: " ++ msg)]))
  /\ (forall conn email r rest z a,
         DB.execute conn Performance.zona_query [DB.VStr email]
         = inr (r :: rest) ->
         DB.lookup "zona_nombre" r = Some z ->
         DB.lookup "agente_nombre" r = Some a ->
         DB.run (Performance.obtener_zona (inr conn) email)
         = (inr (if Num.truthy z
                 then JObj [("agente", JCell a);
                            ("tiene_zona", JBool true);
                            ("zona", JObj [("nombre", JCell z)])]
                 else JObj [("agente", JCell a);
                            ("tiene_zona", JBool false);
                            ("mensaje",
                             JStr "No tienes una zona asignada actualmente.")]),
            [DB.Connect; DB.Execute Performance.zona_query [DB.VStr email];
             DB.Close])).
Proof.
  split; [reflexivity|].
  intros conn email r rest z a Hex Hz Ha.
  unfold DB.run, Performance.obtener_zona.
  destruct r as [|kv r]; [discriminate Hz|].
  destruct (Num.truthy z) eqn:T.
  - erewrite with_connection_returns; cycle 1.
    + apply performance_connects.
    + rewrite (bind_inr _ _ _ _ _ (cur_execute_rows _ _ _ _ _ Hex)).
      cbn [DB.fetchone hd_error].
      rewrite (bind_inr _ _ _ _ _ (getitem_found _ _ _ _ Hz)).
      rewrite T. cbn [negb].
      rewrite (bind_inr _ _ _ _ _ (getitem_found _ _ _ _ Ha)).
      rewrite (bind_inr _ _ _ _ _ (getitem_found _ _ _ _ Hz)).
      reflexivity.
    + reflexivity.
  - erewrite with_connection_returns; cycle 1.
    + apply performance_connects.
    + rewrite (bind_inr _ _ _ _ _ (cur_execute_rows _ _ _ _ _ Hex)).
      cbn [DB.fetchone hd_error].
      rewrite (bind_inr _ _ _ _ _ (getitem_found _ _ _ _ Hz)).
      rewrite T. cbn [negb].
      rewrite (bind_inr _ _ _ _ _ (getitem_found _ _ _ _ Ha)).
      reflexivity.
    + reflexivity.
Qed.

Lemma zona_outcomes_witness :
  let r := [("agente_nombre", DB.VStr "Ana"); ("zona_nombre", DB.VNone);
            ("ciudad", DB.VNone)] in
  let conn := {| DB.execute := fun _ _ => inr [r] |} in
  DB.execute conn Performance.zona_query [DB.VStr "ana.lopez@inmo.es"] = inr [r]
  /\ DB.run (Performance.obtener_zona (inr conn) "ana.lopez@inmo.es")
     = (inr (JObj [("agente", JCell (DB.VStr "Ana"));
                   ("tiene_zona", JBool false);
                   ("mensaje",
                    JStr "No tienes una zona asignada actualmente.")]),
        [DB.Connect;
         DB.Execute Performance.zona_query [DB.VStr "ana.lopez@inmo.es"];
         DB.Close]).
Proof.
  intros r conn. split; [reflexivity|].
  apply (proj2 zona_outcomes conn "ana.lopez@inmo.es" r [] DB.VNone
           (DB.VStr "Ana") eq_refl eq_refl eq_refl).
Defined.

(** X12.  The zone statistics statement and its arguments run in parallel:
    a zone name that is present (not [None], not empty) adds the ILIKE
    predicate and is bound, wrapped in [%] on both sides, to its placeholder;
    the limit is always bound last; nothing else is bound. *)
Theorem stats_args_follow_placeholders :
  forall req,
    let slots :=
      ((if Py.truthy (Performance.nombre_zona req) then [ZZona] else [])
         ++ [ZLimit])%list in
    stats_slots (fst (Performance.stats_build req)) = Some slots
    /\ snd (Performance.stats_build req) = map (stats_arg req) slots.
Proof.
  intros [[[|c z]|] limit]; split; vm_compute; reflexivity.
Qed.

(** X13.  The two answers of the zone statistics endpoint.  With rows: their
    number, the rows as returned, and the kind of search, which is specific
    exactly when a zone name is present.  Without rows: an empty list and a
    message only (no count, no kind), and the message of a search without a
    zone name speaks of the zone 'None'. *)
Theorem stats_answers :
  forall conn req rows,
    DB.execute conn (fst (Performance.stats_build req))
      (snd (Performance.stats_build req)) = inr rows ->
    exists fs,
      fst (DB.run (Performance.consultar_stats_zonas (inr conn) req))
      = inr (JObj fs)
      /\ field "data" fs = Some (JRows rows)
      /\ match rows with
         | [] =>
             field "count" fs = None
             /\ field "tipo_busqueda" fs = None
             /\ field "mensaje" fs
                = Some (JStr ("No se encontraron datos para la zona '"
                              ++ match Performance.nombre_zona req with
                                 | Some z => z
                                 | None => "None"
                                 end ++ "'"))
         | _ :: _ =>
             field "count" fs = Some (JInt (Z.of_nat (List.length rows)))
             /\ field "tipo_busqueda" fs
                = Some (JStr (if Py.truthy (Performance.nombre_zona req)
                              then "Específica" else "Top Mercado"))
             /\ field "mensaje" fs = None
         end.
Proof.
  intros conn req rows Hex.
  unfold DB.run, Performance.consultar_stats_zonas.
  destruct (Performance.stats_build req) as [q ps]. cbn [fst snd] in Hex.
  destruct rows as [|r rows].
  - eexists. split; [|split; [|split; [|split]]].
    + erewrite with_connection_returns; cycle 1.
      * apply performance_connects.
      * rewrite (bind_inr _ _ _ _ _ (cur_execute_rows _ _ _ _ _ Hex)).
        reflexivity.
      * reflexivity.
    + reflexivity.
    + reflexivity.
    + reflexivity.
    + reflexivity.
  - eexists. split; [|split; [|split; [|split]]].
    + erewrite with_connection_returns; cycle 1.
      * apply performance_connects.
      * rewrite (bind_inr _ _ _ _ _ (cur_execute_rows _ _ _ _ _ Hex)).
        reflexivity.
      * reflexivity.
    + reflexivity.
    + reflexivity.
    + reflexivity.
    + reflexivity.
Qed.

Lemma stats_answers_witness :
  let req := Performance.Build_ZonaStatsRequest None 10 in
  DB.execute Demo.empty_conn (fst (Performance.stats_build req))
    (snd (Performance.stats_build req)) = inr []
  /\ exists fs,
      fst (DB.run (Performance.consultar_stats_zonas (inr Demo.empty_conn) req))
      = inr (JObj fs)
      /\ field "data" fs = Some (JRows [])
      /\ field "count" fs = None
      /\ field "tipo_busqueda" fs = None
      /\ field "mensaje" fs
         = Some (JStr ("No se encontraron datos para la zona '"
                       ++ "None" ++ "'")).
Proof.
  intros req. split; [reflexivity|].
  apply (stats_answers Demo.empty_conn req [] eq_refl).
Defined.

(** ** Health checks *)

Lemma facturacion_health_run conn :
  DB.run (Facturacion.health_check (inr conn))
  = (match DB.execute conn "SELECT 1" [] with
     | inr _ =>
         inr (JObj [("status", JStr "healthy");
                    ("database", JStr "connected");
                    ("service", JStr "facturacion-api")])
     | inl e =>
         inr (JObj [("status", JStr "unhealthy");
                    ("database", JStr "disconnected");
                    ("error", JStr (Py.str_exn e))])
     end,
     [DB.Connect; DB.Execute "SELECT 1" []; DB.Close]).
Proof.
  unfold DB.run, Facturacion.health_check, DB.try_except, DB.with_connection,
    DB.cur_execute, DB.bind, DB.emit, DB.lift.
  rewrite facturacion_connects.
  destruct (DB.execute conn "SELECT 1" []); reflexivity.
Qed.

Lemma performance_health_run conn :
  DB.run (Performance.health_check (inr conn))
  = (match DB.execute conn "SELECT 1" [] with
     | inr _ =>
         inr (JObj [("status", JStr "healthy");
                    ("database", JStr "connected");
                    ("service", JStr "performance-api")])
     | inl e =>
         inr (JObj [("status", JStr "unhealthy");
                    ("database", JStr "disconnected");
                    ("error", JStr (Py.str_exn e))])
     end,
     [DB.Connect; DB.Execute "SELECT 1" []; DB.Close]).
Proof.
  unfold DB.run, Performance.health_check, DB.try_except, DB.with_connection,
    DB.cur_execute, DB.bind, DB.emit, DB.lift.
  rewrite performance_connects.
  destruct (DB.execute conn "SELECT 1" []); reflexivity.
Qed.

Lemma facturacion_health_down e :
  exists text,
    DB.run (Facturacion.health_check (inl e))
    = (inr (JObj [("status", JStr "unhealthy");
                  ("database", JStr "disconnected");
                  ("error", JStr text)]),
       [DB.Connect; DB.Print ("❌ Error DB: " ++ Py.str_exn e)]).
Proof. eexists. reflexivity. Qed.

Lemma performance_health_down e :
  exists text,
    DB.run (Performance.health_check (inl e))
    = (inr (JObj [("status", JStr "unhealthy");
                  ("database", JStr "disconnected");
                  ("error", JStr text)]),
       [DB.Connect; DB.Print ("❌ Error DB: " ++ Py.str_exn e)]).
Proof. eexists. reflexivity. Qed.

Lemma unhealthy_fields text :
  let fs := [("status", JStr "unhealthy"); ("database", JStr "disconnected");
             ("error", JStr text)] in
  field "status" fs <> Some (JStr "healthy")
  /\ field "status" fs = Some (JStr "unhealthy")
  /\ field "error" fs = Some (JStr text).
Proof. repeat split. discriminate. Qed.

(** X14.  The health checks of the two HTTP servers never raise.  They answer
    "healthy" exactly when the connection opens and [SELECT 1] succeeds on
    it, and otherwise "unhealthy" with the text of the failure; a connection
    that was opened has been closed either way. *)
Theorem health_reports_database :
  forall w,
    let ok (m : DB.M json) :=
      exists fs,
        fst (DB.run m) = inr (JObj fs)
        /\ (field "status" fs = Some (JStr "healthy")
            <-> exists conn rows,
                 w = inr conn /\ DB.execute conn "SELECT 1" [] = inr rows)
        /\ (field "status" fs = Some (JStr "healthy")
            \/ (field "status" fs = Some (JStr "unhealthy")
                /\ exists text, field "error" fs = Some (JStr text)))
        /\ (forall conn,
               w = inr conn ->
               snd (DB.run m)
               = [DB.Connect; DB.Execute "SELECT 1" []; DB.Close]) in
    ok (Facturacion.health_check w) /\ ok (Performance.health_check w).
Proof.
  intros w ok. subst ok. cbv beta.
  destruct w as [e|conn].
  - destruct (facturacion_health_down e) as [t1 H1].
    destruct (performance_health_down e) as [t2 H2].
    rewrite H1, H2. cbn [fst snd].
    destruct (unhealthy_fields t1) as (A1 & B1 & C1).
    destruct (unhealthy_fields t2) as (A2 & B2 & C2).
    split; eexists; (split; [reflexivity|]); repeat split;
      try (intros H; contradiction);
      try (intros (conn & rows & H & _); discriminate H);
      try (intros conn H; discriminate H);
      right; split; eauto.
  - rewrite facturacion_health_run, performance_health_run. cbn [fst snd].
    destruct (DB.execute conn "SELECT 1" []) as [e|rows] eqn:Hex.
    + destruct (unhealthy_fields (Py.str_exn e)) as (A & B & C).
      split; eexists; (split; [reflexivity|]); repeat split;
        try (intros H; contradiction);
        try (intros (conn' & rows & H & Hex'); inversion H; subst conn';
             congruence);
        right; split; eauto.
    + split; eexists; (split; [reflexivity|]); repeat split; eauto.
Qed.

(** ** Dates as the database prints them *)

Lemma all_from_spec (f : Z -> bool) (count : nat) :
  forall from,
    all_from f from count = true ->
    forall x, from <= x < from + Z.of_nat count -> f x = true.
Proof.
  induction count as [|k IH]; intros from H x Hx; [lia|].
  cbn [all_from] in H. apply andb_true_iff in H. destruct H as [H0 H1].
  destruct (Z.eq_dec x from) as [->|N]; [exact H0|].
  apply (IH (from + 1) H1). lia.
Qed.

Lemma pad4_all :
  all_from (fun n => four_digits_of n (Fmt.pad 4 n)) 1 (Z.to_nat 9999) = true.
Proof. vm_compute. reflexivity. Qed.

Lemma pad2_all :
  all_from (fun n => two_digits_of n (Fmt.pad 2 n)) 1 (Z.to_nat 31) = true.
Proof. vm_compute. reflexivity. Qed.

Lemma pad4_digits y :
  1 <= y <= 9999 -> four_digits_of y (Fmt.pad 4 y) = true.
Proof. intros H. apply (all_from_spec _ _ _ pad4_all y). lia. Qed.

Lemma pad2_digits n :
  1 <= n <= 31 -> two_digits_of n (Fmt.pad 2 n) = true.
Proof. intros H. apply (all_from_spec _ _ _ pad2_all n). lia. Qed.

(** X15.  Round trip of a date: the text of a calendar date as the summary
    prints it ([str] of a [date], YYYY-MM-DD with leading zeros) is accepted
    by [validar_fecha], passes the date check of the handlers when given
    back as a filter, and reads as the date it came from. *)
Theorem printed_dates_are_accepted :
  forall y m d,
    Strptime.date_ok y m d = true ->
    Strptime.strptime (Fmt.str_date y m d) = inr (y, m, d)
    /\ validar_fecha (Fmt.str_date y m d) = true
    /\ fecha_invalida (Some (Fmt.str_date y m d)) = false.
Proof.
  intros y m d Hok.
  assert (Hparse : Strptime.strptime (Fmt.str_date y m d) = inr (y, m, d)).
  { pose proof Hok as Hok'. unfold Strptime.date_ok in Hok'. split_andb.
    repeat match goal with
           | H : (_ <=? _) = true |- _ => apply Z.leb_le in H
           end.
    pose proof (days_in_month_le_31 y m) as H31.
    assert (Hy : four_digits_of y (Fmt.pad 4 y) = true)
      by (apply pad4_digits; lia).
    assert (Hm : two_digits_of m (Fmt.pad 2 m) = true)
      by (apply pad2_digits; lia).
    assert (Hd : two_digits_of d (Fmt.pad 2 d) = true)
      by (apply pad2_digits; lia).
    unfold Fmt.str_date.
    destruct (Fmt.pad 4 y) as [|y1 [|y2 [|y3 [|y4 [|? ?]]]]];
      try discriminate Hy.
    destruct (Fmt.pad 2 m) as [|m1 [|m2 [|? ?]]]; try discriminate Hm.
    destruct (Fmt.pad 2 d) as [|d1 [|d2 [|? ?]]]; try discriminate Hd.
    unfold four_digits_of in Hy. unfold two_digits_of in Hm, Hd. split_andb.
    repeat match goal with
           | H : (_ =? _) = true |- _ => apply Z.eqb_eq in H
           end.
    cbn [String.append].
    rewrite strict_date_parses.
    - unfold strict_date. congruence.
    - unfold yyyy_mm_dd.
      repeat match goal with
             | H : Strptime.is_digit _ = true |- _ => rewrite H; clear H
             end.
      cbn [andb]. congruence. }
  assert (Hval : validar_fecha (Fmt.str_date y m d) = true)
    by (unfold validar_fecha; rewrite Hparse; reflexivity).
  split; [exact Hparse|]. split; [exact Hval|].
  unfold fecha_invalida, and_then.
  destruct (Fmt.str_date y m d); [reflexivity|].
  rewrite Hval. reflexivity.
Qed.

Lemma printed_dates_are_accepted_witness :
  Strptime.date_ok 2024 2 29 = true
  /\ Strptime.strptime (Fmt.str_date 2024 2 29) = inr (2024, 2, 29)
  /\ validar_fecha (Fmt.str_date 2024 2 29) = true
  /\ fecha_invalida (Some (Fmt.str_date 2024 2 29)) = false.
Proof.
  split; [reflexivity|].
  apply (printed_dates_are_accepted 2024 2 29). reflexivity.
Defined.

(** ** The answer of the invoice endpoint *)

(** X16.  The invoice endpoint returns normally only when the request passed
    validation, the connection opened and the built statement succeeded; its
    answer then carries exactly the rows the driver returned for that
    statement, their number as [count], and the request as it was given
    ([None] and empty texts included) as [filtros_aplicados]; the connection
    has been closed. *)
Theorem invoice_answer_reports_the_rows :
  forall w req cif j,
    fst (DB.run (Facturacion.consultar_facturas w req cif)) = inr j ->
    exists conn rows,
      w = inr conn
      /\ (estado_invalido (Facturacion.estado req)
          || fecha_invalida (Facturacion.fecha_inicio req)
          || fecha_invalida (Facturacion.fecha_fin req)
          || rango_invalido (Facturacion.fecha_inicio req)
               (Facturacion.fecha_fin req) = false)
      /\ DB.execute conn (fst (Facturacion.build_query req cif))
           (snd (Facturacion.build_query req cif)) = inr rows
      /\ j = JObj
               [("count", JInt (Z.of_nat (List.length rows)));
                ("data", JRows rows);
                ("filtros_aplicados",
                 JObj [("estado", json_of_opt (Facturacion.estado req));
                       ("fecha_inicio",
                        json_of_opt (Facturacion.fecha_inicio req));
                       ("fecha_fin", json_of_opt (Facturacion.fecha_fin req));
                       ("limit", JInt (Facturacion.limit req));
                       ("agent_cif", json_of_opt cif)])]
      /\ snd (DB.run (Facturacion.consultar_facturas w req cif))
         = [DB.Connect;
            DB.Execute (fst (Facturacion.build_query req cif))
              (snd (Facturacion.build_query req cif));
            DB.Close].
Proof.
  intros w req cif j. unfold DB.run, Facturacion.consultar_facturas.
  destruct (estado_invalido _); [discriminate|].
  destruct (fecha_invalida (Facturacion.fecha_inicio req)); [discriminate|].
  destruct (fecha_invalida (Facturacion.fecha_fin req)); [discriminate|].
  destruct (rango_invalido _ _); [discriminate|].
  destruct w as [e|conn]; [discriminate|].
  destruct (Facturacion.build_query req cif) as [q ps]. cbn [fst snd].
  destruct (DB.execute conn q ps) as [e|rows] eqn:Hex.
  - erewrite with_connection_raises; cycle 1.
    + apply facturacion_connects.
    + rewrite (bind_inl _ _ _ _ _ (cur_execute_fails _ _ _ _ _ Hex)).
      reflexivity.
    + discriminate.
  - erewrite with_connection_returns; cycle 1.
    + apply facturacion_connects.
    + rewrite (bind_inr _ _ _ _ _ (cur_execute_rows _ _ _ _ _ Hex)).
      reflexivity.
    + cbn [fst snd]. intros H. inversion H; subst j.
      exists conn, rows. repeat split; try reflexivity. exact Hex.
Qed.

Lemma invoice_answer_reports_the_rows_witness :
  let req := Facturacion.Build_FacturasRequest (Some "PAGADA")
               (Some "2024-11-01") (Some "2024-11-30") 5 in
  let w : DB.world := inr Demo.noviembre_conn in
  exists j,
    fst (DB.run (Facturacion.consultar_facturas w req (Some "B12345678")))
    = inr j
    /\ snd (DB.run (Facturacion.consultar_facturas w req (Some "B12345678")))
       = [DB.Connect;
          DB.Execute (fst (Facturacion.build_query req (Some "B12345678")))
            (snd (Facturacion.build_query req (Some "B12345678")));
          DB.Close].
Proof.
  intros req w. eexists. split; [reflexivity|].
  destruct (invoice_answer_reports_the_rows w req (Some "B12345678") _ eq_refl)
    as (conn & rows & _ & _ & _ & _ & Hlog).
  exact Hlog.
Defined.

(** ** The start date of the SSE tool *)

(** X17.  The invoice tool of agent_server_sse.py never checks its start
    date: for a known e-mail, any non-empty [fecha_inicio], a date or not, is
    bound as it is to the [fecha_emision >=] predicate of the statement that
    is executed. *)
Theorem sse_start_date_is_not_validated :
  forall rt conn email r rest c estado (s : string) limit,
    DB.execute conn AgentSSE.resolve_query [DB.VStr email] = inr (r :: rest) ->
    DB.lookup "cif" r = Some c ->
    estado_invalido estado = false ->
    s <> EmptyString ->
    let qp := AgentSSE.build_query c estado (Some s) limit in
    DB.executed
      (snd (DB.run (AgentSSE.consultar_mis_facturas rt (inr conn) email estado
                      (Some s) limit)))
    = [(AgentSSE.resolve_query, [DB.VStr email]); qp]
    /\ snd qp
       = ([c] ++ (if Py.truthy estado then [DB.param_of_opt estado] else [])
              ++ [DB.VStr s; DB.VInt limit])%list
    /\ slots_of_statement (fst qp)
       = Some ([SCif] ++ (if Py.truthy estado then [SEstado] else [])
                      ++ [SDesde; SLimit])%list.
Proof.
  intros rt conn email r rest c estado s limit Hex Hc Hok Hs qp.
  destruct s as [|ch s]; [congruence|].
  split; [|split].
  - unfold DB.run, AgentSSE.consultar_mis_facturas. rewrite Hok.
    rewrite (log_of_guarded _ _ _ [] conn [DB.Connect]);
      [|apply sse_connects|intros e; apply quiet_ret].
    rewrite (bind_inr _ _ _ _ _ (sse_resolves _ _ _ _ _ _ Hex Hc)).
    subst qp.
    destruct (AgentSSE.build_query c estado (Some (String ch s)) limit)
      as [q ps].
    rewrite log_after_execute; [reflexivity|].
    intros rows. destruct rows; apply quiet_ret.
  - subst qp. unfold AgentSSE.build_query, append_if.
    destruct (Py.truthy estado); reflexivity.
  - subst qp. unfold AgentSSE.build_query, append_if.
    destruct (Py.truthy estado); vm_compute; reflexivity.
Qed.

Lemma sse_start_date_is_not_validated_witness :
  let r := [("cif", DB.VStr "B12345678")] in
  let conn := {| DB.execute := fun _ _ => inr [r] |} in
  let qp := AgentSSE.build_query (DB.VStr "B12345678") None (Some "ayer") 5 in
  (validar_fecha "ayer" = false
   /\ DB.execute conn AgentSSE.resolve_query [DB.VStr "ana.lopez@inmo.es"]
      = inr [r])
  /\ DB.executed
       (snd (DB.run (AgentSSE.consultar_mis_facturas Demo.rt (inr conn)
                       "ana.lopez@inmo.es" None (Some "ayer") 5)))
     = [(AgentSSE.resolve_query, [DB.VStr "ana.lopez@inmo.es"]); qp].
Proof.
  intros r conn qp. split; [split; reflexivity|].
  apply (proj1 (sse_start_date_is_not_validated Demo.rt conn
                  "ana.lopez@inmo.es" r [] (DB.VStr "B12345678") None "ayer" 5
                  eq_refl eq_refl eq_refl ltac:(discriminate))).
Defined.

(** ** The endpoint and the tool *)

(** X18.  The invoice endpoint of facturacion_server.py and the invoice tool
    of agent_server.py refuse the same requests with the same words: the
    endpoint raises HTTP 400 with a detail exactly when the tool answers
    "Error: " followed by that detail, and neither has touched the database
    by then.  For every request they bind the same arguments, in the same
    roles, to their statements. *)
Theorem tool_and_endpoint_agree :
  forall rt w estado fecha_inicio fecha_fin limit cif,
    let req :=
      Facturacion.Build_FacturasRequest estado fecha_inicio fecha_fin limit in
    (forall d,
        fst (DB.run (Facturacion.consultar_facturas w req cif))
        = inl (Py.HTTPException 400 d)
        <-> DB.run (Agent.consultar_mis_facturas rt cif w estado fecha_inicio
                      fecha_fin limit)
            = (inr ("Error: " ++ d), []))
    /\ snd (Agent.build_query cif estado fecha_inicio fecha_fin limit)
       = snd (Facturacion.build_query req cif)
    /\ slots_of_statement
         (fst (Agent.build_query cif estado fecha_inicio fecha_fin limit))
       = slots_of_statement (fst (Facturacion.build_query req cif)).
Proof.
  intros rt w estado fecha_inicio fecha_fin limit cif req. subst req.
  split; [|split].
  - intros d.
    pose proof (agent_connects_once rt cif w estado fecha_inicio fecha_fin
                  limit) as Hconn.
    pose proof (facturacion_try_not_400
                  (DB.with_connection (Facturacion.get_db_connection w)
                     (fun conn =>
                        let '(query, params) :=
                          Facturacion.build_query
                            (Facturacion.Build_FacturasRequest estado
                               fecha_inicio fecha_fin limit) cif in
                        rows <- DB.cur_execute conn query params ;;
                        DB.ret
                          (JObj
                             [("count", JInt (Z.of_nat (List.length rows)));
                              ("data", JRows rows);
                              ("filtros_aplicados",
                               JObj [("estado", json_of_opt estado);
                                     ("fecha_inicio", json_of_opt fecha_inicio);
                                     ("fecha_fin", json_of_opt fecha_fin);
                                     ("limit", JInt limit);
                                     ("agent_cif", json_of_opt cif)])])))
                  "❌ Error en consultar_facturas: " [] d) as Hnot.
    unfold DB.run in *.
    unfold Facturacion.consultar_facturas, Agent.consultar_mis_facturas in *.
    cbn [Facturacion.estado Facturacion.fecha_inicio Facturacion.fecha_fin
         Facturacion.limit] in *.
    destruct (estado_invalido estado).
    { split; intros H; inversion H; reflexivity. }
    destruct (fecha_invalida fecha_inicio).
    { split; intros H; inversion H; reflexivity. }
    destruct (fecha_invalida fecha_fin).
    { split; intros H; inversion H; reflexivity. }
    destruct (rango_invalido fecha_inicio fecha_fin).
    { split; intros H; inversion H; reflexivity. }
    split; intros H.
    + contradiction.
    + specialize (Hconn eq_refl eq_refl eq_refl eq_refl).
      rewrite H in Hconn. discriminate Hconn.
  - unfold Agent.build_query, Facturacion.build_query, append_if.
    cbn [Facturacion.estado Facturacion.fecha_inicio Facturacion.fecha_fin
         Facturacion.limit].
    destruct (Py.truthy estado), (Py.truthy fecha_inicio),
      (Py.truthy fecha_fin); reflexivity.
  - unfold Agent.build_query, Facturacion.build_query, append_if.
    cbn [Facturacion.estado Facturacion.fecha_inicio Facturacion.fecha_fin
         Facturacion.limit].
    destruct (Py.truthy estado), (Py.truthy fecha_inicio),
      (Py.truthy fecha_fin); vm_compute; reflexivity.
Qed.

(** ** Dates of the strict form *)

(** X19.  On dates written strictly as YYYY-MM-DD the validation is exact:
    both are accepted, and the request is refused with the range error, the
    database untouched, exactly when the start is the later calendar day
    (the comparison of the texts is then the comparison of the dates). *)
Theorem strict_range_check_is_calendar_order :
  forall estado a b limit,
    estado_invalido estado = false ->
    yyyy_mm_dd a = true -> yyyy_mm_dd b = true ->
    let later := date_gt (strict_date a) (strict_date b) in
    fecha_invalida (Some a) = false
    /\ fecha_invalida (Some b) = false
    /\ rango_invalido (Some a) (Some b) = later
    /\ (forall w cif,
           DB.run (Facturacion.consultar_facturas w
                     (Facturacion.Build_FacturasRequest estado (Some a) (Some b)
                        limit) cif)
           = (inl Facturacion.rango_error, [])
           <-> later = true)
    /\ (forall rt cif w,
           DB.run (Agent.consultar_mis_facturas rt cif w estado (Some a)
                     (Some b) limit)
           = (inr Agent.rango_error, [])
           <-> later = true).
Proof.
  intros estado a b limit H0 Ha Hb later. subst later.
  assert (Hfa : fecha_invalida (Some a) = false).
  { unfold fecha_invalida, and_then, validar_fecha.
    rewrite (strict_date_parses a Ha). destruct a; reflexivity. }
  assert (Hfb : fecha_invalida (Some b) = false).
  { unfold fecha_invalida, and_then, validar_fecha.
    rewrite (strict_date_parses b Hb). destruct b; reflexivity. }
  assert (Hr : rango_invalido (Some a) (Some b)
               = date_gt (strict_date a) (strict_date b)).
  { unfold rango_invalido, and_then.
    rewrite <- (strict_dates_compare_as_dates a b Ha Hb).
    destruct a; [discriminate Ha|]. destruct b; [discriminate Hb|]. reflexivity. }
  split; [exact Hfa|]. split; [exact Hfb|]. split; [exact Hr|].
  split.
  - intros w cif.
    destruct (date_gt (strict_date a) (strict_date b)) eqn:Hgt.
    + split; [reflexivity|]. intros _.
      apply (proj1 (strict_range_is_checked estado a b limit H0 Ha Hb Hgt)).
    + split; [|discriminate]. intros H.
      pose proof (facturacion_connects_once w
                    (Facturacion.Build_FacturasRequest estado (Some a) (Some b)
                       limit) cif H0 Hfa Hfb Hr) as Hc.
      rewrite H in Hc. discriminate Hc.
  - intros rt cif w.
    destruct (date_gt (strict_date a) (strict_date b)) eqn:Hgt.
    + split; [reflexivity|]. intros _.
      apply (proj2 (strict_range_is_checked estado a b limit H0 Ha Hb Hgt)).
    + split; [|discriminate]. intros H.
      pose proof (agent_connects_once rt cif w estado (Some a) (Some b) limit
                    H0 Hfa Hfb Hr) as Hc.
      rewrite H in Hc. discriminate Hc.
Qed.

Lemma strict_range_check_is_calendar_order_witness :
  (estado_invalido None = false
   /\ yyyy_mm_dd "2024-11-01" = true /\ yyyy_mm_dd "2024-02-01" = true)
  /\ rango_invalido (Some "2024-11-01") (Some "2024-02-01")
     = date_gt (strict_date "2024-11-01") (strict_date "2024-02-01")
  /\ date_gt (strict_date "2024-11-01") (strict_date "2024-02-01") = true.
Proof.
  split; [repeat split|]. split; [|reflexivity].
  apply (strict_range_check_is_calendar_order None "2024-11-01" "2024-02-01" 5
           eq_refl eq_refl eq_refl).
Defined.

(** ** All-time totals *)

(** X20.  The all-time branch of the performance endpoint reads the one row
    of sums.  A NULL number of sales is answered with the zero envelope,
    pending amount included.  Otherwise the number of sales is converted
    with [int], an amount that is NULL or zero counts as 0.0, and the pending
    amount is the float difference of invoiced and collected. *)
Theorem all_time_totals :
  forall rt conn email sums tv,
    DB.execute conn Performance.total_query [DB.VStr email] = inr [sums] ->
    DB.lookup "total_ventas" sums = Some tv ->
    let answer :=
      fst (DB.run (Performance.obtener_performance rt (inr conn)
                     (Performance.Build_PerformanceRequest None) email)) in
    (tv = DB.VNone -> answer = inr Performance.sin_datos_total)
    /\ (forall n tf tc f c,
           tv <> DB.VNone ->
           Num.py_int rt tv = inr n ->
           DB.lookup "total_facturado" sums = Some tf ->
           DB.lookup "total_cobrado" sums = Some tc ->
           (if Num.truthy tf then Num.py_float rt tf else inr Num.fzero)
           = inr f ->
           (if Num.truthy tc then Num.py_float rt tc else inr Num.fzero)
           = inr c ->
           answer
           = inr (JObj
                    [("periodo", JStr "Histórico Total");
                     ("tipo", JStr "Acumulado");
                     ("data",
                      JObj [("ventas", JInt n);
                            ("facturado", JFloat f);
                            ("cobrado", JFloat c);
                            ("pendiente_cobro", JFloat (Num.fsub f c))])])).
Proof.
  intros rt conn email sums tv Hex Hv answer. subst answer. split.
  - intros ->.
    rewrite (total_without_rows_is_zero_envelope rt conn email sums Hex Hv).
    reflexivity.
  - intros n tf tc f c Hnn Hn Hf Hc Hff Hcc.
    apply (total_pending_is_difference rt conn email sums tv n tf tc f c);
      try assumption.
    destruct tv; try reflexivity. congruence.
Qed.

Lemma all_time_totals_witness :
  let sums := [("total_ventas", DB.VInt 7); ("total_facturado", DB.VNone);
               ("total_cobrado", DB.VInt 0)] in
  let conn := {| DB.execute := fun _ _ => inr [sums] |} in
  DB.execute conn Performance.total_query [DB.VStr "ana.lopez@inmo.es"]
  = inr [sums]
  /\ fst (DB.run (Performance.obtener_performance Demo.rt (inr conn)
                    (Performance.Build_PerformanceRequest None)
                    "ana.lopez@inmo.es"))
     = inr (JObj
              [("periodo", JStr "Histórico Total");
               ("tipo", JStr "Acumulado");
               ("data",
                JObj [("ventas", JInt 7);
                      ("facturado", JFloat Num.fzero);
                      ("cobrado", JFloat Num.fzero);
                      ("pendiente_cobro",
                       JFloat (Num.fsub Num.fzero Num.fzero))])]).
Proof.
  intros sums conn. split; [reflexivity|].
  apply (proj2 (all_time_totals Demo.rt conn "ana.lopez@inmo.es" sums
                  (DB.VInt 7) eq_refl eq_refl)
           7 DB.VNone (DB.VInt 0) Num.fzero Num.fzero);
    try reflexivity. discriminate.
Defined.

(** ** What the validator accepts *)

Lemma match_Y_length s y r :
  Strptime.match_Y s = Some (y, r) ->
  String.length s = (4 + String.length r)%nat.
Proof.
  unfold Strptime.match_Y.
  destruct s as [|a [|b [|c [|d s]]]]; try discriminate.
  destruct (Strptime.is_digit a && Strptime.is_digit b && Strptime.is_digit c
            && Strptime.is_digit d); [|discriminate].
  intros H. inversion H; subst. reflexivity.
Qed.

Lemma match_dash_length s r :
  Strptime.match_dash s = Some r ->
  String.length s = (1 + String.length r)%nat.
Proof.
  destruct s as [|c s]; [discriminate|].
  destruct (Ascii.eqb_spec c "-") as [->|N].
  - intros H. inversion H; subst. reflexivity.
  - destruct c as [[] [] [] [] [] [] [] []]; try discriminate; congruence.
Qed.

Lemma two_length p q s n r :
  In (n, r) (Strptime.two p q s) ->
  String.length s = (2 + String.length r)%nat.
Proof.
  unfold Strptime.two. destruct s as [|a [|b s]]; try (intros []).
  destruct (p a && q b); [|intros []].
  intros [H|[]]. inversion H; subst. reflexivity.
Qed.

Lemma one_length p s n r :
  In (n, r) (Strptime.one p s) ->
  String.length s = (1 + String.length r)%nat.
Proof.
  unfold Strptime.one. destruct s as [|a s]; try (intros []).
  destruct (p a); [|intros []].
  intros [H|[]]. inversion H; subst. reflexivity.
Qed.

Lemma blank_one_length s n r :
  In (n, r) (Strptime.blank_one s) ->
  String.length s = (2 + String.length r)%nat.
Proof.
  destruct s as [|c [|b s]]; try (intros []).
  - destruct c as [[] [] [] [] [] [] [] []]; intros [].
  - destruct (Ascii.eqb_spec c " ") as [->|N].
    + cbn [Strptime.blank_one]. destruct (Strptime.in_range 49 57 b); [|intros []].
      intros [H|[]]. inversion H; subst. reflexivity.
    + destruct c as [[] [] [] [] [] [] [] []]; try (intros []); congruence.
Qed.

Lemma m_candidates_length s n r :
  In (n, r) (Strptime.m_candidates s) ->
  (String.length s = 1 + String.length r
   \/ String.length s = 2 + String.length r)%nat.
Proof.
  unfold Strptime.m_candidates. intros H.
  apply in_app_or in H. destruct H as [H|H];
    [right; exact (two_length _ _ _ _ _ H)|].
  apply in_app_or in H. destruct H as [H|H];
    [right; exact (two_length _ _ _ _ _ H)|].
  left; exact (one_length _ _ _ _ H).
Qed.

Lemma d_candidates_length s n r :
  In (n, r) (Strptime.d_candidates s) ->
  (String.length s = 1 + String.length r
   \/ String.length s = 2 + String.length r)%nat.
Proof.
  unfold Strptime.d_candidates. intros H.
  apply in_app_or in H. destruct H as [H|H];
    [right; exact (two_length _ _ _ _ _ H)|].
  apply in_app_or in H. destruct H as [H|H];
    [right; exact (two_length _ _ _ _ _ H)|].
  apply in_app_or in H. destruct H as [H|H];
    [right; exact (two_length _ _ _ _ _ H)|].
  apply in_app_or in H. destruct H as [H|H];
    [left; exact (one_length _ _ _ _ H)|].
  right; exact (blank_one_length _ _ _ H).
Qed.

Lemma first_some_in {A B} (f : A -> option B) xs y :
  Strptime.first_some f xs = Some y -> exists x, In x xs /\ f x = Some y.
Proof.
  induction xs as [|x xs IH]; [discriminate|].
  cbn [Strptime.first_some]. destruct (f x) as [z|] eqn:E.
  - intros H. inversion H; subst. exists x. split; [left; reflexivity|exact E].
  - intros H. destruct (IH H) as (x' & Hin & Hx'). exists x'.
    split; [right; exact Hin|exact Hx'].
Qed.

Lemma regex_match_length s y m d rest :
  Strptime.regex_match s = Some (y, m, d, rest) ->
  (8 + String.length rest <= String.length s <= 10 + String.length rest)%nat.
Proof.
  unfold Strptime.regex_match.
  destruct (Strptime.match_Y s) as [[y0 s1]|] eqn:HY; [|discriminate].
  destruct (Strptime.match_dash s1) as [s2|] eqn:H1; [|discriminate].
  intros H. apply first_some_in in H. destruct H as ([m0 s3] & Hin & H).
  destruct (Strptime.match_dash s3) as [s4|] eqn:H2; [|discriminate].
  destruct (Strptime.d_candidates s4) as [|[d0 r0] tl] eqn:HD; [discriminate|].
  inversion H; subst.
  apply match_Y_length in HY. apply match_dash_length in H1.
  apply match_dash_length in H2. apply m_candidates_length in Hin.
  assert (Hd : In (d, rest) (Strptime.d_candidates s4))
    by (rewrite HD; left; reflexivity).
  apply d_candidates_length in Hd. lia.
Qed.

(** X21.  Among the texts of ASCII characters, whatever [validar_fecha]
    accepts names a day of the calendar (the month has that day, 29 February
    only in leap years) and is 8 to 10 characters long: nothing longer, such
    as a date followed by a time or by a blank, gets through. *)
Theorem accepted_dates_are_calendar_days :
  forall s,
    ascii_text s = true ->
    validar_fecha s = true ->
    exists y m d,
      Strptime.strptime s = inr (y, m, d)
      /\ Strptime.date_ok y m d = true
      /\ (8 <= String.length s <= 10)%nat.
Proof.
  intros s _. unfold validar_fecha, Strptime.strptime.
  destruct (Strptime.regex_match s) as [[[[y m] d] rest]|] eqn:HR;
    [|discriminate].
  destruct rest as [|c rest]; [|discriminate].
  destruct (Strptime.date_ok y m d) eqn:Hok; [|discriminate].
  intros _. exists y, m, d. rewrite Hok.
  split; [reflexivity|]. split; [reflexivity|].
  apply regex_match_length in HR. simpl in HR. lia.
Qed.

Lemma accepted_dates_are_calendar_days_witness :
  (ascii_text "2024-1-5" = true /\ validar_fecha "2024-1-5" = true)
  /\ exists y m d,
      Strptime.strptime "2024-1-5" = inr (y, m, d)
      /\ Strptime.date_ok y m d = true
      /\ (8 <= String.length "2024-1-5" <= 10)%nat.
Proof.
  split; [split; reflexivity|].
  apply (accepted_dates_are_calendar_days "2024-1-5"); reflexivity.
Defined.
